(** * GenTestAI watcher service: change detection and diff delivery

    A shallow embedding of the Python watcher service and the
    properties its specification states about it.  The embedded code is

    - watcher-service-backend/src/watcher/file_watcher.py:
      [ChangeEventHandler], [RepoWatcher] and [WatcherManager], without
      the status queries [get_repo_status] and [get_all_status];
    - watcher-service-backend/src/processor/change_processor.py:
      [ChangeProcessor], without [get_change_statistics] and
      [health_check];
    - watcher-service-backend/src/api/server.py: [handle_file_change],
      the callable that ties the two together, and
      [load_existing_repositories], which fills the registry at
      startup.

    Python values are modelled as follows: [str] as [string] (the bytes
    of the text), [int] as [Z], values that may be [None] as [option],
    [Dict[str, str]] as [gmap string string], and a [dict] that is
    iterated over (the watcher registry, the result of [start_all]) as
    an association list in insertion order.  What the service reads
    from outside (files, git, the clock, the answers of the AI backend)
    is an argument of the model.  What it does to the outside (HTTP
    requests, sleeps, calls to the observer thread) is recorded in
    traces.  Exceptions are values of a result type; log messages are
    left out. *)

From Stdlib Require Import ZArith String Ascii List Bool Lia.
From stdpp Require Import base option list gmap strings pretty.
From stdpp Require Import sorting.

Local Open Scope string_scope.
Local Open Scope Z_scope.
Local Open Scope list_scope.

(** ** Python string primitives *)

Module PyStr.

Definition newline : ascii := "010"%char.

(** [s.split(c)] for a one-character separator: never empty, the
    empty string gives [[""]]. *)
Fixpoint split_on (c : ascii) (s : string) : list string :=
  match s with
  | EmptyString => [EmptyString]
  | String x rest =>
      if Ascii.eqb x c then EmptyString :: split_on c rest
      else match split_on c rest with
           | l :: ls => String x l :: ls
           | [] => [String x EmptyString]
           end
  end.

(** [sep.join(ls)] *)
Fixpoint join_with (sep : string) (ls : list string) : string :=
  match ls with
  | [] => EmptyString
  | [l] => l
  | l :: rest => l +:+ sep +:+ join_with sep rest
  end.

(** [s.split('\n')] and ['\n'.join(ls)] *)
Definition split_lines (s : string) : list string := split_on newline s.

Definition join_lines (ls : list string) : string :=
  join_with (String newline EmptyString) ls.

(** [s.startswith(p)] *)
Definition startswith (s p : string) : bool := String.prefix p s.

(** [s.endswith(p)] *)
Definition endswith (s p : string) : bool :=
  String.prefix (String.rev p) (String.rev s).

(** [s[1:]] *)
Definition drop1 (s : string) : string :=
  match s with
  | EmptyString => EmptyString
  | String _ rest => rest
  end.

(** Truthiness of a string: [if s] holds for non-empty strings. *)
Definition truthy (s : string) : bool :=
  match s with
  | EmptyString => false
  | String _ _ => true
  end.

(** [p in s] on strings: [p] occurs as a contiguous substring. *)
Fixpoint contains (s p : string) : bool :=
  String.prefix p s ||
  match s with
  | EmptyString => false
  | String _ rest => contains rest p
  end.

(** [x in xs] for a list of strings. *)
Definition str_in (x : string) (xs : list string) : bool :=
  existsb (String.eqb x) xs.

End PyStr.

(** ** Paths: the parts of [pathlib] and [os.path] the service uses

    POSIX flavour.  [suffix] follows the rule of Python up to 3.13: the
    text from the last dot of the name on, unless that dot opens or
    closes the name. *)

Module PyPath.

Definition slash : ascii := "/"%char.

(** [splitroot]: the root of a path is "/", "//" (exactly two leading
    slashes) or empty. *)
Definition root (path : string) : string :=
  if PyStr.startswith path "/" then
    if PyStr.startswith path "//" && negb (PyStr.startswith path "///")
    then "//" else "/"
  else "".

(** The components after the root: empty ones and "." are dropped. *)
Definition tail (path : string) : list string :=
  List.filter (fun x => negb (String.eqb x "") && negb (String.eqb x "."))
              (PyStr.split_on slash path).

(** [Path(path).parts] *)
Definition parts (path : string) : list string :=
  if PyStr.truthy (root path) then root path :: tail path else tail path.

(** [Path(path).name] *)
Definition name (path : string) : string := List.last (tail path) "".

(** [s[i:]] for [i = s.rfind('.')], if there is a dot. *)
Fixpoint from_last_dot (s : string) : option string :=
  match s with
  | EmptyString => None
  | String c rest =>
      match from_last_dot rest with
      | Some suf => Some suf
      | None => if Ascii.eqb c "."%char then Some s else None
      end
  end.

(** [Path(path).suffix]: [name[i:]] when [0 < i < len(name) - 1]. *)
Definition suffix (path : string) : string :=
  let name := name path in
  match from_last_dot name with
  | Some suf =>
      if (String.length suf <? String.length name)%nat
         && (1 <? String.length suf)%nat
      then suf else ""
  | None => ""
  end.

(** [os.path.join(a, b)] *)
Definition join (a b : string) : string :=
  if PyStr.startswith b "/" then b
  else if negb (PyStr.truthy a) || PyStr.endswith a "/" then a +:+ b
  else a +:+ "/" +:+ b.

(** One step of the loop of [os.path.normpath] over the components;
    [rooted] tells whether the path has initial slashes, [acc] holds
    the components kept so far, last first. *)
Definition norm_step (rooted : bool) (acc : list string) (comp : string)
    : list string :=
  if String.eqb comp "" || String.eqb comp "." then acc
  else if negb (String.eqb comp "..")
          || (negb rooted && match acc with [] => true | _ => false end)
          || match acc with c :: _ => String.eqb c ".." | [] => false end
  then comp :: acc
  else match acc with
       | _ :: rest => rest
       | [] => []
       end.

Definition norm_comps (path : string) : list string :=
  rev (fold_left (norm_step (PyStr.truthy (root path))) 
                 (PyStr.split_on slash path) []).

(** [os.path.normpath(path)] *)
Definition normpath (path : string) : string :=
  if negb (PyStr.truthy path) then "."
  else
    let res := root path +:+ PyStr.join_with "/" (norm_comps path) in
    if PyStr.truthy res then res else ".".

(** [os.path.abspath(path)] in the working directory [cwd]. *)
Definition abspath (cwd path : string) : string :=
  if PyStr.startswith path "/" then normpath path
  else normpath (join cwd path).

(** Length of the common prefix of two lists of components. *)
Fixpoint common (xs ys : list string) : nat :=
  match xs, ys with
  | x :: xs', y :: ys' => if String.eqb x y then S (common xs' ys') else 0%nat
  | _, _ => 0%nat
  end.

(** [os.path.relpath(path, start)] *)
Definition relpath (cwd path start : string) : string :=
  let comps p :=
    List.filter PyStr.truthy (PyStr.split_on slash (abspath cwd p)) in
  let start_list := comps start in
  let path_list := comps path in
  let i := common start_list path_list in
  let rel_list :=
    repeat ".." (length start_list - i) ++ drop i path_list in
  match rel_list with
  | [] => "."
  | first :: rest => fold_left join rest first
  end.

End PyPath.

(** ** The outside world: files and version control

    The service reads files and queries git; both are inputs of the
    model.  A path names a file through [w_file], whatever its
    spelling, so two spellings of one file are a world whose function
    agrees on them. *)

Inductive FileState :=
| Missing                        (* no such file: [os.path.exists] is false *)
| Unreadable (err : string)      (* exists, [open]/[read] raises [err] *)
| Readable (content : string).   (* text as decoded with errors='ignore' *)

Record Commit := mkCommit {
  c_author_name : string;
  c_author_email : string;
  c_hexsha : string
}.

(** What [git.Repo] answers for one working tree. *)
Record GitRepo := mkGitRepo {
  (* [repo.git.show("HEAD:<path>")]; [None] when the command fails *)
  git_show_head : string -> option string;
  (* [iter_commits(paths=p, max_count=1)]: [None] when it raises,
     [Some None] when no commit touches the path *)
  git_last_commit : string -> option (option Commit);
  (* the user name and e-mail of the configuration; [None] when
     reading the configuration raises *)
  git_config_user : option (string * string)
}.

(** An entry of a directory as [os.walk] sees it. *)
#[warnings="-register-all"]
Inductive DirEntry :=
| FileEntry (name : string)
| SubDir (name : string) (children : list DirEntry).

(** How [observer.stop(); observer.join(timeout=5)] goes: either call
    may raise; a join that returns does so whether the thread ended
    within the timeout or not. *)
Inductive StopOutcome :=
| StopRaises
| JoinRaises
| JoinTimesOut
| Joins.

Record World := mkWorld {
  (* working directory of the process *)
  w_cwd : string;
  (* local time as [datetime.now().isoformat()] *)
  w_now : string;
  (* the regular files *)
  w_file : string -> FileState;
  (* the directories: the entries of the directory at a path, [None]
     when there is no directory at that path *)
  w_dir : string -> option (list DirEntry);
  (* [Repo(path)]: [None] when it raises (InvalidGitRepositoryError or
     anything else) *)
  w_git : string -> option GitRepo;
  (* whether [Observer.schedule] and [start] succeed on a directory *)
  w_observable : string -> bool;
  (* how stopping the observer of a directory goes *)
  w_stop : string -> StopOutcome
}.

(** ** Change records *)

(** The change record a watcher emits ([_extract_git_info]).  The
    watcher builds every key, so the record has them all. *)
Record ChangeData := mkChangeData {
  cd_repository_id : string;
  cd_file_path : string;
  cd_relative_path : string;
  cd_change_type : string;
  cd_timestamp : string;
  cd_file_extension : string;
  cd_git_diff : string;
  cd_formatted_changes : string;
  cd_author : string;
  cd_author_email : string;
  cd_commit_hash : option string;
  cd_lines_added : Z;
  cd_lines_removed : Z
}.

(** ** [difflib.unified_diff]

    The watcher calls Python's [difflib.unified_diff] with the default
    three lines of context, no file dates and an empty line
    terminator.  The model follows [difflib.SequenceMatcher] as the
    library computes it for lists of lines: no junk test, the
    automatic "popular element" rule for sequences of 200 lines or
    more, matching blocks by longest match first, opcodes, and groups
    of opcodes with their context. *)

Module Difflib.

Inductive Tag := Replace | Delete | Insert | Equal.

(** (tag, i1, i2, j1, j2): a[i1:i2] is replaced by, or equal to,
    b[j1:j2]. *)
Record Opcode := mkOpcode {
  op_tag : Tag;
  op_i1 : nat;
  op_i2 : nat;
  op_j1 : nat;
  op_j2 : nat
}.

(** A match [a[i:i+k] == b[j:j+k]]. *)
Record Match := mkMatch {
  m_i : nat;
  m_j : nat;
  m_size : nat
}.

Definition is_equal (t : Tag) : bool :=
  match t with
  | Equal => true
  | _ => false
  end.

(** [l[i1:i2]] *)
Definition slice {A} (l : list A) (i1 i2 : nat) : list A :=
  take (i2 - i1) (drop i1 l).

(** The indices, from [j] on, at which [x] occurs in [l]. *)
Fixpoint indices_of (x : string) (l : list string) (j : nat) : list nat :=
  match l with
  | [] => []
  | y :: rest =>
      if String.eqb y x then j :: indices_of x rest (S j)
      else indices_of x rest (S j)
  end.

Section Matcher.

Context (a b : list string).

(** An element of [b] is popular, and then ignored when matches are
    sought, if [b] has at least 200 elements and more than
    [len(b) // 100 + 1] of them are that element. *)
Definition popular (x : string) : bool :=
  (200 <=? length b)%nat
  && (length b / 100 + 1 <? length (indices_of x b 0))%nat.

(** [b2j.get(x, [])] *)
Definition b2j (x : string) : list nat :=
  if popular x then [] else indices_of x b 0.

(** The inner loop of [find_longest_match] for the element at [i]:
    over the indices [js] of that element in [b]. *)
Fixpoint scan_js (i blo bhi : nat) (j2len : gmap nat nat) (js : list nat)
    (newj2len : gmap nat nat) (best : Match) : gmap nat nat * Match :=
  match js with
  | [] => (newj2len, best)
  | j :: rest =>
      if (j <? blo)%nat then scan_js i blo bhi j2len rest newj2len best
      else if (bhi <=? j)%nat then (newj2len, best)
      else
        let k := S (match j with
                    | O => 0%nat
                    | S j' => default 0%nat (j2len !! j')
                    end) in
        scan_js i blo bhi j2len rest (<[j := k]> newj2len)
          (if (m_size best <? k)%nat
           then mkMatch (i + 1 - k) (j + 1 - k) k else best)
  end.

(** The outer loop, over [a[i:ahi]] given as [items]. *)
Fixpoint scan_is (blo bhi : nat) (items : list string) (i : nat)
    (j2len : gmap nat nat) (best : Match) : Match :=
  match items with
  | [] => best
  | x :: rest =>
      let '(newj2len, best') := scan_js i blo bhi j2len (b2j x) ∅ best in
      scan_is blo bhi rest (S i) newj2len best'
  end.

(** The two [while] loops that extend a match over elements the
    popularity rule ignored. *)
Fixpoint extend_left (fuel alo blo : nat) (best : Match) : Match :=
  match fuel with
  | O => best
  | S fuel' =>
      if (alo <? m_i best)%nat && (blo <? m_j best)%nat
         && bool_decide (a !! (m_i best - 1)%nat = b !! (m_j best - 1)%nat)
      then extend_left fuel' alo blo
             (mkMatch (m_i best - 1) (m_j best - 1) (S (m_size best)))
      else best
  end.

Fixpoint extend_right (fuel ahi bhi : nat) (best : Match) : Match :=
  match fuel with
  | O => best
  | S fuel' =>
      if (m_i best + m_size best <? ahi)%nat
         && (m_j best + m_size best <? bhi)%nat
         && bool_decide (a !! (m_i best + m_size best)%nat
                         = b !! (m_j best + m_size best)%nat)
      then extend_right fuel' ahi bhi
             (mkMatch (m_i best) (m_j best) (S (m_size best)))
      else best
  end.

Definition find_longest_match (alo ahi blo bhi : nat) : Match :=
  let best := scan_is blo bhi (slice a alo ahi) alo ∅ (mkMatch alo blo 0) in
  let best := extend_left (length a) alo blo best in
  extend_right (length a) ahi bhi best.

(** The matches of [get_matching_blocks] in increasing order, as the
    sort leaves them: the longest match of a region, the matches to
    its left before it and those to its right after it. *)
Fixpoint blocks (fuel alo ahi blo bhi : nat) : list Match :=
  match fuel with
  | O => []
  | S fuel' =>
      let x := find_longest_match alo ahi blo bhi in
      if (m_size x =? 0)%nat then []
      else
        (if (alo <? m_i x)%nat && (blo <? m_j x)%nat
         then blocks fuel' alo (m_i x) blo (m_j x) else [])
        ++ [x]
        ++ (if (m_i x + m_size x <? ahi)%nat && (m_j x + m_size x <? bhi)%nat
            then blocks fuel' (m_i x + m_size x) ahi (m_j x + m_size x) bhi
            else [])
  end.

(** Adjacent matches are merged. *)
Fixpoint collapse (cur : Match) (ms : list Match) : list Match :=
  match ms with
  | [] => if (0 <? m_size cur)%nat then [cur] else []
  | m :: rest =>
      if (m_i cur + m_size cur =? m_i m)%nat
         && (m_j cur + m_size cur =? m_j m)%nat
      then collapse (mkMatch (m_i cur) (m_j cur) (m_size cur + m_size m)) rest
      else (if (0 <? m_size cur)%nat then [cur] else []) ++ collapse m rest
  end.

Definition get_matching_blocks : list Match :=
  collapse (mkMatch 0 0 0)
           (blocks (S (length a)) 0 (length a) 0 (length b))
  ++ [mkMatch (length a) (length b) 0].

Fixpoint opcodes_from (i j : nat) (ms : list Match) : list Opcode :=
  match ms with
  | [] => []
  | m :: rest =>
      (if (i <? m_i m)%nat && (j <? m_j m)%nat
       then [mkOpcode Replace i (m_i m) j (m_j m)]
       else if (i <? m_i m)%nat then [mkOpcode Delete i (m_i m) j (m_j m)]
       else if (j <? m_j m)%nat then [mkOpcode Insert i (m_i m) j (m_j m)]
       else [])
      ++ (if (0 <? m_size m)%nat
          then [mkOpcode Equal (m_i m) (m_i m + m_size m)
                         (m_j m) (m_j m + m_size m)]
          else [])
      ++ opcodes_from (m_i m + m_size m) (m_j m + m_size m) rest
  end.

Definition get_opcodes : list Opcode := opcodes_from 0 0 get_matching_blocks.

(** An equal block cut down to its last, or first, [n] lines. *)
Definition keep_tail (n : nat) (c : Opcode) : Opcode :=
  mkOpcode (op_tag c) (max (op_i1 c) (op_i2 c - n)) (op_i2 c)
           (max (op_j1 c) (op_j2 c - n)) (op_j2 c).

Definition keep_head (n : nat) (c : Opcode) : Opcode :=
  mkOpcode (op_tag c) (op_i1 c) (min (op_i2 c) (op_i1 c + n))
           (op_j1 c) (min (op_j2 c) (op_j1 c + n)).

Definition trim_first (n : nat) (codes : list Opcode) : list Opcode :=
  match codes with
  | c :: rest => if is_equal (op_tag c) then keep_tail n c :: rest else codes
  | [] => []
  end.

Fixpoint trim_last (n : nat) (codes : list Opcode) : list Opcode :=
  match codes with
  | [] => []
  | [c] => if is_equal (op_tag c) then [keep_head n c] else [c]
  | c :: rest => c :: trim_last n rest
  end.

(** The loop of [get_grouped_opcodes]; [group] is the group being
    filled. *)
Fixpoint group_loop (n : nat) (codes group : list Opcode)
    : list (list Opcode) :=
  match codes with
  | [] =>
      match group with
      | [] => []
      | [c] => if is_equal (op_tag c) then [] else [group]
      | _ => [group]
      end
  | c :: rest =>
      if is_equal (op_tag c) && (n + n <? op_i2 c - op_i1 c)%nat
      then (group ++ [keep_head n c]) :: group_loop n rest [keep_tail n c]
      else group_loop n rest (group ++ [c])
  end.

Definition get_grouped_opcodes (n : nat) : list (list Opcode) :=
  let codes :=
    match get_opcodes with
    | [] => [mkOpcode Equal 0 1 0 1]
    | codes => codes
    end in
  group_loop n (trim_last n (trim_first n codes)) [].

(** [_format_range_unified] *)
Definition format_range_unified (start stop : nat) : string :=
  let beginning := S start in
  let length := (stop - start)%nat in
  if (length =? 1)%nat then pretty beginning
  else
    pretty (if (length =? 0)%nat then (beginning - 1)%nat else beginning)
    +:+ "," +:+ pretty length.

(** The lines one opcode contributes to a hunk. *)
Definition opcode_lines (c : Opcode) : list string :=
  match op_tag c with
  | Equal => map (String.append " ") (slice a (op_i1 c) (op_i2 c))
  | Replace =>
      map (String.append "-") (slice a (op_i1 c) (op_i2 c))
      ++ map (String.append "+") (slice b (op_j1 c) (op_j2 c))
  | Delete => map (String.append "-") (slice a (op_i1 c) (op_i2 c))
  | Insert => map (String.append "+") (slice b (op_j1 c) (op_j2 c))
  end.

Definition hunk (group : list Opcode) : list string :=
  match group, List.last group (mkOpcode Equal 0 0 0 0) with
  | first :: _, last =>
      ("@@ -" +:+ format_range_unified (op_i1 first) (op_i2 last)
       +:+ " +" +:+ format_range_unified (op_j1 first) (op_j2 last)
       +:+ " @@")
      :: concat (map opcode_lines group)
  | [], _ => []
  end.

(** [unified_diff(a, b, fromfile=..., tofile=..., lineterm='')] *)
Definition unified_diff (fromfile tofile : string) : list string :=
  match get_grouped_opcodes 3 with
  | [] => []
  | groups =>
      ("--- " +:+ fromfile) :: ("+++ " +:+ tofile)
      :: concat (map hunk groups)
  end.

End Matcher.

End Difflib.

(** ** Watcher (file_watcher.py)

    Strings are sequences of bytes, a text in UTF-8; the service cuts
    them at ASCII characters only. *)

Module Watcher.

(** *** [ChangeEventHandler] *)

Record ChangeEventHandler := mkChangeEventHandler {
  eh_repo_path : string;
  ignored_patterns : list string;
  ignored_extensions : list string
}.

Definition ChangeEventHandler_init (repo_path : string) : ChangeEventHandler :=
  {| eh_repo_path := repo_path;
     ignored_patterns :=
       [".git"; "__pycache__"; "node_modules"; ".vscode";
        ".idea"; "venv"; "env"; ".pytest_cache"; "dist";
        "build"; ".DS_Store"; "Thumbs.db"];
     ignored_extensions :=
       [".pyc"; ".pyo"; ".log"; ".tmp"; ".temp"; ".cache";
        ".swp"; ".swo"; ".bak"; ".orig"] |}.

(** Extensions for which a hidden file is still tracked. *)
Definition hidden_allowed : list string :=
  [".py"; ".js"; ".ts"; ".jsx"; ".tsx"].

Definition should_ignore_file (self : ChangeEventHandler) (file_path : string)
    : bool :=
  if existsb (fun part =>
                existsb (fun pattern => PyStr.contains part pattern)
                        (ignored_patterns self))
             (PyPath.parts file_path)
  then true
  else if PyStr.str_in (PyPath.suffix file_path) (ignored_extensions self)
  then true
  else if PyStr.startswith (PyPath.name file_path) "."
          && negb (PyStr.str_in (PyPath.suffix file_path) hidden_allowed)
  then true
  else false.

(** A [watchdog] event. *)
Record FileSystemEvent := mkFileSystemEvent {
  src_path : string;
  is_directory : bool
}.

(** [on_modified], [on_created], [on_deleted]: the call of
    [on_change_callback] they make, if any. *)
Definition on_event (change_type : string) (self : ChangeEventHandler)
    (event : FileSystemEvent) : option (string * string) :=
  if negb (is_directory event) && negb (should_ignore_file self (src_path event))
  then Some (src_path event, change_type)
  else None.

Definition on_modified := on_event "modified".
Definition on_created := on_event "created".
Definition on_deleted := on_event "deleted".

(** *** Diffs *)

(** [_create_diff] *)
Definition _create_diff (relative_path old_content new_content : string)
    : string :=
  let old_lines :=
    if PyStr.truthy old_content then PyStr.split_lines old_content else [] in
  let new_lines :=
    if PyStr.truthy new_content then PyStr.split_lines new_content else [] in
  let diff_lines :=
    Difflib.unified_diff old_lines new_lines
      ("a/" +:+ relative_path) ("b/" +:+ relative_path) in
  match diff_lines with
  | [] => "No changes detected"
  | _ =>
      let header_lines :=
        ["diff --git a/" +:+ relative_path +:+ " b/" +:+ relative_path]
        ++ (if negb (PyStr.truthy old_content) then ["new file mode 100644"]
            else if negb (PyStr.truthy new_content)
            then ["deleted file mode 100644"]
            else ["index 0000000..1111111 100644"]) in
      PyStr.join_lines (header_lines ++ diff_lines)
  end.

(** The counters of [_parse_diff_stats]. *)
Record DiffStats := mkDiffStats {
  added : Z;
  removed : Z
}.

(** One turn of the loop of [_parse_diff_stats]. *)
Definition count_line (stats : DiffStats) (line : string) : DiffStats :=
  if PyStr.startswith line "+" && negb (PyStr.startswith line "+++")
  then mkDiffStats (added stats + 1) (removed stats)
  else if PyStr.startswith line "-" && negb (PyStr.startswith line "---")
  then mkDiffStats (added stats) (removed stats + 1)
  else stats.

Definition _parse_diff_stats (diff : string) : DiffStats :=
  fold_left count_line (PyStr.split_lines diff) (mkDiffStats 0 0).

(** [_process_chunk] *)
Definition _process_chunk (chunk_lines : list string) : list string :=
  match chunk_lines with
  | [] => []
  | _ =>
      let removals :=
        map PyStr.drop1
            (List.filter (fun l => PyStr.startswith l "-") chunk_lines) in
      let additions :=
        map PyStr.drop1
            (List.filter (fun l => negb (PyStr.startswith l "-")
                                   && PyStr.startswith l "+") chunk_lines) in
      let minus := map (String.append "   - ") removals in
      let plus := map (String.append "   + ") additions in
      match removals, additions with
      | _ :: _, _ :: _ =>
          ["   MODIFIED:"; ""; "   REMOVED:"] ++ minus
          ++ [""; "   ADDED:"] ++ plus ++ [""]
      | _ :: _, [] => ["   DELETED:"] ++ minus ++ [""]
      | [], _ :: _ => ["   ADDED:"] ++ plus ++ [""]
      | [], [] => [""]
      end
  end.

(** The variables of the loop of [_format_diff_simple]. *)
Record FormatState := mkFormatState {
  formatted_lines : list string;
  in_hunk : bool;
  current_chunk : list string
}.

Definition is_diff_header (line : string) : bool :=
  PyStr.startswith line "diff --git" || PyStr.startswith line "index"
  || PyStr.startswith line "---" || PyStr.startswith line "+++"
  || PyStr.startswith line "new file" || PyStr.startswith line "deleted file".

(** One turn of that loop. *)
Definition format_line (fs : FormatState) (line : string) : FormatState :=
  if is_diff_header line then fs
  else if PyStr.startswith line "@@" then
    {| formatted_lines :=
         formatted_lines fs ++ _process_chunk (current_chunk fs)
         ++ [String PyStr.newline "📍 " +:+ line];
       in_hunk := true;
       current_chunk := [] |}
  else if in_hunk fs then
    if PyStr.startswith line "-" || PyStr.startswith line "+" then
      {| formatted_lines := formatted_lines fs;
         in_hunk := true;
         current_chunk := current_chunk fs ++ [line] |}
    else
      let context_line :=
        if PyStr.startswith line " " then PyStr.drop1 line else line in
      {| formatted_lines :=
           formatted_lines fs ++ _process_chunk (current_chunk fs)
           ++ ["   " +:+ context_line];
         in_hunk := true;
         current_chunk := [] |}
  else fs.

Definition _format_diff_simple (diff : string) : string :=
  if negb (PyStr.truthy diff)
     || PyStr.str_in diff ["No changes detected"; "No actual changes detected";
                           "Error reading current file"]
  then diff
  else if PyStr.startswith diff "File deleted" then diff
  else
    let fs := fold_left format_line (PyStr.split_lines diff)
                        (mkFormatState [] false []) in
    match (formatted_lines fs ++ _process_chunk (current_chunk fs))%list with
    | [] => "No changes to display"
    | ls => PyStr.join_lines ls
    end.

(** *** [RepoWatcher] *)

(** The [watchdog] observer thread of a watcher. *)
Inductive Observer :=
| Unstarted
| Started.

(** What the watcher asks of its observer. *)
Inductive ObserverCall :=
| ObserverStart (path : string)
| ObserverStop (path : string)
| ObserverJoin (path : string) (timeout : Z).

(** A watcher; [C] is the type of the registered callables. *)
Record RepoWatcher (C : Type) := mkRepoWatcher {
  repo_path : string;
  repo_id : string;
  observer : option Observer;
  event_handler : option ChangeEventHandler;
  is_running : bool;
  change_callbacks : list C;
  file_snapshots : gmap string string
}.
Arguments mkRepoWatcher {C}.
Arguments repo_path {C}.
Arguments repo_id {C}.
Arguments observer {C}.
Arguments event_handler {C}.
Arguments is_running {C}.
Arguments change_callbacks {C}.
Arguments file_snapshots {C}.

Definition author_unknown : string * string * option string :=
  ("unknown", "unknown", None).

Section WithWorld.

Context (world : World).

(** [os.path.exists] *)
Definition path_exists (path : string) : bool :=
  bool_decide (is_Some (w_dir world path))
  || match w_file world path with
     | Missing => false
     | _ => true
     end.

Section WithCallbacks.

(** Callables act on the state [S] of the rest of the service. *)
Context {C S : Type}.
Context (invoke : C -> string -> string -> ChangeData -> S -> S).

(** [_validate_repository] *)
Definition _validate_repository (repo_path : string) : bool :=
  if negb (path_exists repo_path) then false
  else bool_decide (is_Some (w_git world repo_path)).

(** [RepoWatcher.__init__]; [None] when it raises ValueError. *)
Definition RepoWatcher_init (repo_path repo_id : string)
    : option (RepoWatcher C) :=
  let repo_path := PyPath.abspath (w_cwd world) repo_path in
  if negb (_validate_repository repo_path) then None
  else Some {| repo_path := repo_path;
               repo_id := repo_id;
               observer := None;
               event_handler := None;
               is_running := false;
               change_callbacks := [];
               file_snapshots := ∅ |}.

Definition set_snapshots (self : RepoWatcher C) (snaps : gmap string string)
    : RepoWatcher C :=
  {| repo_path := repo_path self;
     repo_id := repo_id self;
     observer := observer self;
     event_handler := event_handler self;
     is_running := is_running self;
     change_callbacks := change_callbacks self;
     file_snapshots := snaps |}.

(** [add_change_callback] *)
Definition add_change_callback (self : RepoWatcher C) (callback : C)
    : RepoWatcher C :=
  {| repo_path := repo_path self;
     repo_id := repo_id self;
     observer := observer self;
     event_handler := event_handler self;
     is_running := is_running self;
     change_callbacks := change_callbacks self ++ [callback];
     file_snapshots := file_snapshots self |}.

(** [_get_proper_diff]: the diff and the snapshots it leaves. *)
Definition _get_proper_diff (self : RepoWatcher C)
    (relative_path change_type : string) : string * gmap string string :=
  let snaps := file_snapshots self in
  let file_path := PyPath.join (repo_path self) relative_path in
  if String.eqb change_type "deleted" || negb (path_exists file_path) then
    match snaps !! relative_path with
    | Some previous_content =>
        (_create_diff relative_path previous_content "",
         delete relative_path snaps)
    | None => ("File deleted (no previous snapshot available)", snaps)
    end
  else
    match w_file world file_path with
    | Readable current_content =>
        let previous_content := default "" (snaps !! relative_path) in
        let previous_content :=
          if negb (PyStr.truthy previous_content)
             && negb (String.eqb change_type "created")
          then match w_git world (repo_path self) with
               | Some repo => default "" (git_show_head repo relative_path)
               | None => ""
               end
          else previous_content in
        (if String.eqb previous_content current_content
         then "No actual changes detected"
         else _create_diff relative_path previous_content current_content,
         <[relative_path := current_content]> snaps)
    | Unreadable err => ("Error reading current file: " +:+ err, snaps)
    | Missing =>
        (* the path exists and is no file: [open] raises IsADirectoryError *)
        ("Error reading current file: [Errno 21] Is a directory: '"
         +:+ file_path +:+ "'", snaps)
    end.

(** [_get_author_info] *)
Definition _get_author_info (self : RepoWatcher C) (relative_path : string)
    : string * string * option string :=
  match w_git world (repo_path self) with
  | None => author_unknown
  | Some repo =>
      match git_last_commit repo relative_path with
      | None => author_unknown
      | Some (Some commit) =>
          (c_author_name commit, c_author_email commit,
           Some (String.substring 0 8 (c_hexsha commit)))
      | Some None =>
          (* [get_value("user", "name", fallback="unknown")]: GitPython's
             [get_value] takes [default], not [fallback], so the call
             raises TypeError, the bare [except] passes, and the
             configured user is never read *)
          author_unknown
      end
  end.

(** [_extract_git_info]: the change record and the snapshots left. *)
Definition _extract_git_info (self : RepoWatcher C)
    (file_path change_type relative_path : string)
    : ChangeData * gmap string string :=
  let '(raw_diff, snaps) := _get_proper_diff self relative_path change_type in
  let diff_stats := _parse_diff_stats raw_diff in
  let '(name, email, commit_hash) := _get_author_info self relative_path in
  ({| cd_repository_id := repo_id self;
      cd_file_path := file_path;
      cd_relative_path := relative_path;
      cd_change_type := change_type;
      cd_timestamp := w_now world;
      cd_file_extension := PyPath.suffix file_path;
      cd_git_diff := raw_diff;
      cd_formatted_changes := _format_diff_simple raw_diff;
      cd_author := name;
      cd_author_email := email;
      cd_commit_hash := commit_hash;
      cd_lines_added := added diff_stats;
      cd_lines_removed := removed diff_stats |},
   snaps).

(** [_on_file_change]: the record is built, then every registered
    callable is called with it, in order, before the method returns. *)
Definition _on_file_change (self : RepoWatcher C)
    (file_path change_type : string) (s : S) : RepoWatcher C * S :=
  let relative_path :=
    PyPath.relpath (w_cwd world) file_path (repo_path self) in
  let '(change_data, snaps) :=
    _extract_git_info self file_path change_type relative_path in
  (set_snapshots self snaps,
   fold_left (fun s callback => invoke callback file_path change_type
                                       change_data s)
             (change_callbacks self) s).

(** The observer thread handing one event to the handler. *)
Definition dispatch (self : RepoWatcher C) (change_type : string)
    (event : FileSystemEvent) (s : S) : RepoWatcher C * S :=
  match event_handler self with
  | Some handler =>
      match on_event change_type handler event with
      | Some (file_path, change_type) =>
          _on_file_change self file_path change_type s
      | None => (self, s)
      end
  | None => (self, s)
  end.

(** [os.walk(top)] with the pruning of the loop body, which removes
    ".git" from the directories to descend into: the pairs (root,
    file) in the order the loops meet them. *)
Definition files_in (dirpath : string) (entries : list DirEntry)
    : list (string * string) :=
  omap (fun e => match e with
                 | FileEntry name => Some (dirpath, name)
                 | SubDir _ _ => None
                 end) entries.

Fixpoint walk_entry (dirpath : string) (e : DirEntry)
    : list (string * string) :=
  match e with
  | FileEntry _ => []
  | SubDir name children =>
      if String.eqb name ".git" then []
      else
        let sub := PyPath.join dirpath name in
        files_in sub children ++ flat_map (walk_entry sub) children
  end.

Definition walk (top : string) : list (string * string) :=
  match w_dir world top with
  | None => []
  | Some entries => files_in top entries ++ flat_map (walk_entry top) entries
  end.

(** The body of the inner loop of [initialize_snapshots]. *)
Definition snapshot_file (self : RepoWatcher C) (snaps : gmap string string)
    (rf : string * string) : gmap string string :=
  let file_path := PyPath.join rf.1 rf.2 in
  let relative_path :=
    PyPath.relpath (w_cwd world) file_path (repo_path self) in
  if match event_handler self with
     | None => true
     | Some handler => negb (should_ignore_file handler file_path)
     end
  then match w_file world file_path with
       | Readable content => <[relative_path := content]> snaps
       | _ => snaps
       end
  else snaps.

Definition initialize_snapshots (self : RepoWatcher C) : RepoWatcher C :=
  set_snapshots self
    (fold_left (snapshot_file self) (walk (repo_path self))
               (file_snapshots self)).

(** [start_watching]: the answer, the watcher it leaves and the calls
    made to the observer. *)
Definition start_watching (self : RepoWatcher C)
    : bool * RepoWatcher C * list ObserverCall :=
  if is_running self then (true, self, [])
  else
    let handler := ChangeEventHandler_init (repo_path self) in
    let self :=
      initialize_snapshots
        {| repo_path := repo_path self;
           repo_id := repo_id self;
           observer := observer self;
           event_handler := Some handler;
           is_running := is_running self;
           change_callbacks := change_callbacks self;
           file_snapshots := file_snapshots self |} in
    let started := w_observable world (repo_path self) in
    (started,
     {| repo_path := repo_path self;
        repo_id := repo_id self;
        observer := Some (if started then Started else Unstarted);
        event_handler := event_handler self;
        is_running := started;
        change_callbacks := change_callbacks self;
        file_snapshots := file_snapshots self |},
     [ObserverStart (repo_path self)]).

(** The assignments that end [stop_watching]. *)
Definition torn_down (self : RepoWatcher C) : RepoWatcher C :=
  {| repo_path := repo_path self;
     repo_id := repo_id self;
     observer := None;
     event_handler := None;
     is_running := false;
     change_callbacks := change_callbacks self;
     file_snapshots := file_snapshots self |}.

(** [stop_watching] *)
Definition stop_watching (self : RepoWatcher C)
    : bool * RepoWatcher C * list ObserverCall :=
  if negb (is_running self) then (true, self, [])
  else
    match observer self with
    | Some _ =>
        let path := repo_path self in
        match w_stop world path with
        | StopRaises => (false, self, [ObserverStop path])
        | JoinRaises => (false, self, [ObserverStop path; ObserverJoin path 5])
        | JoinTimesOut | Joins =>
            (true, torn_down self, [ObserverStop path; ObserverJoin path 5])
        end
    | None => (true, torn_down self, [])
    end.

(** *** [WatcherManager] *)

(** The registry is a [dict]: keys in insertion order. *)
Record WatcherManager := mkWatcherManager {
  watchers : list (string * RepoWatcher C);
  manager_callbacks : list C
}.

(** [d.get(key)], [d[key] = v] and [del d[key]] on such a [dict]. *)
Fixpoint dict_get {V} (d : list (string * V)) (key : string) : option V :=
  match d with
  | [] => None
  | (k, v) :: rest => if String.eqb k key then Some v else dict_get rest key
  end.

Fixpoint dict_set {V} (d : list (string * V)) (key : string) (v : V)
    : list (string * V) :=
  match d with
  | [] => [(key, v)]
  | (k, v') :: rest =>
      if String.eqb k key then (k, v) :: rest
      else (k, v') :: dict_set rest key v
  end.

Definition dict_del {V} (d : list (string * V)) (key : string)
    : list (string * V) :=
  List.filter (fun kv => negb (String.eqb kv.1 key)) d.

Definition WatcherManager_init : WatcherManager :=
  {| watchers := []; manager_callbacks := [] |}.

(** [WatcherManager.add_change_callback] *)
Definition manager_add_change_callback (self : WatcherManager) (callback : C)
    : WatcherManager :=
  {| watchers :=
       map (fun kv => (kv.1, add_change_callback kv.2 callback))
           (watchers self);
     manager_callbacks := manager_callbacks self ++ [callback] |}.

(** [add_repository] *)
Definition add_repository (self : WatcherManager) (repo_id repo_path : string)
    : bool * WatcherManager :=
  match dict_get (watchers self) repo_id with
  | Some _ => (true, self)
  | None =>
      match RepoWatcher_init repo_path repo_id with
      | None => (false, self)
      | Some watcher =>
          let watcher :=
            fold_left add_change_callback (manager_callbacks self) watcher in
          (true,
           {| watchers := dict_set (watchers self) repo_id watcher;
              manager_callbacks := manager_callbacks self |})
      end
  end.

(** [remove_repository] *)
Definition remove_repository (self : WatcherManager) (repo_id : string)
    : bool * WatcherManager * list ObserverCall :=
  match dict_get (watchers self) repo_id with
  | None => (true, self, [])
  | Some watcher =>
      let '(_, _, calls) := stop_watching watcher in
      (true,
       {| watchers := dict_del (watchers self) repo_id;
          manager_callbacks := manager_callbacks self |},
       calls)
  end.

(** [WatcherManager.start_watching] and [stop_watching] *)
Definition manager_start_watching (self : WatcherManager) (repo_id : string)
    : bool * WatcherManager * list ObserverCall :=
  match dict_get (watchers self) repo_id with
  | None => (false, self, [])
  | Some watcher =>
      let '(ok, watcher, calls) := start_watching watcher in
      (ok,
       {| watchers := dict_set (watchers self) repo_id watcher;
          manager_callbacks := manager_callbacks self |},
       calls)
  end.

Definition manager_stop_watching (self : WatcherManager) (repo_id : string)
    : bool * WatcherManager * list ObserverCall :=
  match dict_get (watchers self) repo_id with
  | None => (false, self, [])
  | Some watcher =>
      let '(ok, watcher, calls) := stop_watching watcher in
      (ok,
       {| watchers := dict_set (watchers self) repo_id watcher;
          manager_callbacks := manager_callbacks self |},
       calls)
  end.

(** The loop of [start_all] and [stop_all]: [results[repo_id] =
    action(repo_id)] for every key of the registry. *)
Definition for_all_repositories
    (action : WatcherManager -> string
              -> bool * WatcherManager * list ObserverCall)
    (self : WatcherManager)
    : list (string * bool) * WatcherManager * list ObserverCall :=
  fold_left
    (fun acc repo_id =>
       let '(results, self, calls) := acc in
       let '(ok, self, calls') := action self repo_id in
       (dict_set results repo_id ok, self, calls ++ calls'))
    (map fst (watchers self)) ([], self, []).

Definition start_all := for_all_repositories manager_start_watching.

Definition stop_all := for_all_repositories manager_stop_watching.

End WithCallbacks.

End WithWorld.

End Watcher.

(** ** Change processor (change_processor.py) *)

Module Processor.

(** *** Rows of the relational store (models/database.py) *)

Record User := mkUser {
  u_id : Z;
  u_email : string;
  u_name : string
}.

Record Repository := mkRepository {
  r_id : string;
  r_name : string;
  r_path : string;
  r_is_watching : bool;
  r_last_change : option Z;
  r_total_changes : Z
}.

Record FileChange := mkFileChange {
  fc_id : string;
  fc_repository_id : string;
  fc_user_id : option Z;
  fc_file_path : string;
  fc_relative_path : string;
  fc_change_type : string;
  fc_git_diff : string;
  fc_author : string;
  fc_author_email : string;
  fc_commit_hash : option string;
  fc_file_extension : string;
  fc_lines_added : Z;
  fc_lines_removed : Z;
  fc_timestamp : Z;
  fc_is_processed : bool;
  fc_sent_to_ai : bool
}.

Record Database := mkDatabase {
  users : list User;
  repositories : list Repository;
  file_changes : list FileChange
}.

(** The JSON body sent to the AI backend. *)
Record Payload := mkPayload {
  p_user_id : option Z;
  p_file_path : string;
  p_change_type : string;
  p_previousV : string;
  p_currentV : string
}.

(** *** Effects *)

Inductive Exn :=
| ExTimeout              (* requests.exceptions.Timeout *)
| ExConnectionError      (* requests.exceptions.ConnectionError *)
| ExRequestException     (* any other requests.exceptions.RequestException *)
| ExIntegrityError       (* the store refuses a row *)
| ExValueError
| ExOther.

(** Outcome of one [requests.post]. *)
Inductive Response :=
| HttpStatus (code : Z)
| Raises (e : Exn).

Inductive NetEvent :=
| Post (url : string) (body : Payload)
| Sleep (seconds : Z).

(** Inputs the processor does not control. *)
Record Env := mkEnv {
  env_world : World;
  (* the answer to the n-th POST of the run, which may depend on its body *)
  env_backend : nat -> Payload -> Response;
  env_uuid4 : nat -> string;
  env_utcnow : Z;
  (* [datetime.fromisoformat]; [None] when it raises ValueError *)
  env_fromisoformat : string -> option Z
}.

(** The session [db] and the counters of the effects issued so far.
    [st_db] is what the session sees, [st_committed] what the last
    commit left.  [st_scope] is a ghost label: the id of the change
    whose delivery is running, attached to every event of the trace. *)
Record State := mkState {
  st_db : Database;
  st_committed : Database;
  st_posts : nat;
  st_uuids : nat;
  st_scope : string;
  st_trace : list (string * NetEvent)
}.

Inductive Res (A : Type) :=
| Ret (a : A)
| Raise (e : Exn).
Arguments Ret {A} a.
Arguments Raise {A} e.

Definition M (A : Type) : Type := State -> Res A * State.

#[export] Instance M_ret : MRet M := fun A a st => (Ret a, st).

#[export] Instance M_bind : MBind M := fun A B f m st =>
  match m st with
  | (Ret a, st') => f a st'
  | (Raise e, st') => (Raise e, st')
  end.

Definition raise {A} (e : Exn) : M A := fun st => (Raise e, st).

(** [try: body except Exception as e: handler e] *)
Definition try_except {A} (body : M A) (handler : Exn -> M A) : M A :=
  fun st =>
    match body st with
    | (Ret a, st') => (Ret a, st')
    | (Raise e, st') => handler e st'
    end.

Definition get_db : M Database := fun st => (Ret (st_db st), st).

Definition put_db (d : Database) : M unit := fun st =>
  (Ret tt, mkState d (st_committed st) (st_posts st) (st_uuids st)
                   (st_scope st) (st_trace st)).

(** [db.commit()] *)
Definition db_commit : M unit := fun st =>
  (Ret tt, mkState (st_db st) (st_db st) (st_posts st) (st_uuids st)
                   (st_scope st) (st_trace st)).

(** [db.rollback()] *)
Definition db_rollback : M unit := fun st =>
  (Ret tt, mkState (st_committed st) (st_committed st) (st_posts st)
                   (st_uuids st) (st_scope st) (st_trace st)).

Definition set_scope (cid : string) : M unit := fun st =>
  (Ret tt, mkState (st_db st) (st_committed st) (st_posts st) (st_uuids st)
                   cid (st_trace st)).

Definition emit (e : NetEvent) (st : State) : State :=
  mkState (st_db st) (st_committed st) (st_posts st) (st_uuids st)
          (st_scope st) (st_trace st ++ [(st_scope st, e)]).

Definition count_post (st : State) : State :=
  mkState (st_db st) (st_committed st) (S (st_posts st)) (st_uuids st)
          (st_scope st) (st_trace st).

(** [time.sleep(seconds)] *)
Definition time_sleep (seconds : Z) : M unit := fun st =>
  (Ret tt, emit (Sleep seconds) st).

Record ChangeProcessor := mkChangeProcessor {
  ai_backend_url : string;
  ai_timeout : Z;
  max_retries : nat
}.

(** [ChangeProcessor.__init__] *)
Definition ChangeProcessor_init (url : string) : ChangeProcessor :=
  {| ai_backend_url := url; ai_timeout := 30; max_retries := 3 |}.

Definition is_request_exception (e : Exn) : bool :=
  match e with
  | ExTimeout | ExConnectionError | ExRequestException => true
  | _ => false
  end.

Section WithEnv.

Context (env : Env).

(** [requests.post(url, json=body, timeout=..., headers=...)] *)
Definition requests_post (url : string) (body : Payload) : M Z := fun st =>
  let st' := count_post (emit (Post url body) st) in
  match env_backend env (st_posts st) body with
  | HttpStatus code => (Ret code, st')
  | Raises e => (Raise e, st')
  end.

(** The body of the [for attempt in range(1, max_retries + 1)] loop of
    [_send_to_ai_with_retries], over the attempts still to run.  The
    [try] block yields [Some b] where the source returns [b] and
    [None] where control falls through to the back-off. *)
Fixpoint retry_loop (self : ChangeProcessor) (payload : Payload)
    (attempts : list nat) : M bool :=
  match attempts with
  | [] => mret false
  | attempt :: rest =>
      verdict ← try_except
        (code ← requests_post (ai_backend_url self +:+ "/api/changes") payload;
         if code =? 200 then mret (Some true)
         else if code =? 400 then mret (Some false)
         else mret None)
        (fun e => if is_request_exception e then mret None else raise e);
      match verdict with
      | Some b => mret b
      | None =>
          _ ← (if (attempt <? max_retries self)%nat
               then time_sleep (2 ^ Z.of_nat attempt)
               else mret tt);
          retry_loop self payload rest
      end
  end.

Definition _send_to_ai_with_retries (self : ChangeProcessor)
    (payload : Payload) : M bool :=
  retry_loop self payload (seq 1 (max_retries self)).

(** [_read_current_file]: the text of [change.file_path], [""] when
    reading raises. *)
Definition _read_current_file (change : FileChange) : string :=
  match w_file (env_world env) (fc_file_path change) with
  | Readable content => content
  | Unreadable _ | Missing => ""
  end.

(** One line of the loop of [_extract_content_from_diff]: the line it
    appends to [content_lines], if any. *)
Definition extract_line (line : string) : option string :=
  if PyStr.startswith line "-" && negb (PyStr.startswith line "---")
  then Some (PyStr.drop1 line)
  else if negb (PyStr.startswith line "+")
          && negb (PyStr.startswith line "@@")
          && negb (PyStr.startswith line "diff")
  then Some line
  else None.

Definition _extract_content_from_diff (git_diff : string) : string :=
  if negb (PyStr.truthy git_diff) then ""
  else PyStr.join_lines (omap extract_line (PyStr.split_lines git_diff)).

(** [change.repository]: the row the foreign key points to. *)
Definition repository_of (d : Database) (change : FileChange)
    : option Repository :=
  List.find (fun r => String.eqb (r_id r) (fc_repository_id change))
            (repositories d).

Definition _get_previous_version (d : Database) (change : FileChange)
    : string :=
  match repository_of d change with
  | None => ""
  | Some r =>
      match w_git (env_world env) (r_path r) with
      | None => ""
      | Some repo =>
          match git_show_head repo (fc_relative_path change) with
          | Some content => content
          | None => _extract_content_from_diff (fc_git_diff change)
          end
      end
  end.

Definition or_empty (s : string) : string :=
  if PyStr.truthy s then s else "empty".

(** [_get_file_versions]: (previous, current).  Every helper catches
    its own failures, so the outer [except] is never reached. *)
Definition _get_file_versions (d : Database) (change : FileChange)
    : string * string :=
  if String.eqb (fc_change_type change) "created" then
    ("empty", or_empty (_read_current_file change))
  else if String.eqb (fc_change_type change) "deleted" then
    (or_empty (_extract_content_from_diff (fc_git_diff change)), "empty")
  else
    let current := _read_current_file change in
    let previous := _get_previous_version d change in
    (or_empty previous, or_empty current).

Definition _prepare_ai_payload (d : Database) (change : FileChange)
    : Payload :=
  let '(previous_content, current_content) := _get_file_versions d change in
  {| p_user_id := fc_user_id change;
     p_file_path := fc_relative_path change;
     p_change_type := fc_change_type change;
     p_previousV := previous_content;
     p_currentV := current_content |}.

(** [db.query(FileChange).join(Repository).filter(FileChange.id ==
    change_id).first()] *)
Definition query_change (d : Database) (change_id : string)
    : option FileChange :=
  List.find (fun c => String.eqb (fc_id c) change_id
                      && bool_decide (is_Some (repository_of d c)))
            (file_changes d).

Definition set_sent (c : FileChange) : FileChange :=
  {| fc_id := fc_id c;
     fc_repository_id := fc_repository_id c;
     fc_user_id := fc_user_id c;
     fc_file_path := fc_file_path c;
     fc_relative_path := fc_relative_path c;
     fc_change_type := fc_change_type c;
     fc_git_diff := fc_git_diff c;
     fc_author := fc_author c;
     fc_author_email := fc_author_email c;
     fc_commit_hash := fc_commit_hash c;
     fc_file_extension := fc_file_extension c;
     fc_lines_added := fc_lines_added c;
     fc_lines_removed := fc_lines_removed c;
     fc_timestamp := fc_timestamp c;
     fc_is_processed := true;
     fc_sent_to_ai := true |}.

(** [change.sent_to_ai = True; change.is_processed = True] on the row
    with primary key [change_id]. *)
Definition mark_sent (change_id : string) (d : Database) : Database :=
  {| users := users d;
     repositories := repositories d;
     file_changes :=
       map (fun c => if String.eqb (fc_id c) change_id then set_sent c else c)
           (file_changes d) |}.

Definition _send_change_to_ai (self : ChangeProcessor) (change_id : string)
    : M bool :=
  try_except
    (d ← get_db;
     match query_change d change_id with
     | None => mret false
     | Some change =>
         if fc_sent_to_ai change then mret true
         else
           let payload := _prepare_ai_payload d change in
           _ ← set_scope change_id;
           success ← _send_to_ai_with_retries self payload;
           if (success : bool) then
             _ ← put_db (mark_sent change_id d);
             _ ← db_commit;
             mret true
           else mret false
     end)
    (fun _ => mret false).

(** [_queue_for_ai_processing]: "For now, process immediately". *)
Definition _queue_for_ai_processing (self : ChangeProcessor)
    (change_id : string) : M unit :=
  try_except
    (success ← _send_change_to_ai self change_id;
     mret tt)
    (fun _ => mret tt).

(** [_validate_change_data].  The required keys are fields of
    [ChangeData], so only the test on [change_type] can fail. *)
Definition _validate_change_data (change_data : ChangeData) : bool :=
  PyStr.str_in (cd_change_type change_data) ["created"; "modified"; "deleted"].

(** The id MySQL's AUTO_INCREMENT gives the next user row. *)
Definition next_user_id (d : Database) : Z :=
  1 + fold_right Z.max 0 (map u_id (users d)).

(** [_get_or_create_user]: the id of the user with this e-mail, a new
    row with the next id when there is none. *)
Definition _get_or_create_user (author_email author_name : string)
    : M (option Z) :=
  try_except
    (d ← get_db;
     match List.find (fun u => String.eqb (u_email u) author_email) (users d) with
     | Some user => mret (Some (u_id user))
     | None =>
         let new_user := mkUser (next_user_id d) author_email author_name in
         _ ← put_db {| users := users d ++ [new_user];
                       repositories := repositories d;
                       file_changes := file_changes d |};
         mret (Some (u_id new_user))
     end)
    (fun _ => mret None).

(** [str(uuid.uuid4())] *)
Definition uuid4 : M string := fun st =>
  (Ret (env_uuid4 env (st_uuids st)),
   mkState (st_db st) (st_committed st) (st_posts st) (S (st_uuids st))
           (st_scope st) (st_trace st)).

(** [db.add(file_change)].  The store refuses a second row with the
    same primary key and a row whose repository does not exist; the
    refusal, which MySQL reports at the flush of [db.commit()], is
    raised here: nothing but the rolled-back counter update lies
    between the two. *)
Definition db_add_change (fc : FileChange) : M unit :=
  d ← get_db;
  if existsb (fun c => String.eqb (fc_id c) (fc_id fc)) (file_changes d)
     || negb (bool_decide (is_Some (repository_of d fc)))
  then raise ExIntegrityError
  else put_db {| users := users d;
                 repositories := repositories d;
                 file_changes := file_changes d ++ [fc] |}.

Definition touch_repository (r : Repository) : Repository :=
  {| r_id := r_id r; r_name := r_name r; r_path := r_path r;
     r_is_watching := r_is_watching r;
     r_last_change := Some (env_utcnow env);
     r_total_changes := r_total_changes r + 1 |}.

(** [repo = db.query(Repository).filter(...).first(); if repo: ...] *)
Definition update_repository_stats (repository_id : string) : M unit :=
  d ← get_db;
  put_db {| users := users d;
            repositories :=
              map (fun r => if String.eqb (r_id r) repository_id
                            then touch_repository r else r)
                  (repositories d);
            file_changes := file_changes d |}.

Definition parse_timestamp (s : string) : M Z :=
  match env_fromisoformat env s with
  | Some t => mret t
  | None => raise ExValueError
  end.

Definition _save_change_to_db (self : ChangeProcessor)
    (change_data : ChangeData) : M (option string) :=
  try_except
    (user_id ← _get_or_create_user (cd_author_email change_data)
                                   (cd_author change_data);
     match user_id with
     | None => mret None
     | Some uid =>
         change_id ← uuid4;
         timestamp ← parse_timestamp (cd_timestamp change_data);
         let file_change :=
           {| fc_id := change_id;
              fc_repository_id := cd_repository_id change_data;
              fc_user_id := Some uid;
              fc_file_path := cd_file_path change_data;
              fc_relative_path := cd_relative_path change_data;
              fc_change_type := cd_change_type change_data;
              fc_git_diff := cd_git_diff change_data;
              fc_author := cd_author change_data;
              fc_author_email := cd_author_email change_data;
              fc_commit_hash := cd_commit_hash change_data;
              fc_file_extension := cd_file_extension change_data;
              fc_lines_added := cd_lines_added change_data;
              fc_lines_removed := cd_lines_removed change_data;
              fc_timestamp := timestamp;
              fc_is_processed := false;
              fc_sent_to_ai := false |} in
         _ ← db_add_change file_change;
         _ ← update_repository_stats (cd_repository_id change_data);
         _ ← db_commit;
         mret (Some change_id)
     end)
    (fun _ => _ ← db_rollback; mret None).

(** [process_file_change]: validate, persist, deliver. *)
Definition process_file_change (self : ChangeProcessor)
    (file_path change_type : string) (change_data : ChangeData)
    : M (option string) :=
  try_except
    (if negb (_validate_change_data change_data) then mret None
     else
       change_id ← _save_change_to_db self change_data;
       match change_id with
       | None => mret None
       | Some cid =>
           if negb (PyStr.truthy cid) then mret None
           else
             _ ← _queue_for_ai_processing self cid;
             mret (Some cid)
       end)
    (fun _ => mret None).

(** Stable insertion sort, for [order_by]. *)
Fixpoint insert_by (le : FileChange -> FileChange -> bool) (x : FileChange)
    (l : list FileChange) : list FileChange :=
  match l with
  | [] => [x]
  | y :: rest => if le x y then x :: l else y :: insert_by le x rest
  end.

Definition sort_by (le : FileChange -> FileChange -> bool)
    (l : list FileChange) : list FileChange :=
  fold_right (insert_by le) [] l.

(** One entry of the ["results"] list of a delivery pass. *)
Record SendResult := mkSendResult {
  sr_change_id : string;
  sr_user_id : option Z;
  sr_relative_path : string;
  sr_sent : bool
}.

(** The dictionary a delivery pass returns. *)
Record PassReport := mkPassReport {
  pr_success : bool;
  pr_processed : nat;
  pr_successful : nat;
  pr_results : list SendResult
}.

(** The [for change in ...] loop shared by [process_unsent_changes]
    and [retry_failed_changes]. *)
Fixpoint send_each (self : ChangeProcessor) (changes : list FileChange)
    : M (list SendResult) :=
  match changes with
  | [] => mret []
  | change :: rest =>
      success ← _send_change_to_ai self (fc_id change);
      results ← send_each self rest;
      mret (mkSendResult (fc_id change) (fc_user_id change)
                         (fc_relative_path change) success :: results)
  end.

Definition report (results : list SendResult) : PassReport :=
  {| pr_success := true;
     pr_processed := length results;
     pr_successful := length (filter (fun r => sr_sent r = true) results);
     pr_results := results |}.

(** The rows [process_unsent_changes] selects: not yet sent, oldest
    first, at most [limit]. *)
Definition unsent_changes (d : Database) (limit : nat) : list FileChange :=
  take limit
    (sort_by (fun a b => fc_timestamp a <=? fc_timestamp b)
       (filter (fun c => fc_sent_to_ai c = false) (file_changes d))).

Definition process_unsent_changes (self : ChangeProcessor) (limit : nat)
    : M PassReport :=
  try_except
    (d ← get_db;
     results ← send_each self (unsent_changes d limit);
     mret (report results))
    (fun _ => mret (mkPassReport false 0 0 [])).

(** The rows [retry_failed_changes] selects: not yet sent, no older
    than [hours_back] hours (timestamps count seconds), newest first. *)
Definition failed_changes (d : Database) (hours_back : Z) (limit : nat)
    : list FileChange :=
  let since_time := env_utcnow env - hours_back * 3600 in
  take limit
    (sort_by (fun a b => fc_timestamp b <=? fc_timestamp a)
       (filter (fun c => fc_sent_to_ai c = false
                         ∧ since_time ≤ fc_timestamp c)
               (file_changes d))).

Definition retry_failed_changes (self : ChangeProcessor) (hours_back : Z)
    (limit : nat) : M PassReport :=
  try_except
    (d ← get_db;
     results ← send_each self (failed_changes d hours_back limit);
     mret (report results))
    (fun _ => mret (mkPassReport false 0 0 [])).

End WithEnv.

End Processor.

(** ** Wiring of the service (api/server.py) *)

Module Server.

Import Processor.

(** The callables registered with the watcher manager.  The service
    registers one, at startup: [handle_file_change]. *)
Inductive Callback :=
| HandleFileChange.

(** [db = next(get_db())] opens a session on the committed store and
    [db.close()] drops what it left uncommitted. *)
Definition fresh_session (st : State) : State :=
  mkState (st_committed st) (st_committed st) (st_posts st) (st_uuids st)
          (st_scope st) (st_trace st).

(** [handle_file_change]: the change is processed before the function
    returns.  The broadcast that follows a processed change is handed
    to the event loop and touches neither the store nor the backend;
    it is left out. *)
Definition handle_file_change (env : Env) (change_processor : ChangeProcessor)
    (file_path change_type : string) (change_data : ChangeData)
    (st : State) : State :=
  fresh_session
    (process_file_change env change_processor file_path change_type
       change_data (fresh_session st)).2.

Definition invoke (env : Env) (change_processor : ChangeProcessor)
    (callback : Callback) :=
  match callback with
  | HandleFileChange => handle_file_change env change_processor
  end.

End Server.

(** ** Sample data

    A small store and world on which the definitions above are run. *)

Module Sample.

Import Processor.

Definition repo : Repository :=
  mkRepository "repo-1" "demo" "/srv/demo" true None 0.

Definition change : FileChange :=
  mkFileChange "chg-1" "repo-1" (Some 1) "/srv/demo/app.py" "app.py"
    "modified" "" "alice" "alice@example.org" None ".py" 1 1 100 false false.

Definition db : Database :=
  mkDatabase [mkUser 1 "alice@example.org" "alice"] [repo] [change].

Definition nl : string := String PyStr.newline "".

(** The working tree /srv/demo. *)
Definition tree : list DirEntry :=
  [FileEntry "app.py"; FileEntry "notes.md"; FileEntry "data.log";
   SubDir ".git" [FileEntry "HEAD"];
   SubDir "src" [FileEntry "environment.py"; FileEntry "util.py"]].

Definition files : list (string * FileState) :=
  [("/srv/demo/app.py", Readable "print(1)");
   ("/srv/demo/notes.md", Readable ("---" +:+ nl +:+ "title: demo"));
   ("/srv/demo/data.log", Readable "started");
   ("/srv/demo/.git/HEAD", Readable "ref: refs/heads/main");
   ("/srv/demo/src/environment.py", Readable "E = 1");
   ("/srv/demo/src/util.py", Readable "x = 1");
   ("/srv/demo/locked.py", Unreadable "[Errno 13] Permission denied")].

Definition alice : Commit := mkCommit "alice" "alice@example.org" "0123456789abcdef".

Definition git : GitRepo :=
  {| git_show_head := fun p => if String.eqb p "app.py" then Some "print(0)"
                               else if String.eqb p "locked.py" then Some "x = 0"
                               else None;
     git_last_commit := fun p => if String.eqb p "app.py" then Some (Some alice)
                                 else Some None;
     git_config_user := Some ("bob", "bob@example.org") |}.

(** /srv/demo is a git working tree that can be watched, /srv/plain a
    directory without a repository; no other path exists. *)
Definition world : World :=
  {| w_cwd := "/srv";
     w_now := "2025-01-01T00:00:00";
     w_file := fun p => default Missing (Watcher.dict_get files p);
     w_dir := fun p => if String.eqb p "/srv/demo" then Some tree
                       else if String.eqb p "/srv/plain" then Some []
                       else None;
     w_git := fun p => if String.eqb p "/srv/demo" then Some git else None;
     w_observable := fun p => String.eqb p "/srv/demo";
     w_stop := fun _ => Joins |}.

(** A backend that answers every request with the same status. *)
Definition always (code : Z) : nat -> Payload -> Response :=
  fun _ _ => HttpStatus code.

Definition env (backend : nat -> Payload -> Response) : Env :=
  {| env_world := world;
     env_backend := backend;
     env_uuid4 := fun n => if (n =? 0)%nat then "chg-2" else "chg-3";
     env_utcnow := 1000;
     env_fromisoformat := fun _ => Some 200 |}.

Definition state : State := mkState db db 0 0 "" [].

Definition processor : ChangeProcessor := ChangeProcessor_init "http://ai".

(** The record a watcher emits when /srv/demo/app.py is modified. *)
Definition change_data : ChangeData :=
  {| cd_repository_id := "repo-1";
     cd_file_path := "/srv/demo/app.py";
     cd_relative_path := "app.py";
     cd_change_type := "modified";
     cd_timestamp := "2025-01-01T00:00:00";
     cd_file_extension := ".py";
     cd_git_diff := "";
     cd_formatted_changes := "";
     cd_author := "alice";
     cd_author_email := "alice@example.org";
     cd_commit_hash := None;
     cd_lines_added := 1;
     cd_lines_removed := 0 |}.

(** The sample state after the backend accepted chg-1. *)
Definition sent_state : State :=
  (_send_change_to_ai (env (always 200)) processor "chg-1" state).2.

(** The watcher of /srv/demo as the manager builds it, with the
    callable of the service registered, before and after its start. *)
Definition fresh_watcher : Watcher.RepoWatcher Server.Callback :=
  Watcher.mkRepoWatcher "/srv/demo" "repo-1" None None false
    [Server.HandleFileChange] ∅.

Definition running_watcher : Watcher.RepoWatcher Server.Callback :=
  (Watcher.start_watching world fresh_watcher).1.2.

(** The same watcher with given snapshots. *)
Definition watcher_with (snaps : gmap string string)
    : Watcher.RepoWatcher Server.Callback :=
  Watcher.set_snapshots running_watcher snaps.

End Sample.

(** * Vocabulary of the properties *)

Module Spec.

Import Processor.

(** The events a run appended to the trace. *)
Definition new_events (st st' : State) : list (string * NetEvent) :=
  drop (length (st_trace st)) (st_trace st').

(** An outcome after which [_send_to_ai_with_retries] goes on to the
    next attempt: a status other than 200 and 400, or an exception of
    the [requests] library. *)
Definition retryable (r : Response) : bool :=
  match r with
  | HttpStatus code => negb (code =? 200) && negb (code =? 400)
  | Raises e => is_request_exception e
  end.

(** What the call answers when its last attempt met [r]. *)
Definition answer (r : Response) : Res bool :=
  match r with
  | HttpStatus code => Ret (code =? 200)
  | Raises e => if is_request_exception e then Ret false else Raise e
  end.

(** The events of a delivery that made [n] attempts. *)
Definition schedule (post : NetEvent) (n : nat) : list NetEvent :=
  take (2 * n - 1) [post; Sleep 2; post; Sleep 4; post].

(** The state a delivery that made [n] attempts leaves: the store is
    untouched, the counters and the trace record the attempts. *)
Definition after_attempts (st : State) (post : NetEvent) (n : nat) : State :=
  {| st_db := st_db st;
     st_committed := st_committed st;
     st_posts := (st_posts st + n)%nat;
     st_uuids := st_uuids st;
     st_scope := st_scope st;
     st_trace := st_trace st ++ map (pair (st_scope st)) (schedule post n) |}.

(** [pattern] occurs somewhere inside [part]. *)
Definition occurs_in (pattern part : string) : Prop :=
  ∃ pre post, part = pre +:+ pattern +:+ post.

(** A name that begins with a dot. *)
Definition dot_prefixed (name : string) : Prop :=
  ∃ rest, name = "." +:+ rest.

(** The lines [_create_diff] compares: none for an empty content. *)
Definition lines_of (content : string) : list string :=
  if PyStr.truthy content then PyStr.split_lines content else [].

(** The lines a diff of two contents really removes and inserts, read
    off the opcodes behind its hunks. *)
Definition opcode_removes (c : Difflib.Opcode) : nat :=
  match Difflib.op_tag c with
  | Difflib.Replace | Difflib.Delete => Difflib.op_i2 c - Difflib.op_i1 c
  | _ => 0
  end.

Definition opcode_inserts (c : Difflib.Opcode) : nat :=
  match Difflib.op_tag c with
  | Difflib.Replace | Difflib.Insert => Difflib.op_j2 c - Difflib.op_j1 c
  | _ => 0
  end.

Definition genuine_removed (old_content new_content : string) : Z :=
  Z.of_nat
    (sum_list
       (map opcode_removes
          (concat (Difflib.get_grouped_opcodes (lines_of old_content)
                     (lines_of new_content) 3)))).

Definition genuine_added (old_content new_content : string) : Z :=
  Z.of_nat
    (sum_list
       (map opcode_inserts
          (concat (Difflib.get_grouped_opcodes (lines_of old_content)
                     (lines_of new_content) 3)))).

(** The diff the watcher reports for a previous and a current content. *)
Definition diff_between (relative_path previous current : string) : string :=
  if String.eqb previous current then "No actual changes detected"
  else Watcher._create_diff relative_path previous current.

(** The content of a path at the last committed revision, empty when
    the revision has no such path. *)
Definition head_content (world : World) (repo_path relative_path : string)
    : string :=
  match w_git world repo_path with
  | Some repo => default "" (git_show_head repo relative_path)
  | None => ""
  end.

(** What [start_watching] answers for, and makes of, one entry. *)
Definition started_ok {C} (world : World)
    (kv : string * Watcher.RepoWatcher C) : string * bool :=
  (kv.1, (Watcher.start_watching world kv.2).1.1).

Definition started_watcher {C} (world : World)
    (kv : string * Watcher.RepoWatcher C) : string * Watcher.RepoWatcher C :=
  (kv.1, (Watcher.start_watching world kv.2).1.2).

Definition started_calls {C} (world : World)
    (kv : string * Watcher.RepoWatcher C) : list Watcher.ObserverCall :=
  (Watcher.start_watching world kv.2).2.

(** A text without a newline. *)
Fixpoint single_line (s : string) : bool :=
  match s with
  | EmptyString => true
  | String c rest => negb (Ascii.eqb c PyStr.newline) && single_line rest
  end.

(** The lines of a content that do not begin with [marker]. *)
Definition lines_without (marker content : string) : list string :=
  List.filter (fun l => negb (PyStr.startswith l marker)) (lines_of content).

(** A record is delivered when the store has a row with its id and
    every row with that id is marked as sent. *)
Definition delivered (d : Database) (cid : string) : Prop :=
  (∃ c, c ∈ file_changes d ∧ fc_id c = cid)
  ∧ ∀ c, c ∈ file_changes d → fc_id c = cid → fc_sent_to_ai c = true.

(** The operations of the processor that touch the store or the
    backend. *)
Inductive Op :=
| OpProcessFileChange (file_path change_type : string) (cd : ChangeData)
| OpSendChange (change_id : string)
| OpProcessUnsent (limit : nat)
| OpRetryFailed (hours_back : Z) (limit : nat).

Definition run_op (self : ChangeProcessor) (env : Env) (op : Op)
    (st : State) : State :=
  match op with
  | OpProcessFileChange file_path change_type cd =>
      (process_file_change env self file_path change_type cd st).2
  | OpSendChange change_id => (_send_change_to_ai env self change_id st).2
  | OpProcessUnsent limit => (process_unsent_changes env self limit st).2
  | OpRetryFailed hours_back limit =>
      (retry_failed_changes env self hours_back limit st).2
  end.

(** A history: operations run one after the other, each in the
    environment of its time. *)
Definition run_ops (self : ChangeProcessor) (ops : list (Env * Op))
    (st : State) : State :=
  fold_left (fun st eo => run_op self eo.1 eo.2 st) ops st.

(** From position [k] of the trace on, no event belongs to a delivery
    of [cid]. *)
Definition quiet_since (k : nat) (cid : string) (st : State) : Prop :=
  Forall (fun ev : string * NetEvent => ev.1 ≠ cid) (drop k (st_trace st)).

(** [cid] is delivered, in the session and in the committed store, and
    nothing was sent for it since position [k] of the trace. *)
Definition settled (k : nat) (cid : string) (st : State) : Prop :=
  delivered (st_db st) cid
  ∧ delivered (st_committed st) cid
  ∧ quiet_since k cid st.

(** A step of the processor that keeps [cid] settled, whatever it
    answers. *)
Definition keeps (k : nat) (cid : string) {A} (m : M A) : Prop :=
  ∀ st, settled k cid st → settled k cid (m st).2.

End Spec.

(** * Further code and vocabulary *)

(** ** Counting the watchers (file_watcher.py, [WatcherManager]) *)

Module Status.

Import Watcher.

(** The dictionary [get_watching_count] returns. *)
Record WatchingCount := mkWatchingCount {
  total_repositories : Z;
  currently_watching : Z;
  not_watching : Z
}.

(** [get_watching_count] *)
Definition get_watching_count {C} (self : WatcherManager (C := C))
    : WatchingCount :=
  let watching :=
    Z.of_nat (length (List.filter (fun kv => is_running kv.2) (watchers self))) in
  let total := Z.of_nat (length (watchers self)) in
  {| total_repositories := total;
     currently_watching := watching;
     not_watching := total - watching |}.

End Status.

(** ** Startup of the service (api/server.py) *)

Module Startup.

Import Watcher Processor.

(** One turn of the loop of [load_existing_repositories]: the row is
    registered and, if it is flagged as watched, started. *)
Definition load_repository {C} (world : World)
    (acc : WatcherManager (C := C) * list ObserverCall) (repo : Repository)
    : WatcherManager (C := C) * list ObserverCall :=
  let '(manager, calls) := acc in
  let '(_, manager) := add_repository world manager (r_id repo) (r_path repo) in
  if r_is_watching repo then
    let '(_, manager, calls') :=
      manager_start_watching world manager (r_id repo) in
    (manager, calls ++ calls')
  else (manager, calls).

(** [load_existing_repositories]: the registry it leaves and the calls
    made to the observers.  The session is only read. *)
Definition load_existing_repositories {C} (world : World)
    (watcher_manager : WatcherManager (C := C)) (d : Database)
    : WatcherManager (C := C) * list ObserverCall :=
  fold_left (load_repository world) (repositories d) (watcher_manager, []).

End Startup.

(** ** Histories of the registry *)

Module Registry.

Import Watcher Processor.

(** The methods of [WatcherManager] that change the registry or its
    watchers. *)
Inductive ManagerOp (C : Type) :=
| AddCallback (callback : C)
| AddRepository (repo_id repo_path : string)
| RemoveRepository (repo_id : string)
| StartWatching (repo_id : string)
| StopWatching (repo_id : string)
| StartAll
| StopAll.
Arguments AddCallback {C} callback.
Arguments AddRepository {C} repo_id repo_path.
Arguments RemoveRepository {C} repo_id.
Arguments StartWatching {C} repo_id.
Arguments StopWatching {C} repo_id.
Arguments StartAll {C}.
Arguments StopAll {C}.

Definition run_manager_op {C} (world : World) (op : ManagerOp C)
    (self : WatcherManager (C := C)) : WatcherManager (C := C) :=
  match op with
  | AddCallback callback => manager_add_change_callback self callback
  | AddRepository repo_id repo_path =>
      (add_repository world self repo_id repo_path).2
  | RemoveRepository repo_id => (remove_repository world self repo_id).1.2
  | StartWatching repo_id => (manager_start_watching world self repo_id).1.2
  | StopWatching repo_id => (manager_stop_watching world self repo_id).1.2
  | StartAll => (start_all world self).1.2
  | StopAll => (stop_all world self).1.2
  end.

(** A history: calls made one after the other, each in the world of
    its time. *)
Definition run_manager_ops {C} (ops : list (World * ManagerOp C))
    (self : WatcherManager (C := C)) : WatcherManager (C := C) :=
  fold_left (fun self wo => run_manager_op wo.1 wo.2 self) ops self.

(** A watcher registered under [id] is in order when it carries this
    id and the callables of the manager, in their order, and, if it
    runs, has a started observer and the handler of its path. *)
Definition entry_ok {C} (callbacks : list C) (id : string)
    (watcher : RepoWatcher C) : Prop :=
  repo_id watcher = id
  ∧ change_callbacks watcher = callbacks
  ∧ (is_running watcher = true →
     observer watcher = Some Started
     ∧ event_handler watcher
       = Some (ChangeEventHandler_init (repo_path watcher))).

(** Every id is registered once, under a watcher that is in order. *)
Definition wired {C} (self : WatcherManager (C := C)) : Prop :=
  NoDup (map fst (watchers self))
  ∧ ∀ id watcher, (id, watcher) ∈ watchers self →
      entry_ok (manager_callbacks self) id watcher.

(** The watcher the startup of the service makes of a row of the
    store: under the id and the absolute path of the row, with the
    callables of the manager, running exactly when the row is flagged
    as watched and the observer of the path starts. *)
Definition loaded {C} (world : World) (callbacks : list C) (repo : Repository)
    (watcher : RepoWatcher C) : Prop :=
  repo_id watcher = r_id repo
  ∧ repo_path watcher = PyPath.abspath (w_cwd world) (r_path repo)
  ∧ change_callbacks watcher = callbacks
  ∧ is_running watcher
    = r_is_watching repo && w_observable world (repo_path watcher).

(** What [stop_watching] answers for, and makes of, one entry. *)
Definition stopped_ok {C} (world : World)
    (kv : string * RepoWatcher C) : string * bool :=
  (kv.1, (stop_watching world kv.2).1.1).

Definition stopped_watcher {C} (world : World)
    (kv : string * RepoWatcher C) : string * RepoWatcher C :=
  (kv.1, (stop_watching world kv.2).1.2).

Definition stopped_calls {C} (world : World)
    (kv : string * RepoWatcher C) : list ObserverCall :=
  (stop_watching world kv.2).2.

End Registry.

(** ** Reading files into the snapshots *)

Module Tracking.

Import Watcher.

(** The file a pair (root, name) of the walk stands for is readable
    with content [v], is not ignored by the handler of the watcher,
    and goes into the snapshots under [key]. *)
Definition captured {C} (world : World) (self : RepoWatcher C)
    (rf : string * string) (key v : string) : Prop :=
  key = PyPath.relpath (w_cwd world) (PyPath.join rf.1 rf.2) (repo_path self)
  ∧ w_file world (PyPath.join rf.1 rf.2) = Readable v
  ∧ ∀ handler, event_handler self = Some handler →
               should_ignore_file handler (PyPath.join rf.1 rf.2) = false.

End Tracking.

(** ** More sample data *)

Module Cases.

Import Processor.

(** The sample record with a change type the processor does not know. *)
Definition renamed : ChangeData :=
  {| cd_repository_id := "repo-1";
     cd_file_path := "/srv/demo/app.py";
     cd_relative_path := "app.py";
     cd_change_type := "renamed";
     cd_timestamp := "2025-01-01T00:00:00";
     cd_file_extension := ".py";
     cd_git_diff := "";
     cd_formatted_changes := "";
     cd_author := "alice";
     cd_author_email := "alice@example.org";
     cd_commit_hash := None;
     cd_lines_added := 0;
     cd_lines_removed := 0 |}.

(** The registry of the service while /srv/demo is watched. *)
Definition manager : Watcher.WatcherManager (C := Server.Callback) :=
  Watcher.mkWatcherManager [("repo-1", Sample.running_watcher)]
                           [Server.HandleFileChange].

(** The registry of the service at startup, before the rows of the
    store are loaded. *)
Definition empty_manager : Watcher.WatcherManager (C := Server.Callback) :=
  Watcher.manager_add_change_callback Watcher.WatcherManager_init
                                      Server.HandleFileChange.

(** The sample world with an observer whose [stop] raises. *)
Definition stuck_world : World :=
  {| w_cwd := w_cwd Sample.world;
     w_now := w_now Sample.world;
     w_file := w_file Sample.world;
     w_dir := w_dir Sample.world;
     w_git := w_git Sample.world;
     w_observable := w_observable Sample.world;
     w_stop := fun _ => StopRaises |}.

End Cases.

(** * Properties *)

Import Processor Watcher Spec.

(** ** Delivery with retries *)

Section Delivery.

Context (env : Env).

Lemma new_events_app st tr evs :
  tr = st_trace st ++ evs -> drop (length (st_trace st)) tr = evs.
Proof. intros ->. by rewrite drop_app_length. Qed.

(** One turn of the loop: the attempt is made; a retryable outcome
    leads, after the back-off, to the remaining attempts, any other
    outcome ends the call. *)
Lemma retry_loop_cons self payload attempt rest st :
  retry_loop env self payload (attempt :: rest) st =
  let r := env_backend env (st_posts st) payload in
  let st1 :=
    count_post (emit (Post (ai_backend_url self +:+ "/api/changes") payload) st) in
  if retryable r then
    retry_loop env self payload rest
      (if (attempt <? max_retries self)%nat
       then emit (Sleep (2 ^ Z.of_nat attempt)) st1 else st1)
  else (answer r, st1).
Proof.
  cbn [retry_loop]. unfold mbind, M_bind, try_except, requests_post.
  destruct (env_backend env (st_posts st) payload) as [code|e];
    cbn -[Nat.ltb Z.pow Z.of_nat].
  - destruct (code =? 200) eqn:E200; cbn -[Nat.ltb Z.pow Z.of_nat]; [done|].
    destruct (code =? 400) eqn:E400; cbn -[Nat.ltb Z.pow Z.of_nat]; [done|].
    unfold time_sleep, mret, M_ret.
    by destruct (attempt <? max_retries self)%nat.
  - destruct e; cbn -[Nat.ltb Z.pow Z.of_nat]; try done;
      unfold time_sleep, mret, M_ret;
      by destruct (attempt <? max_retries self)%nat.
Qed.

Lemma retry_loop_nil self payload st :
  retry_loop env self payload [] st = (Ret false, st).
Proof. done. Qed.

Lemma emit_mk e db committed posts uuids scope trace :
  emit e (mkState db committed posts uuids scope trace)
  = mkState db committed posts uuids scope (trace ++ [(scope, e)]).
Proof. done. Qed.

Lemma count_post_mk db committed posts uuids scope trace :
  count_post (mkState db committed posts uuids scope trace)
  = mkState db committed (S posts) uuids scope trace.
Proof. done. Qed.

Local Ltac run_effects := repeat (rewrite emit_mk || rewrite count_post_mk).

Lemma send_with_retries_spec url payload st :
  let self := ChangeProcessor_init url in
  let post := Post (url +:+ "/api/changes") payload in
  let o := fun k => env_backend env (st_posts st + k)%nat payload in
  ∃ n : nat,
    (1 ≤ n ≤ 3)%nat
    ∧ (∀ k, (k + 1 < n)%nat → retryable (o k) = true)
    ∧ ((n < 3)%nat → retryable (o (n - 1)%nat) = false)
    ∧ _send_to_ai_with_retries env self payload st =
        (if retryable (o (n - 1)%nat) then Ret false else answer (o (n - 1)%nat),
         after_attempts st post n).
Proof.
  destruct st as [db committed posts uuids scope trace].
  intros self post o. cbn [st_posts] in o.
  unfold _send_to_ai_with_retries, self, after_attempts, schedule.
  cbn [max_retries ChangeProcessor_init seq].
  rewrite retry_loop_cons. cbn zeta.
  run_effects.
  cbn [max_retries ai_backend_url ChangeProcessor_init Nat.ltb Nat.leb
       st_posts].
  replace (env_backend env posts payload) with (o 0%nat)
    by (unfold o; f_equal; lia).
  destruct (retryable (o 0%nat)) eqn:R0; cycle 1.
  { exists 1%nat. cbn [Nat.sub]. rewrite R0.
    split; [lia|]. split; [intros k Hk; lia|]. split; [done|].
    run_effects. cbn. do 2 f_equal. lia. }
  rewrite retry_loop_cons. cbn zeta.
  run_effects.
  cbn [max_retries ai_backend_url ChangeProcessor_init Nat.ltb Nat.leb
       st_posts].
  replace (env_backend env (S posts) payload) with (o 1%nat)
    by (unfold o; f_equal; lia).
  destruct (retryable (o 1%nat)) eqn:R1; cycle 1.
  { exists 2%nat. cbn [Nat.sub]. rewrite R1.
    split; [lia|]. split.
    { intros k Hk. assert (k = 0%nat) as -> by lia. done. }
    split; [done|].
    run_effects. cbn. rewrite <- !app_assoc. do 2 f_equal. lia. }
  rewrite retry_loop_cons. cbn zeta.
  run_effects.
  cbn [max_retries ai_backend_url ChangeProcessor_init Nat.ltb Nat.leb
       st_posts].
  replace (env_backend env (S (S posts)) payload) with (o 2%nat)
    by (unfold o; f_equal; lia).
  exists 3%nat. cbn [Nat.sub].
  split; [lia|]. split.
  { intros k Hk.
    assert (k = 0%nat ∨ k = 1%nat) as [-> | ->] by lia; done. }
  split; [lia|].
  destruct (retryable (o 2%nat)) eqn:R2.
  - rewrite retry_loop_nil.
    run_effects. cbn. rewrite <- !app_assoc. do 2 f_equal. lia.
  - run_effects. cbn. rewrite <- !app_assoc. do 2 f_equal. lia.
Qed.

Lemma repository_of_mark_sent cid d c :
  repository_of (mark_sent cid d) c = repository_of d c.
Proof. done. Qed.

Lemma repository_of_set_sent d c :
  repository_of d (set_sent c) = repository_of d c.
Proof. done. Qed.

Lemma find_mark_sent (keep : FileChange -> bool) cid l c :
  (∀ x, keep (set_sent x) = keep x) ->
  List.find (fun x => String.eqb (fc_id x) cid && keep x) l = Some c ->
  List.find (fun x => String.eqb (fc_id x) cid && keep x)
    (map (fun x => if String.eqb (fc_id x) cid then set_sent x else x) l)
  = Some (set_sent c).
Proof.
  intros Hkeep. induction l as [|x l IH]; cbn; [done|].
  destruct (String.eqb (fc_id x) cid) eqn:E; cbn.
  - rewrite E, Hkeep. cbn. destruct (keep x); cbn; [congruence | exact IH].
  - rewrite E. cbn. exact IH.
Qed.

(** A record found before the mark is found, marked, after it. *)
Lemma query_change_mark_sent d cid c :
  query_change d cid = Some c ->
  query_change (mark_sent cid d) cid = Some (set_sent c).
Proof.
  unfold query_change. cbn [file_changes mark_sent].
  apply (find_mark_sent
           (fun x => bool_decide (is_Some (repository_of d x)))).
  done.
Qed.

(** What [_send_change_to_ai] does for a record that is still to be
    sent, in terms of the run of [_send_to_ai_with_retries]. *)
Lemma send_change_pending self cid change st :
  query_change (st_db st) cid = Some change ->
  fc_sent_to_ai change = false ->
  let payload := _prepare_ai_payload env (st_db st) change in
  let scoped := (set_scope cid st).2 in
  _send_change_to_ai env self cid st =
  match _send_to_ai_with_retries env self payload scoped with
  | (Ret true, st') =>
      (Ret true,
       mkState (mark_sent cid (st_db st)) (mark_sent cid (st_db st))
               (st_posts st') (st_uuids st') (st_scope st') (st_trace st'))
  | (_, st') => (Ret false, st')
  end.
Proof.
  intros Hq Hs payload scoped.
  unfold _send_change_to_ai, try_except, mbind, M_bind, get_db.
  cbn -[_send_to_ai_with_retries]. rewrite Hq, Hs.
  cbn -[_send_to_ai_with_retries].
  fold payload. fold scoped.
  replace (mkState (st_db st) (st_committed st) (st_posts st) (st_uuids st)
             cid (st_trace st)) with scoped by done.
  destruct (_send_to_ai_with_retries env self payload scoped) as [[[]|e] st'];
    done.
Qed.

(** C1 (as amended).  Delivery of a record that is still Pending makes
    between one and three POSTs of its payload, with a wait of 2
    seconds after a first failed attempt and of 4 seconds after a
    second.  An attempt is followed by another exactly when its
    outcome is retryable (a status other than 200 and 400, a timeout,
    a connection error or another request error) and attempts remain.
    The record becomes Sent exactly when the last attempt is answered
    200; in every other case the store is left as it was, so the
    record stays Pending.  A first answer 400 ends the delivery after
    one attempt; three answers 500 give three attempts. *)
Theorem C1_delivery_retry_policy url cid change st :
  query_change (st_db st) cid = Some change ->
  fc_sent_to_ai change = false ->
  let self := ChangeProcessor_init url in
  let payload := _prepare_ai_payload env (st_db st) change in
  let post := Post (url +:+ "/api/changes") payload in
  let o := fun k => env_backend env (st_posts st + k)%nat payload in
  let run := _send_change_to_ai env self cid st in
  ∃ n : nat,
    (1 ≤ n ≤ 3)%nat
    ∧ st_posts run.2 = (st_posts st + n)%nat
    ∧ new_events st run.2 = map (pair cid) (schedule post n)
    ∧ (∀ k, (k + 1 < n)%nat → retryable (o k) = true)
    ∧ ((n < 3)%nat → retryable (o (n - 1)%nat) = false)
    ∧ (o (n - 1)%nat = HttpStatus 200 →
         run.1 = Ret true
         ∧ st_db run.2 = mark_sent cid (st_db st)
         ∧ query_change (st_db run.2) cid = Some (set_sent change))
    ∧ (o (n - 1)%nat ≠ HttpStatus 200 →
         run.1 = Ret false ∧ st_db run.2 = st_db st)
    ∧ (o 0%nat = HttpStatus 400 → n = 1%nat)
    ∧ (o 0%nat = HttpStatus 500 → o 1%nat = HttpStatus 500 →
       o 2%nat = HttpStatus 500 → n = 3%nat).
Proof.
  intros Hq Hs self payload post o run.
  unfold run. rewrite (send_change_pending self cid change st Hq Hs).
  fold payload.
  destruct (send_with_retries_spec url payload (set_scope cid st).2)
    as (n & Hn & Hretry & Hlast & Hrun).
  change (∀ k, (k + 1 < n)%nat → retryable (o k) = true) in Hretry.
  change ((n < 3)%nat → retryable (o (n - 1)%nat) = false) in Hlast.
  fold self in Hrun. rewrite Hrun.
  unfold after_attempts. cbn [set_scope snd st_db st_committed st_posts
    st_uuids st_scope st_trace].
  change (env_backend env (st_posts st + (n - 1)) payload)
    with (o (n - 1)%nat).
  exists n. split; [exact Hn|].
  assert (Hev : ∀ tr, new_events st
            (mkState tr tr (st_posts st + n) (st_uuids st) cid
               (st_trace st ++ map (pair cid) (schedule post n)))
            = map (pair cid) (schedule post n)).
  { intros tr. unfold new_events. cbn. by rewrite drop_app_length. }
  assert (H400 : o 0%nat = HttpStatus 400 → n = 1%nat).
  { intros H0. destruct (decide (n = 1%nat)) as [|Hne]; [done|].
    specialize (Hretry 0%nat ltac:(lia)). rewrite H0 in Hretry. done. }
  assert (H500 : o 0%nat = HttpStatus 500 → o 1%nat = HttpStatus 500 →
                 o 2%nat = HttpStatus 500 → n = 3%nat).
  { intros H0 H1 H2. destruct (decide (n = 3%nat)) as [|Hne]; [done|].
    specialize (Hlast ltac:(lia)).
    assert (n = 1%nat ∨ n = 2%nat) as [-> | ->] by lia; cbn in Hlast.
    - rewrite H0 in Hlast. done.
    - rewrite H1 in Hlast. done. }
  destruct (retryable (o (n - 1)%nat)) eqn:R.
  { (* the budget ran out on a retryable outcome *)
    cbn. split; [done|]. split.
    { unfold new_events. cbn. by rewrite drop_app_length. }
    do 2 (split; [done|]). split.
    { intros H200. rewrite H200 in R. done. }
    done. }
  destruct (o (n - 1)%nat) as [code|e] eqn:Ho; cbn [answer].
  - destruct (code =? 200) eqn:E200.
    + apply Z.eqb_eq in E200 as ->.
      cbn. split; [done|]. split; [apply Hev|].
      do 2 (split; [done|]). split.
      { intros _. split; [done|]. split; [done|].
        by apply query_change_mark_sent. }
      split; [done|]. done.
    + cbn. split; [done|]. split.
      { unfold new_events. cbn. by rewrite drop_app_length. }
      do 2 (split; [done|]). split.
      { intros [= ->]. done. }
      done.
  - assert (is_request_exception e = false) as -> by exact R.
    cbn. split; [done|]. split.
    { unfold new_events. cbn. by rewrite drop_app_length. }
    do 2 (split; [done|]). split; [done|]. done.
Qed.

End Delivery.

(** The policy on the sample store, with a backend that always answers
    500. *)
Lemma C1_delivery_retry_policy_witness :
  ∃ n : nat,
    (1 ≤ n ≤ 3)%nat
    ∧ st_posts
        (_send_change_to_ai (Sample.env (Sample.always 500)) Sample.processor
           "chg-1" Sample.state).2 = n
    ∧ n = 3%nat.
Proof.
  destruct (C1_delivery_retry_policy (Sample.env (Sample.always 500))
              "http://ai" "chg-1" Sample.change Sample.state
              eq_refl eq_refl)
    as (n & Hn & Hposts & _ & _ & _ & _ & _ & _ & H500).
  exists n. split; [exact Hn|]. split; [exact Hposts|].
  apply H500; reflexivity.
Defined.

(** C1 as stated fails: a 404 answer, which is a 4xx, is retried until
    three POSTs were made, and a 201 answer, which is a 2xx, leaves
    the record Pending. *)
Lemma C1_counterexample :
  st_posts
    (_send_change_to_ai (Sample.env (Sample.always 404)) Sample.processor
       "chg-1" Sample.state).2 = 3%nat
  ∧ fc_sent_to_ai <$>
      query_change
        (st_db (_send_change_to_ai (Sample.env (Sample.always 201))
                  Sample.processor "chg-1" Sample.state).2) "chg-1"
    = Some false.
Proof. vm_compute. done. Qed.


(** ** Delivery state is final *)

Section SentIsFinal.

Context (self : ChangeProcessor) (cid : string) (k : nat).

(** A run of the retry loop leaves the store alone and appends events
    under the current scope only. *)
Lemma retry_loop_frame env payload attempts st :
  ∃ evs posts,
    (retry_loop env self payload attempts st).2 =
    mkState (st_db st) (st_committed st) posts (st_uuids st) (st_scope st)
            (st_trace st ++ map (pair (st_scope st)) evs).
Proof.
  revert st. induction attempts as [|attempt rest IH]; intros st.
  - exists [], (st_posts st). cbn. rewrite app_nil_r. by destruct st.
  - rewrite retry_loop_cons. cbn zeta.
    destruct (retryable _).
    + match goal with |- context [retry_loop _ _ _ _ ?s] =>
        destruct (IH s) as (evs & posts & ->) end.
      destruct (attempt <? max_retries self)%nat; cbn.
      * exists (Post (ai_backend_url self +:+ "/api/changes") payload
                :: Sleep (2 ^ Z.of_nat attempt) :: evs), posts.
        by rewrite <- !app_assoc.
      * exists (Post (ai_backend_url self +:+ "/api/changes") payload :: evs),
               posts.
        by rewrite <- !app_assoc.
    + exists [Post (ai_backend_url self +:+ "/api/changes") payload],
             (S (st_posts st)).
      done.
Qed.

(** [_send_change_to_ai] either changes nothing, or it found a row
    that was not sent, left the store as it was or marked the row, and
    appended events of that delivery only. *)
Lemma send_change_cases env cid' st :
  (_send_change_to_ai env self cid' st).2 = st
  ∨ ∃ change evs posts d,
      query_change (st_db st) cid' = Some change
      ∧ fc_sent_to_ai change = false
      ∧ (d = (st_db st, st_committed st)
         ∨ d = (mark_sent cid' (st_db st), mark_sent cid' (st_db st)))
      ∧ (_send_change_to_ai env self cid' st).2 =
        mkState d.1 d.2 posts (st_uuids st) cid'
                (st_trace st ++ map (pair cid') evs).
Proof.
  destruct (query_change (st_db st) cid') as [change|] eqn:Hq; cycle 1.
  { left. unfold _send_change_to_ai, try_except, mbind, M_bind, get_db.
    cbn. by rewrite Hq. }
  destruct (fc_sent_to_ai change) eqn:Hs.
  { left. unfold _send_change_to_ai, try_except, mbind, M_bind, get_db.
    cbn. by rewrite Hq, Hs. }
  right. rewrite (send_change_pending env self cid' change st Hq Hs).
  cbn zeta. unfold _send_to_ai_with_retries.
  destruct (retry_loop_frame env (_prepare_ai_payload env (st_db st) change)
              (seq 1 (max_retries self)) (set_scope cid' st).2)
    as (evs & posts & Hst).
  destruct (retry_loop env self _ _ _) as [r st'] eqn:Hrun.
  cbn in Hst. subst st'.
  exists change, evs, posts.
  destruct r as [[]|e].
  - exists (mark_sent cid' (st_db st), mark_sent cid' (st_db st)).
    repeat split; auto.
  - exists (st_db st, st_committed st). repeat split; auto.
  - exists (st_db st, st_committed st). repeat split; auto.
Qed.

Lemma delivered_mark_sent cid' d :
  delivered d cid -> delivered (mark_sent cid' d) cid.
Proof.
  intros [(c & Hc & Hid) Hall]. split.
  - exists (if String.eqb (fc_id c) cid' then set_sent c else c). split.
    + cbn. apply list_elem_of_fmap. by exists c.
    + by destruct (String.eqb (fc_id c) cid').
  - intros c' Hc' Hid'. cbn in Hc'.
    apply list_elem_of_fmap in Hc' as (x & -> & Hx).
    destruct (String.eqb (fc_id x) cid'); [done|]. by apply Hall.
Qed.

(** A row that the query finds unsent is not a row of a delivered id. *)
Lemma delivered_not_queried d cid' change :
  delivered d cid ->
  query_change d cid' = Some change ->
  fc_sent_to_ai change = false ->
  cid' ≠ cid.
Proof.
  intros [_ Hall] Hq Hs ->. unfold query_change in Hq.
  apply find_some in Hq as [Hin Hid].
  apply andb_prop in Hid as [Hid _]. apply String.eqb_eq in Hid.
  apply list_elem_of_In in Hin. specialize (Hall _ Hin Hid). congruence.
Qed.

Lemma quiet_since_app st tr evs tag :
  quiet_since k cid st ->
  tag ≠ cid ->
  tr = st_trace st ++ map (pair tag) evs ->
  Forall (fun ev : string * NetEvent => ev.1 ≠ cid) (drop k tr).
Proof.
  intros Hq Htag ->. rewrite drop_app. apply Forall_app. split; [exact Hq|].
  apply Forall_drop. apply Forall_fmap. by apply Forall_true.
Qed.

Lemma send_change_settled env cid' st :
  settled k cid st -> settled k cid (_send_change_to_ai env self cid' st).2.
Proof.
  intros (Hdb & Hco & Hq).
  destruct (send_change_cases env cid' st)
    as [-> | (change & evs & posts & d & Hfound & Hs & Hd & ->)]; [done|].
  pose proof (delivered_not_queried _ _ _ Hdb Hfound Hs) as Hne.
  unfold settled, quiet_since. cbn.
  destruct Hd as [-> | ->]; cbn;
    (split; [|split]); auto using delivered_mark_sent;
    by eapply quiet_since_app.
Qed.

Lemma send_each_settled env changes st :
  settled k cid st -> settled k cid (send_each env self changes st).2.
Proof.
  revert st. induction changes as [|change rest IH]; intros st Hst; [done|].
  cbn [send_each]. unfold mbind, M_bind.
  pose proof (send_change_settled env (fc_id change) st Hst) as H1.
  destruct (_send_change_to_ai env self (fc_id change) st) as [[b|e] st1];
    [|exact H1].
  cbn in H1. specialize (IH st1 H1).
  destruct (send_each env self rest st1) as [[rs|e] st2]; exact IH.
Qed.

Lemma process_unsent_settled env limit st :
  settled k cid st -> settled k cid (process_unsent_changes env self limit st).2.
Proof.
  intros Hst. unfold process_unsent_changes, try_except, mbind, M_bind, get_db.
  pose proof (send_each_settled env (unsent_changes (st_db st) limit) st Hst)
    as H1.
  destruct (send_each env self _ st) as [[rs|e] st1]; exact H1.
Qed.

Lemma retry_failed_settled env hours_back limit st :
  settled k cid st ->
  settled k cid (retry_failed_changes env self hours_back limit st).2.
Proof.
  intros Hst. unfold retry_failed_changes, try_except, mbind, M_bind, get_db.
  pose proof (send_each_settled env
                (failed_changes env (st_db st) hours_back limit) st Hst) as H1.
  destruct (send_each env self _ st) as [[rs|e] st1]; exact H1.
Qed.

Lemma delivered_ext d d' :
  file_changes d' = file_changes d -> delivered d cid -> delivered d' cid.
Proof. unfold delivered. by intros ->. Qed.

Lemma delivered_add d d' fc :
  file_changes d' = file_changes d ++ [fc] ->
  existsb (fun c => String.eqb (fc_id c) (fc_id fc)) (file_changes d) = false ->
  delivered d cid -> delivered d' cid.
Proof.
  intros Hfc Hfresh [(c & Hc & Hid) Hall]. unfold delivered. rewrite Hfc. split.
  - exists c. split; [|done]. apply elem_of_app. by left.
  - intros c' Hc' Hid'. apply elem_of_app in Hc' as [Hc'|Hc']; [by apply Hall|].
    apply list_elem_of_singleton in Hc' as ->. exfalso.
    assert (existsb (fun c => String.eqb (fc_id c) (fc_id fc)) (file_changes d)
            = true) as Hex; [|congruence].
    apply existsb_exists. exists c. split; [by apply list_elem_of_In|].
    apply String.eqb_eq. congruence.
Qed.

Lemma keeps_ret {A} (a : A) : keeps k cid (mret a).
Proof. by intros st Hst. Qed.

Lemma keeps_raise {A} e : keeps k cid (@raise A e).
Proof. by intros st Hst. Qed.

Lemma keeps_bind {A B} (m : M A) (f : A → M B) :
  keeps k cid m → (∀ a, keeps k cid (f a)) → keeps k cid (m ≫= f).
Proof.
  intros Hm Hf st Hst. unfold mbind, M_bind. specialize (Hm st Hst).
  destruct (m st) as [[a|e] st1]; [by apply Hf | exact Hm].
Qed.

Lemma keeps_try {A} (body : M A) handler :
  keeps k cid body → (∀ e, keeps k cid (handler e)) → keeps k cid (try_except body handler).
Proof.
  intros Hm Hh st Hst. unfold try_except. specialize (Hm st Hst).
  destruct (body st) as [[a|e] st1]; [exact Hm | by apply Hh].
Qed.

Lemma keeps_get_db {B} (f : Database → M B) :
  (∀ d, delivered d cid → keeps k cid (f d)) → keeps k cid (get_db ≫= f).
Proof.
  intros Hf st Hst. unfold mbind, M_bind, get_db.
  apply Hf; [by destruct Hst | done].
Qed.

Lemma keeps_put_db d : delivered d cid → keeps k cid (put_db d).
Proof. intros Hd st (Hdb & Hco & Hq). by split; [|split]. Qed.

Lemma keeps_commit : keeps k cid db_commit.
Proof. intros st (Hdb & Hco & Hq). by split; [|split]. Qed.

Lemma keeps_rollback : keeps k cid db_rollback.
Proof. intros st (Hdb & Hco & Hq). by split; [|split]. Qed.

Lemma keeps_uuid4 env : keeps k cid (uuid4 env).
Proof. intros st (Hdb & Hco & Hq). by split; [|split]. Qed.

Lemma keeps_send_change env cid' : keeps k cid (_send_change_to_ai env self cid').
Proof. intros st. apply send_change_settled. Qed.

Lemma keeps_get_or_create_user email name :
  keeps k cid (_get_or_create_user email name).
Proof.
  unfold _get_or_create_user. apply keeps_try; [|intros; apply keeps_ret].
  apply keeps_get_db. intros d Hd.
  destruct (find _ _); [apply keeps_ret|].
  apply keeps_bind; [|intros; apply keeps_ret].
  apply keeps_put_db. by eapply delivered_ext.
Qed.

Lemma keeps_add_change fc : keeps k cid (db_add_change fc).
Proof.
  unfold db_add_change. apply keeps_get_db. intros d Hd.
  destruct (existsb _ _) eqn:Hex; cbn [orb]; [apply keeps_raise|].
  destruct (negb _); [apply keeps_raise|].
  apply keeps_put_db. by eapply delivered_add.
Qed.

Lemma keeps_update_repository_stats env rid :
  keeps k cid (update_repository_stats env rid).
Proof.
  unfold update_repository_stats. apply keeps_get_db. intros d Hd.
  apply keeps_put_db. by eapply delivered_ext.
Qed.

Lemma keeps_save_change env cd : keeps k cid (_save_change_to_db env self cd).
Proof.
  unfold _save_change_to_db. apply keeps_try.
  - apply keeps_bind; [apply keeps_get_or_create_user|].
    intros [uid|]; [|apply keeps_ret].
    apply keeps_bind; [apply keeps_uuid4|]. intros change_id.
    apply keeps_bind.
    { unfold parse_timestamp.
      destruct (env_fromisoformat _ _); [apply keeps_ret | apply keeps_raise]. }
    intros timestamp.
    apply keeps_bind; [apply keeps_add_change|]. intros _.
    apply keeps_bind; [apply keeps_update_repository_stats|]. intros _.
    apply keeps_bind; [apply keeps_commit|]. intros _. apply keeps_ret.
  - intros e. apply keeps_bind; [apply keeps_rollback|].
    intros _. apply keeps_ret.
Qed.

Lemma keeps_process_file_change env file_path change_type cd :
  keeps k cid (process_file_change env self file_path change_type cd).
Proof.
  unfold process_file_change. apply keeps_try; [|intros; apply keeps_ret].
  destruct (negb _); [apply keeps_ret|].
  apply keeps_bind; [apply keeps_save_change|].
  intros [change_id|]; [|apply keeps_ret].
  destruct (negb _); [apply keeps_ret|].
  apply keeps_bind; [|intros; apply keeps_ret].
  unfold _queue_for_ai_processing.
  apply keeps_try; [|intros; apply keeps_ret].
  apply keeps_bind; [apply keeps_send_change | intros; apply keeps_ret].
Qed.

Lemma run_op_settled env op st :
  settled k cid st → settled k cid (run_op self env op st).
Proof.
  destruct op; cbn [run_op].
  - apply keeps_process_file_change.
  - apply send_change_settled.
  - apply process_unsent_settled.
  - apply retry_failed_settled.
Qed.

Lemma run_ops_settled ops st :
  settled k cid st → settled k cid (run_ops self ops st).
Proof.
  revert st. induction ops as [|[env op] ops IH]; intros st Hst; [done|].
  cbn. apply IH. by apply run_op_settled.
Qed.

End SentIsFinal.

(** C3.  Once a record is Sent it stays Sent: after any history of
    processor operations (processing a new change, delivering one
    record, the pass over unsent records, the retry pass) that starts
    from a session with nothing uncommitted, a record that was Sent at
    the start is still Sent, and no event of that history, hence no
    POST, belongs to a delivery of that record.  A delivery call for
    the record itself answers [True] and changes nothing. *)
Theorem C3_sent_is_final self ops env cid st :
  st_committed st = st_db st →
  delivered (st_db st) cid →
  delivered (st_db (run_ops self ops st)) cid
  ∧ (∀ url body,
       (cid, Post url body) ∉ new_events st (run_ops self ops st))
  ∧ (_send_change_to_ai env self cid st).2 = st.
Proof.
  intros Hclean Hsent.
  assert (settled (length (st_trace st)) cid st) as Hst.
  { repeat split; try apply Hsent; try (rewrite Hclean; apply Hsent).
    unfold quiet_since. rewrite drop_all. constructor. }
  pose proof (run_ops_settled self cid _ ops st Hst) as (Hdb & _ & Hq).
  split; [exact Hdb|]. split.
  - intros url body Hin. unfold quiet_since in Hq.
    rewrite Forall_forall in Hq. by apply (Hq _ Hin).
  - destruct (send_change_cases self env cid st)
      as [Heq | (change & _ & _ & _ & Hfound & Hs & _)]; [exact Heq|].
    by destruct (delivered_not_queried cid _ _ _ Hsent Hfound Hs).
Qed.

(** A history on the sample store, started after chg-1 was accepted: a
    new change arrives while the backend fails, then the backend
    recovers and the passes run. *)
Lemma C3_sent_is_final_witness :
  let ops :=
    [(Sample.env (Sample.always 500),
      OpProcessFileChange "/srv/demo/app.py" "modified" Sample.change_data);
     (Sample.env (Sample.always 200), OpProcessUnsent 10);
     (Sample.env (Sample.always 200), OpSendChange "chg-1");
     (Sample.env (Sample.always 200), OpRetryFailed 1 20)] in
  delivered (st_db (run_ops Sample.processor ops Sample.sent_state)) "chg-1"
  ∧ (∀ url body,
       (("chg-1", Post url body) : string * NetEvent)
         ∉ new_events Sample.sent_state
             (run_ops Sample.processor ops Sample.sent_state))
  ∧ (_send_change_to_ai (Sample.env (Sample.always 200)) Sample.processor
       "chg-1" Sample.sent_state).2 = Sample.sent_state.
Proof.
  intros ops.
  apply (C3_sent_is_final Sample.processor ops
           (Sample.env (Sample.always 200)) "chg-1" Sample.sent_state).
  - reflexivity.
  - split.
    + exists (set_sent Sample.change). split; [|reflexivity].
      vm_compute. apply list_elem_of_here.
    + intros c Hc _. vm_compute in Hc.
      apply list_elem_of_singleton in Hc. rewrite Hc. reflexivity.
Defined.

(** The same history run: the new change chg-2 is tried three times
    while the backend fails and is delivered by the pass that follows. *)
Example history_on_sample_store :
  let st :=
    run_ops Sample.processor
      [(Sample.env (Sample.always 500),
        OpProcessFileChange "/srv/demo/app.py" "modified" Sample.change_data);
       (Sample.env (Sample.always 200), OpProcessUnsent 10)]
      Sample.sent_state in
  map fc_id (file_changes (st_db st)) = ["chg-1"; "chg-2"]
  ∧ map fc_sent_to_ai (file_changes (st_db st)) = [true; true]
  ∧ map fst (new_events Sample.sent_state st)
    = ["chg-2"; "chg-2"; "chg-2"; "chg-2"; "chg-2"; "chg-2"]
  ∧ st_posts st = 5%nat.
Proof. vm_compute. done. Qed.

(** ** A processed change is delivered before the callback returns *)

(** [_queue_for_ai_processing] delivers before it returns: for a
    record that is still Pending it leaves at least one and at most
    three more POSTs made. *)
Lemma queue_delivers_before_returning env url cid change st :
  query_change (st_db st) cid = Some change →
  fc_sent_to_ai change = false →
  let st' :=
    (_queue_for_ai_processing env (ChangeProcessor_init url) cid st).2 in
  (st_posts st < st_posts st' ≤ st_posts st + 3)%nat.
Proof.
  intros Hq Hs st'.
  assert (st' = (_send_change_to_ai env (ChangeProcessor_init url) cid st).2)
    as ->.
  { unfold st', _queue_for_ai_processing, try_except, mbind, M_bind.
    by destruct (_send_change_to_ai _ _ _ _) as [[b|e] st1]. }
  rewrite (send_change_pending env _ cid change st Hq Hs). cbn zeta.
  destruct (send_with_retries_spec env url
              (_prepare_ai_payload env (st_db st) change) (set_scope cid st).2)
    as (n & Hn & _ & _ & ->).
  destruct (if retryable _ then _ else _) as [[]|e]; cbn; lia.
Qed.

Lemma bind_ret_inv {A B} (m : M A) (f : A → M B) st b st2 :
  (m ≫= f) st = (Ret b, st2) →
  ∃ a st1, m st = (Ret a, st1) ∧ f a st1 = (Ret b, st2).
Proof.
  unfold mbind, M_bind. destruct (m st) as [[a|e] st1]; [|done].
  intros H. by exists a, st1.
Qed.

Lemma find_map_some {A} (f : A → bool) (g : A → A) l x :
  (∀ y, f (g y) = f y) →
  List.find f l = Some x → List.find f (map g l) = Some (g x).
Proof.
  intros Hfg. induction l as [|y l IH]; cbn; [done|].
  rewrite Hfg. destruct (f y); [congruence | exact IH].
Qed.

(** What a successful [_save_change_to_db] leaves: one new row, not
    sent, under a fresh id and an existing repository, committed; no
    request was made. *)
Lemma save_change_success env self cd st cid st1 :
  _save_change_to_db env self cd st = (Ret (Some cid), st1) →
  ∃ fc,
    file_changes (st_db st1) = file_changes (st_db st) ++ [fc]
    ∧ fc_id fc = cid
    ∧ fc_sent_to_ai fc = false
    ∧ existsb (fun c => String.eqb (fc_id c) cid) (file_changes (st_db st))
      = false
    ∧ is_Some (repository_of (st_db st1) fc)
    ∧ st_posts st1 = st_posts st
    ∧ st_trace st1 = st_trace st.
Proof.
  unfold _save_change_to_db, try_except.
  match goal with |- context [match ?body st with _ => _ end] =>
    destruct (body st) as [[r|e] st'] eqn:Hbody end; [|done].
  intros [= -> ->].
  apply bind_ret_inv in Hbody as (user_id & sa & Huser & Hbody).
  assert (file_changes (st_db sa) = file_changes (st_db st)
          ∧ repositories (st_db sa) = repositories (st_db st)
          ∧ st_posts sa = st_posts st ∧ st_trace sa = st_trace st)
    as (Hfc_a & Hrepo_a & Hposts_a & Htrace_a).
  { revert Huser. unfold _get_or_create_user, try_except, mbind, M_bind, get_db.
    destruct (find _ _); cbn; by intros [= <- <-]. }
  destruct user_id as [uid|]; [|done].
  apply bind_ret_inv in Hbody as (change_id & sb & Huuid & Hbody).
  injection Huuid as <- <-.
  apply bind_ret_inv in Hbody as (timestamp & sc & Htime & Hbody).
  assert (sc = mkState (st_db sa) (st_committed sa) (st_posts sa)
                       (S (st_uuids sa)) (st_scope sa) (st_trace sa)) as ->.
  { revert Htime. unfold parse_timestamp.
    destruct (env_fromisoformat _ _); [by intros [= <- <-] | done]. }
  apply bind_ret_inv in Hbody as ([] & sd & Hadd & Hbody).
  revert Hadd. unfold db_add_change, mbind, M_bind, get_db.
  cbn [st_db fc_id].
  destruct (existsb _ _) eqn:Hfresh; [done|]. cbn [orb].
  destruct (bool_decide _) eqn:Hrepo; [|done]. cbn [negb].
  intros [= <-].
  apply bind_ret_inv in Hbody as ([] & se & Hupd & Hbody).
  injection Hupd as <-.
  apply bind_ret_inv in Hbody as ([] & sf & Hcommit & Hbody).
  injection Hcommit as <-. injection Hbody as <- <-.
  eexists. cbn [st_db st_posts st_trace file_changes].
  split; [by rewrite Hfc_a|]. split; [done|]. split; [done|].
  split; [by rewrite <- Hfc_a|]. split; [|done].
  apply bool_decide_eq_true in Hrepo. destruct Hrepo as [r Hr].
  unfold repository_of in Hr |- *.
  cbn [st_db repositories fc_repository_id] in Hr |- *.
  eexists. eapply find_map_some; [|exact Hr].
  intros y. cbn beta.
  destruct (String.eqb (r_id y) (cd_repository_id cd)) eqn:E; exact E.
Qed.

Lemma find_app_fresh {A} (f g : A → bool) l x :
  existsb g l = false → (∀ y, f y = true → g y = true) → f x = true →
  List.find f (l ++ [x]) = Some x.
Proof.
  intros Hfresh Hfg Hx. induction l as [|y l IH]; cbn.
  - by rewrite Hx.
  - cbn in Hfresh. apply orb_false_elim in Hfresh as [Hy Hl].
    destruct (f y) eqn:Hfy; [|by apply IH].
    apply Hfg in Hfy. congruence.
Qed.

(** Whenever the service's processor answers the id of a change it
    persisted, between one and three POSTs were made for it before
    [process_file_change] returned. *)
Lemma processed_change_is_posted env url file_path change_type cd st cid st' :
  process_file_change env (ChangeProcessor_init url) file_path change_type
    cd st = (Ret (Some cid), st') →
  (st_posts st < st_posts st' ≤ st_posts st + 3)%nat.
Proof.
  unfold process_file_change, try_except.
  destruct (negb (_validate_change_data cd)); [done|].
  unfold mbind at 1, M_bind at 1.
  destruct (_save_change_to_db env _ cd st) as [[saved|e] st1] eqn:Hsave;
    [|done].
  destruct saved as [cid'|]; [|done].
  destruct (negb (PyStr.truthy cid')); [done|].
  destruct (save_change_success _ _ _ _ _ _ Hsave)
    as (fc & Hrows & Hid & Hsent & Hfresh & Hrepo & Hposts & _).
  assert (query_change (st_db st1) cid' = Some fc) as Hq.
  { unfold query_change. rewrite Hrows.
    apply (find_app_fresh _ (fun c => String.eqb (fc_id c) cid')).
    - exact Hfresh.
    - intros y Hy. by apply andb_prop in Hy as [Hy _].
    - rewrite Hid, String.eqb_refl. by apply bool_decide_eq_true. }
  pose proof (queue_delivers_before_returning env url cid' fc st1 Hq Hsent)
    as Hqueue. cbn zeta in Hqueue.
  unfold mbind, M_bind.
  destruct (_queue_for_ai_processing env _ cid' st1) as [[[]|e] st2];
    cbn in *; intros [= <- <-]; lia.
Qed.

(** The same through [handle_file_change], the callable the watcher
    calls from its event loop: a change that is persisted costs the
    callback at least one POST. *)
Lemma handle_file_change_posts env url file_path change_type cd st cid :
  (process_file_change env (ChangeProcessor_init url) file_path change_type
     cd (Server.fresh_session st)).1 = Ret (Some cid) →
  (st_posts st
   < st_posts (Server.handle_file_change env (ChangeProcessor_init url)
                 file_path change_type cd st))%nat.
Proof.
  intros Hret. unfold Server.handle_file_change.
  destruct (process_file_change env _ file_path change_type cd
              (Server.fresh_session st)) as [r st'] eqn:Hrun.
  cbn in Hret. subst r.
  apply processed_change_is_posted in Hrun. cbn in *. lia.
Qed.

(** ** Delivery and the watcher's event loop *)

(** C2 at a failing input.  The observer thread hands the sample
    watcher a Modified event for app.py while the backend answers 500.
    When the call returns, the trace holds three POSTs of the change
    and the two back-off sleeps between them: the delivery ran inside
    the event callback, through [handle_file_change],
    [process_file_change] and [_queue_for_ai_processing]. *)
Theorem C2_delivery_inside_event_callback :
  let env := Sample.env (Sample.always 500) in
  let watcher := Sample.watcher_with {["app.py" := "print(0)"]} in
  let event := mkFileSystemEvent "/srv/demo/app.py" false in
  let result :=
    dispatch Sample.world (Server.invoke env Sample.processor) watcher
      "modified" event Sample.state in
  let post :=
    Post "http://ai/api/changes"
      (mkPayload (Some 1) "app.py" "modified" "print(0)" "print(1)") in
  file_snapshots result.1 !! "app.py" = Some "print(1)"
  ∧ map fc_id (file_changes (st_db result.2)) = ["chg-1"; "chg-2"]
  ∧ new_events Sample.state result.2
    = map (pair "chg-2") [post; Sleep 2; post; Sleep 4; post].
Proof. vm_compute. repeat split; reflexivity. Qed.

(** ** Ignore policy *)

Lemma prefix_spec p s :
  String.prefix p s = true ↔ ∃ post, s = p +:+ post.
Proof.
  revert s. induction p as [|c p IH]; intros s; cbn.
  - destruct s; (split; [intros _; eexists; reflexivity | done]).
  - destruct s as [|d s]; cbn.
    + split; [done | intros [post H]; discriminate].
    + destruct (Ascii.ascii_dec c d) as [->|Hne].
      * rewrite IH. split.
        -- intros [post ->]. by exists post.
        -- intros [post H]. injection H as H. by exists post.
      * split; [done | intros [post H]; injection H as H1 H2; congruence].
Qed.

Lemma contains_spec s p : PyStr.contains s p = true ↔ occurs_in p s.
Proof.
  unfold occurs_in. induction s as [|c s IH]; cbn [PyStr.contains].
  - rewrite orb_false_r, prefix_spec. split.
    + intros [post ->]. by exists "", post.
    + intros ([|d pre] & post & H); [by exists post | discriminate].
  - rewrite orb_true_iff, prefix_spec, IH. split.
    + intros [[post ->] | (pre & post & ->)].
      * by exists "", post.
      * by exists (String c pre), post.
    + intros ([|d pre] & post & H).
      * left. by exists post.
      * right. injection H as -> H. by exists pre, post.
Qed.

Lemma str_in_spec x xs : PyStr.str_in x xs = true ↔ x ∈ xs.
Proof.
  unfold PyStr.str_in. rewrite existsb_exists. split.
  - intros (y & Hin & Heq). apply String.eqb_eq in Heq as ->.
    by apply list_elem_of_In.
  - intros Hin. exists x. split; [by apply list_elem_of_In|].
    apply String.eqb_refl.
Qed.

Lemma startswith_dot name :
  PyStr.startswith name "." = true ↔ dot_prefixed name.
Proof. unfold PyStr.startswith, dot_prefixed. apply prefix_spec. Qed.

(** C9 (as amended).  [should_ignore_file] is a function of the path
    alone.  It answers true exactly when a block-listed name occurs
    inside some part of the path, or the suffix of the path is a
    block-listed extension, or the name of the entry begins with a dot
    and its suffix is not one of the allowed source extensions. *)
Theorem C9_should_ignore_file repo_path file_path :
  let handler := ChangeEventHandler_init repo_path in
  should_ignore_file handler file_path = true
  ↔ (∃ part pattern,
        part ∈ PyPath.parts file_path
        ∧ pattern ∈ ignored_patterns handler
        ∧ occurs_in pattern part)
    ∨ PyPath.suffix file_path ∈ ignored_extensions handler
    ∨ (dot_prefixed (PyPath.name file_path)
       ∧ PyPath.suffix file_path ∉ hidden_allowed).
Proof.
  intros handler. unfold should_ignore_file.
  destruct (existsb _ (PyPath.parts file_path)) eqn:Hparts.
  { split; [intros _ | done]. left.
    apply existsb_exists in Hparts as (part & Hpart & Hpat).
    apply existsb_exists in Hpat as (pattern & Hpattern & Hocc).
    exists part, pattern. repeat split.
    - by apply list_elem_of_In.
    - by apply list_elem_of_In.
    - by apply contains_spec. }
  assert (Hno : ¬ ∃ part pattern,
             part ∈ PyPath.parts file_path
             ∧ pattern ∈ ignored_patterns handler
             ∧ occurs_in pattern part).
  { intros (part & pattern & Hpart & Hpattern & Hocc).
    assert (existsb
              (fun part =>
                 existsb (fun pattern => PyStr.contains part pattern)
                         (ignored_patterns handler))
              (PyPath.parts file_path) = true) as Hex; [|congruence].
    apply existsb_exists. exists part. split; [by apply list_elem_of_In|].
    apply existsb_exists. exists pattern. split; [by apply list_elem_of_In|].
    by apply contains_spec. }
  destruct (PyStr.str_in (PyPath.suffix file_path) (ignored_extensions handler))
    eqn:Hext.
  { split; [intros _ | done]. right. left. by apply str_in_spec. }
  assert (Hnoext : PyPath.suffix file_path ∉ ignored_extensions handler).
  { intros Hin. apply str_in_spec in Hin. congruence. }
  destruct (PyStr.startswith (PyPath.name file_path) ".") eqn:Hdot; cbn [andb].
  - destruct (PyStr.str_in (PyPath.suffix file_path) hidden_allowed) eqn:Hal;
      cbn [negb].
    + split; [done|]. intros [H | [H | [_ H]]]; [by destruct Hno | done |].
      apply str_in_spec in Hal. done.
    + split; [intros _ | done]. right. right. split.
      * by apply startswith_dot.
      * intros Hin. apply str_in_spec in Hin. congruence.
  - split; [done|]. intros [H | [H | [H _]]]; [by destruct Hno | done |].
    apply startswith_dot in H. congruence.
Qed.

(** C9 as stated fails: src/environment.py is ignored, because "env"
    occurs inside "environment.py", although no part of the path is a
    block-listed name, its extension is not block-listed and its name
    does not begin with a dot. *)
Lemma C9_counterexample :
  let handler := ChangeEventHandler_init "/srv/demo" in
  let path := "/srv/demo/src/environment.py" in
  should_ignore_file handler path = true
  ∧ existsb (fun part => PyStr.str_in part (ignored_patterns handler))
            (PyPath.parts path) = false
  ∧ PyStr.str_in (PyPath.suffix path) (ignored_extensions handler) = false
  ∧ PyStr.startswith (PyPath.name path) "." = false.
Proof. vm_compute. done. Qed.

(** ** The sample watcher *)

(** The manager builds the sample watcher, and its start snapshots the
    tracked files: data.log is ignored for its extension, .git is not
    entered, and src/environment.py is ignored because "env" occurs in
    its name. *)
Example sample_watcher_start :
  let manager :=
    manager_add_change_callback WatcherManager_init Server.HandleFileChange in
  add_repository Sample.world manager "repo-1" "/srv/demo"
  = (true, mkWatcherManager [("repo-1", Sample.fresh_watcher)]
                            [Server.HandleFileChange])
  ∧ is_running Sample.running_watcher = true
  ∧ file_snapshots Sample.running_watcher
    = list_to_map [("app.py", "print(1)");
                   ("notes.md", "---" +:+ Sample.nl +:+ "title: demo");
                   ("src/util.py", "x = 1")].
Proof. split; [|split]; vm_compute; reflexivity. Qed.

(** ** Diffs against an empty side *)

Lemma scan_is_no_b items blo bhi i j2len best :
  Difflib.scan_is [] blo bhi items i j2len best = best.
Proof.
  revert i j2len best. induction items as [|x items IH]; intros; [done|].
  cbn. apply IH.
Qed.

Lemma extend_left_at_start a b fuel alo blo k :
  Difflib.extend_left a b fuel alo blo (Difflib.mkMatch alo blo k)
  = Difflib.mkMatch alo blo k.
Proof.
  destruct fuel; [done|]. cbn -[Nat.ltb]. by rewrite Nat.ltb_irrefl.
Qed.

Lemma find_longest_match_no_b a ahi :
  Difflib.find_longest_match a [] 0 ahi 0 0 = Difflib.mkMatch 0 0 0.
Proof.
  unfold Difflib.find_longest_match.
  rewrite scan_is_no_b, extend_left_at_start.
  destruct (length a); [done|]. cbn. by rewrite andb_false_r.
Qed.

Lemma find_longest_match_no_a b bhi :
  Difflib.find_longest_match [] b 0 0 0 bhi = Difflib.mkMatch 0 0 0.
Proof. done. Qed.

Lemma slice_all {A} (l : list A) : Difflib.slice l 0 (length l) = l.
Proof.
  unfold Difflib.slice. rewrite Nat.sub_0_r. cbn [drop]. apply firstn_all.
Qed.

(** Against an empty new side the diff is one hunk that removes every
    line. *)
Lemma unified_diff_delete_all a fromfile tofile :
  a ≠ [] →
  Difflib.unified_diff a [] fromfile tofile
  = ["--- " +:+ fromfile; "+++ " +:+ tofile;
     "@@ -" +:+ Difflib.format_range_unified 0 (length a)
     +:+ " +" +:+ Difflib.format_range_unified 0 0 +:+ " @@"]
    ++ map (String.append "-") a.
Proof.
  intros Ha.
  assert (Difflib.get_grouped_opcodes a [] 3
          = [[Difflib.mkOpcode Difflib.Delete 0 (length a) 0 0]]) as Hgroups.
  { unfold Difflib.get_grouped_opcodes, Difflib.get_opcodes,
      Difflib.get_matching_blocks.
    cbn [Difflib.blocks]. rewrite find_longest_match_no_b.
    destruct a as [|x a]; [done|]. done. }
  unfold Difflib.unified_diff. rewrite Hgroups.
  cbn [map concat Difflib.hunk List.last Difflib.op_i1 Difflib.op_i2
       Difflib.op_j1 Difflib.op_j2 app].
  unfold Difflib.opcode_lines.
  cbn [Difflib.op_tag Difflib.op_i1 Difflib.op_i2].
  by rewrite slice_all, !app_nil_r.
Qed.

(** Against an empty old side the diff is one hunk that inserts every
    line. *)
Lemma unified_diff_insert_all b fromfile tofile :
  b ≠ [] →
  Difflib.unified_diff [] b fromfile tofile
  = ["--- " +:+ fromfile; "+++ " +:+ tofile;
     "@@ -" +:+ Difflib.format_range_unified 0 0
     +:+ " +" +:+ Difflib.format_range_unified 0 (length b) +:+ " @@"]
    ++ map (String.append "+") b.
Proof.
  intros Hb.
  assert (Difflib.get_grouped_opcodes [] b 3
          = [[Difflib.mkOpcode Difflib.Insert 0 0 0 (length b)]]) as Hgroups.
  { unfold Difflib.get_grouped_opcodes, Difflib.get_opcodes,
      Difflib.get_matching_blocks.
    cbn [Difflib.blocks length]. rewrite find_longest_match_no_a.
    destruct b as [|x b]; [done|]. done. }
  unfold Difflib.unified_diff. rewrite Hgroups.
  cbn [map concat Difflib.hunk List.last Difflib.op_i1 Difflib.op_i2
       Difflib.op_j1 Difflib.op_j2 app].
  unfold Difflib.opcode_lines.
  cbn [Difflib.op_tag Difflib.op_j1 Difflib.op_j2].
  by rewrite slice_all, !app_nil_r.
Qed.

(** ** Lines, joined and split again *)

Lemma single_line_app s t :
  single_line (s +:+ t) = single_line s && single_line t.
Proof.
  induction s as [|c s IH]; [done|].
  change (String c s +:+ t) with (String c (s +:+ t)).
  cbn [single_line]. rewrite IH. by rewrite andb_assoc.
Qed.

Lemma split_lines_single s :
  Forall (fun l => single_line l = true) (PyStr.split_lines s).
Proof.
  unfold PyStr.split_lines.
  induction s as [|c s IH]; cbn; [by repeat constructor|].
  destruct (Ascii.eqb c PyStr.newline) eqn:E.
  - by constructor.
  - destruct (PyStr.split_on PyStr.newline s) as [|l ls].
    + repeat constructor. cbn. by rewrite E.
    + apply Forall_cons in IH as [Hl Hls]. constructor; [|done].
      cbn. by rewrite E, Hl.
Qed.

Lemma split_lines_nonempty s : PyStr.split_lines s ≠ [].
Proof.
  unfold PyStr.split_lines. destruct s as [|c s]; cbn; [done|].
  destruct (Ascii.eqb c PyStr.newline); [done|].
  by destruct (PyStr.split_on PyStr.newline s).
Qed.

Lemma split_lines_one l :
  single_line l = true → PyStr.split_lines l = [l].
Proof.
  unfold PyStr.split_lines. induction l as [|c l IH]; cbn; [done|].
  intros H. apply andb_prop in H as [Hc Hl].
  destruct (Ascii.eqb c PyStr.newline); [done|]. by rewrite IH.
Qed.

Lemma split_lines_cons l rest :
  single_line l = true →
  PyStr.split_lines (l +:+ String PyStr.newline rest)
  = l :: PyStr.split_lines rest.
Proof.
  unfold PyStr.split_lines. induction l as [|c l IH]; intros H.
  - done.
  - cbn [single_line] in H. apply andb_prop in H as [Hc Hl].
    change (String c l +:+ String PyStr.newline rest)
      with (String c (l +:+ String PyStr.newline rest)).
    cbn [PyStr.split_on].
    destruct (Ascii.eqb c PyStr.newline); [done|]. by rewrite IH.
Qed.

(** Lines without newlines survive [join] followed by [split]. *)
Lemma split_join_lines ls :
  ls ≠ [] →
  Forall (fun l => single_line l = true) ls →
  PyStr.split_lines (PyStr.join_lines ls) = ls.
Proof.
  unfold PyStr.join_lines.
  induction ls as [|l ls IH]; [done|]. intros _ Hall.
  apply Forall_cons in Hall as [Hl Hls].
  destruct ls as [|l' ls].
  - cbn. by apply split_lines_one.
  - cbn [PyStr.join_with].
    change (String PyStr.newline "" +:+ ?r) with (String PyStr.newline r).
    rewrite split_lines_cons by done. f_equal. by apply IH.
Qed.

Lemma pretty_N_char_single x : Ascii.eqb (pretty_N_char x) PyStr.newline = false.
Proof. unfold pretty_N_char. by repeat case_match. Qed.

Lemma pretty_N_go_single x s :
  single_line s = true → single_line (pretty_N_go x s) = true.
Proof.
  revert s. induction (N.lt_wf_0 x) as [x _ IH]; intros s Hs.
  assert (x = 0 ∨ 0 < x)%N as [->|Hpos] by lia.
  - by rewrite pretty_N_go_0.
  - rewrite pretty_N_go_step by done. apply IH.
    + by apply N.div_lt.
    + cbn. by rewrite pretty_N_char_single, Hs.
Qed.

Lemma pretty_nat_single (n : nat) : single_line (pretty n) = true.
Proof.
  unfold pretty, pretty_nat, pretty, pretty_N.
  case_decide; [done|]. by apply pretty_N_go_single.
Qed.

Lemma format_range_single start stop :
  single_line (Difflib.format_range_unified start stop) = true.
Proof.
  unfold Difflib.format_range_unified.
  destruct (_ =? 1)%nat; [apply pretty_nat_single|].
  rewrite !single_line_app, !pretty_nat_single. done.
Qed.

(** ** Counting the lines of a one-sided diff *)

Lemma count_line_minus stats l :
  count_line stats ("-" +:+ l)
  = if PyStr.startswith l "--" then stats
    else mkDiffStats (added stats) (removed stats + 1).
Proof.
  unfold count_line, PyStr.startswith.
  change ("-" +:+ l) with (String "-"%char l).
  cbn. assert (String.prefix "" l = true) as -> by (by destruct l).
  by destruct (String.prefix "--" l).
Qed.

Lemma count_line_plus stats l :
  count_line stats ("+" +:+ l)
  = if PyStr.startswith l "++" then stats
    else mkDiffStats (added stats + 1) (removed stats).
Proof.
  unfold count_line, PyStr.startswith.
  change ("+" +:+ l) with (String "+"%char l).
  cbn. assert (String.prefix "" l = true) as -> by (by destruct l).
  by destruct (String.prefix "++" l).
Qed.

Lemma count_removals ls stats :
  fold_left count_line (map (String.append "-") ls) stats
  = mkDiffStats (added stats)
      (removed stats
       + Z.of_nat (length (List.filter
                             (fun l => negb (PyStr.startswith l "--")) ls))).
Proof.
  revert stats. induction ls as [|l ls IH]; intros stats.
  - cbn. rewrite Z.add_0_r. by destruct stats.
  - cbn [map fold_left List.filter]. rewrite count_line_minus, IH.
    destruct (PyStr.startswith l "--"); cbn [negb length added removed].
    + done.
    + f_equal. lia.
Qed.

Lemma count_insertions ls stats :
  fold_left count_line (map (String.append "+") ls) stats
  = mkDiffStats
      (added stats
       + Z.of_nat (length (List.filter
                             (fun l => negb (PyStr.startswith l "++")) ls)))
      (removed stats).
Proof.
  revert stats. induction ls as [|l ls IH]; intros stats.
  - cbn. rewrite Z.add_0_r. by destruct stats.
  - cbn [map fold_left List.filter]. rewrite count_line_plus, IH.
    destruct (PyStr.startswith l "++"); cbn [negb length added removed].
    + done.
    + f_equal. lia.
Qed.

Lemma single_line_marked marker ls :
  Forall (fun l => single_line l = true) ls →
  single_line marker = true →
  Forall (fun l => single_line l = true) (map (String.append marker) ls).
Proof.
  intros Hls Hm. apply Forall_fmap. eapply Forall_impl; [exact Hls|].
  intros l Hl. cbn. change (append marker l) with (marker +:+ l).
  by rewrite single_line_app, Hm, Hl.
Qed.

(** The counts for the diff of a content against nothing: every line
    is removed, and those that do not begin with "--" are counted. *)
Lemma parse_stats_of_removal p content :
  single_line p = true →
  _parse_diff_stats (_create_diff p content "")
  = mkDiffStats 0 (Z.of_nat (length (lines_without "--" content))).
Proof.
  intros Hp. unfold lines_without, lines_of, _create_diff.
  destruct (PyStr.truthy content) eqn:Htruthy; cbn [PyStr.truthy negb]; [|done].
  rewrite unified_diff_delete_all by apply split_lines_nonempty.
  cbn [app]. unfold _parse_diff_stats. rewrite split_join_lines; [|done|].
  - cbn [app fold_left]. rewrite count_removals.
    unfold count_line at 1 2 3 4 5, PyStr.startswith. cbn. done.
  - cbn [app]. repeat apply Forall_cons_2;
      rewrite ?single_line_app, ?Hp, ?format_range_single; try done.
    apply single_line_marked; [apply split_lines_single | done].
Qed.

(** The counts for the diff of nothing against a content: every line
    is inserted, and those that do not begin with "++" are counted. *)
Lemma parse_stats_of_creation p content :
  single_line p = true →
  _parse_diff_stats (_create_diff p "" content)
  = mkDiffStats (Z.of_nat (length (lines_without "++" content))) 0.
Proof.
  intros Hp. unfold lines_without, lines_of, _create_diff.
  destruct (PyStr.truthy content) eqn:Htruthy; cbn [PyStr.truthy negb]; [|done].
  rewrite unified_diff_insert_all by apply split_lines_nonempty.
  cbn [app]. unfold _parse_diff_stats. rewrite split_join_lines; [|done|].
  - cbn [app fold_left]. rewrite count_insertions.
    unfold count_line at 1 2 3 4 5, PyStr.startswith. cbn. done.
  - cbn [app]. repeat apply Forall_cons_2;
      rewrite ?single_line_app, ?Hp, ?format_range_single; try done.
    apply single_line_marked; [apply split_lines_single | done].
Qed.

(** ** Diff statistics *)

(** C8 at a failing input.  A file is created with the two lines
    "x = 1" and "++x": the diff inserts two lines and the count of
    added lines is 1, because the diff line "+++x" is taken for a
    header.  The file is then deleted after its lines became "--x"
    and "x = 1": the diff removes two lines and the count is 1. *)
Theorem C8_counts_miss_marker_lines :
  let created := "x = 1" +:+ Sample.nl +:+ "++x" in
  let deleted := "--x" +:+ Sample.nl +:+ "x = 1" in
  _create_diff "util.py" "" created
  = PyStr.join_lines
      ["diff --git a/util.py b/util.py"; "new file mode 100644";
       "--- a/util.py"; "+++ b/util.py"; "@@ -0,0 +1,2 @@";
       "+x = 1"; "+++x"]
  ∧ genuine_added "" created = 2
  ∧ added (_parse_diff_stats (_create_diff "util.py" "" created)) = 1
  ∧ genuine_removed deleted "" = 2
  ∧ removed (_parse_diff_stats (_create_diff "util.py" deleted "")) = 1.
Proof. vm_compute. done. Qed.

(** ** Deleted events *)

(** A Deleted event for a path with a snapshot entry, in general: the
    diff is that of the entry against nothing, the entry is removed,
    no line is counted as added, and the lines counted as removed are
    the lines of the entry that do not begin with "--"; all of them
    when no line of the entry begins so. *)
Lemma deleted_event_with_snapshot {C} world (self : RepoWatcher C) p content :
  single_line p = true →
  file_snapshots self !! p = Some content →
  let result := _get_proper_diff world self p "deleted" in
  result.1 = _create_diff p content ""
  ∧ result.2 = delete p (file_snapshots self)
  ∧ added (_parse_diff_stats result.1) = 0
  ∧ removed (_parse_diff_stats result.1)
    = Z.of_nat (length (lines_without "--" content))
  ∧ (Forall (fun l => PyStr.startswith l "--" = false) (lines_of content) →
     removed (_parse_diff_stats result.1)
     = Z.of_nat (length (lines_of content))).
Proof.
  intros Hp Hsnap result.
  assert (result = (_create_diff p content "", delete p (file_snapshots self)))
    as ->.
  { unfold result, _get_proper_diff. cbn [String.eqb orb]. by rewrite Hsnap. }
  cbn [fst snd]. rewrite parse_stats_of_removal by done. cbn [added removed].
  repeat split; try done.
  intros Hall. unfold lines_without. do 2 f_equal.
  induction (lines_of content) as [|l ls IH]; [done|].
  apply Forall_cons in Hall as [Hl Hls]. cbn. rewrite Hl. cbn.
  f_equal. by apply IH.
Qed.

(** A Deleted event for a path without a snapshot entry. *)
Lemma deleted_event_without_snapshot {C} world (self : RepoWatcher C) p :
  file_snapshots self !! p = None →
  _get_proper_diff world self p "deleted"
  = ("File deleted (no previous snapshot available)", file_snapshots self).
Proof.
  intros Hsnap. unfold _get_proper_diff. cbn [String.eqb orb].
  by rewrite Hsnap.
Qed.

(** C5 at a failing input.  notes.md is deleted while its snapshot
    holds the two lines "---" and "title: demo".  The diff has the last
    snapshot value as its previous side and removes both lines, the
    entry is removed from the snapshots and no line is counted as
    added, but the count of removed lines is 1, not 2: the diff line
    "----" is taken for a header.  Without an entry the diff is the
    "no previous snapshot" text. *)
Theorem C5_deleted_event_counts :
  let content := "---" +:+ Sample.nl +:+ "title: demo" in
  let self := Sample.watcher_with {["notes.md" := content]} in
  let result := _get_proper_diff Sample.world self "notes.md" "deleted" in
  result.1 = _create_diff "notes.md" content ""
  ∧ result.1
    = PyStr.join_lines
        ["diff --git a/notes.md b/notes.md"; "deleted file mode 100644";
         "--- a/notes.md"; "+++ b/notes.md"; "@@ -1,2 +0,0 @@";
         "----"; "-title: demo"]
  ∧ result.2 !! "notes.md" = None
  ∧ length (lines_of content) = 2%nat
  ∧ genuine_removed content "" = 2
  ∧ added (_parse_diff_stats result.1) = 0
  ∧ removed (_parse_diff_stats result.1) = 1
  ∧ _get_proper_diff Sample.world (Sample.watcher_with ∅) "notes.md" "deleted"
    = ("File deleted (no previous snapshot available)", ∅).
Proof. vm_compute. done. Qed.

(** ** Created and Modified events *)

Lemma truthy_false s : PyStr.truthy s = false ↔ s = "".
Proof. destruct s; cbn; split; congruence. Qed.

(** C4 (as amended).  A Created or Modified event for a path whose
    file can be read takes the file's text as the current content and
    leaves it as the snapshot entry of the path.  The previous content
    is the snapshot entry when there is one and it is not empty or the
    kind is Created; without an entry it is the content at the last
    committed revision (empty when absent there) for a kind other than
    Created, and empty for Created.  When the file exists and cannot
    be read, the diff is the text of the read error and the snapshots
    are left as they were. *)
Theorem C4_created_or_modified {C} world (self : RepoWatcher C) p kind :
  kind ≠ "deleted" →
  let snaps := file_snapshots self in
  let file_path := PyPath.join (repo_path self) p in
  let result := _get_proper_diff world self p kind in
  (∀ current,
     w_file world file_path = Readable current →
     result.2 = <[p := current]> snaps
     ∧ (∀ entry, snaps !! p = Some entry → entry ≠ "" ∨ kind = "created" →
          result.1 = diff_between p entry current)
     ∧ (snaps !! p = None → kind ≠ "created" →
          result.1
          = diff_between p (head_content world (repo_path self) p) current)
     ∧ (snaps !! p = None → kind = "created" →
          result.1 = diff_between p "" current))
  ∧ (∀ err,
       w_file world file_path = Unreadable err →
       result = ("Error reading current file: " +:+ err, snaps)).
Proof.
  intros Hkind snaps file_path result.
  assert (String.eqb kind "deleted" = false) as Hdel
    by (by apply String.eqb_neq).
  split.
  - intros current Hfile.
    assert (path_exists world file_path = true) as Hex.
    { unfold path_exists. rewrite Hfile. apply orb_true_r. }
    assert (Hres : result =
      (let previous := default "" (snaps !! p) in
       let previous :=
         if negb (PyStr.truthy previous) && negb (String.eqb kind "created")
         then head_content world (repo_path self) p else previous in
       (diff_between p previous current, <[p := current]> snaps))).
    { unfold result, _get_proper_diff. fold snaps file_path.
      by rewrite Hdel, Hex, Hfile. }
    rewrite Hres. cbn zeta. split; [done|]. split; [|split].
    + intros entry -> Hentry. cbn [default snd fst]. unfold id.
      destruct Hentry as [Hne | ->].
      * destruct (PyStr.truthy entry) eqn:Ht; [done|].
        by apply truthy_false in Ht.
      * by rewrite andb_false_r.
    + intros -> Hne. cbn [default PyStr.truthy negb andb fst].
      by apply String.eqb_neq in Hne as ->.
    + intros -> ->. done.
  - intros err Hfile.
    assert (path_exists world file_path = true) as Hex.
    { unfold path_exists. rewrite Hfile. apply orb_true_r. }
    unfold result, _get_proper_diff. fold snaps file_path.
    by rewrite Hdel, Hex, Hfile.
Qed.

(** The sample watcher sees app.py modified: its snapshot "print(1)"
    is the previous content.  Here the file did not change. *)
Lemma C4_created_or_modified_witness :
  (_get_proper_diff Sample.world Sample.running_watcher "app.py" "modified").2
  = <["app.py" := "print(1)"]> (file_snapshots Sample.running_watcher)
  ∧ (_get_proper_diff Sample.world Sample.running_watcher "app.py"
       "modified").1
    = "No actual changes detected".
Proof.
  destruct (C4_created_or_modified Sample.world Sample.running_watcher
              "app.py" "modified" ltac:(discriminate)) as [Hread _].
  destruct (Hread "print(1)" eq_refl) as (Hsnap & Hentry & _).
  split; [exact Hsnap|].
  assert (file_snapshots Sample.running_watcher !! "app.py"
          = Some "print(1)") as Hsome by (vm_compute; reflexivity).
  assert ("print(1)" ≠ "" ∨ "modified" = "created") as Hne
    by (left; discriminate).
  pose proof (Hentry "print(1)" Hsome Hne) as Hdiff.
  etransitivity; [exact Hdiff|]. vm_compute. reflexivity.
Defined.

(** C4 as stated fails.  locked.py exists and cannot be read: the diff
    is the error text and the snapshot keeps "x = 0", where the claim
    has an empty current content written to the snapshot.  And app.py,
    whose snapshot entry is present and empty, is compared with its
    committed content "print(0)", not with the entry. *)
Lemma C4_counterexample :
  let locked := Sample.watcher_with {["locked.py" := "x = 0"]} in
  let emptied := Sample.watcher_with {["app.py" := ""]} in
  _get_proper_diff Sample.world locked "locked.py" "modified"
  = ("Error reading current file: [Errno 13] Permission denied",
     {["locked.py" := "x = 0"]})
  ∧ (_get_proper_diff Sample.world emptied "app.py" "modified").1
    = diff_between "app.py" "print(0)" "print(1)"
  ∧ diff_between "app.py" "print(0)" "print(1)"
    ≠ diff_between "app.py" "" "print(1)".
Proof. vm_compute. repeat split; congruence. Qed.

(** ** Stopping a watcher *)

(** C6 (as amended).  [stop_watching] on a watcher that is not running
    answers true and changes nothing, so a second stop is harmless.
    On a running watcher it stops the observer and joins it with a
    timeout of 5 seconds.  When neither call raises, whether the
    thread ended within the timeout or not, it answers true and leaves
    the watcher stopped, without observer and handler; a running
    watcher that has no observer is stopped the same way, without a
    call.  When the stop raises, the join is not attempted; when the
    stop or the join raises, the call answers false and leaves the
    watcher exactly as it was: running, with its observer and its
    handler.  In every case the snapshots are left as they were, and
    after an answer true stopping again changes nothing. *)
Theorem C6_stop_watching {C} world (self : RepoWatcher C) :
  let result := stop_watching world self in
  let path := repo_path self in
  (is_running self = false → result = (true, self, []))
  ∧ (is_running self = true →
     is_Some (observer self) →
     w_stop world path = Joins ∨ w_stop world path = JoinTimesOut →
       result.1.1 = true
       ∧ result.2 = [ObserverStop path; ObserverJoin path 5]
       ∧ is_running result.1.2 = false
       ∧ observer result.1.2 = None
       ∧ event_handler result.1.2 = None
       ∧ file_snapshots result.1.2 = file_snapshots self
       ∧ stop_watching world result.1.2 = (true, result.1.2, []))
  ∧ (is_running self = true →
     observer self = None →
       result.1.1 = true
       ∧ result.2 = []
       ∧ is_running result.1.2 = false
       ∧ observer result.1.2 = None
       ∧ event_handler result.1.2 = None
       ∧ file_snapshots result.1.2 = file_snapshots self
       ∧ stop_watching world result.1.2 = (true, result.1.2, []))
  ∧ (is_running self = true →
     is_Some (observer self) →
     w_stop world path = StopRaises →
       result = (false, self, [ObserverStop path]))
  ∧ (is_running self = true →
     is_Some (observer self) →
     w_stop world path = JoinRaises →
       result = (false, self, [ObserverStop path; ObserverJoin path 5]))
  ∧ file_snapshots result.1.2 = file_snapshots self
  ∧ repo_path result.1.2 = repo_path self
  ∧ repo_id result.1.2 = repo_id self
  ∧ change_callbacks result.1.2 = change_callbacks self
  ∧ (result.1.1 = true →
     is_running result.1.2 = false
     ∧ stop_watching world result.1.2 = (true, result.1.2, []))
  ∧ (result.1.1 = false →
     result.1.2 = self ∧ is_running self = true
     ∧ is_Some (observer self)
     ∧ (w_stop world path = StopRaises ∨ w_stop world path = JoinRaises)).
Proof.
  intros result path. unfold result, path, stop_watching.
  split; [by intros ->|].
  split.
  { intros -> [obs ->] Hstop. cbn [negb].
    by destruct Hstop as [-> | ->]. }
  split; [by intros -> ->|].
  split; [by intros -> [obs ->] ->|].
  split; [by intros -> [obs ->] ->|].
  destruct (is_running self) eqn:Hrun; cbn [negb].
  - destruct (observer self) as [obs|] eqn:Hobs.
    + destruct (w_stop world (repo_path self)) eqn:Hstop;
        cbn [fst snd torn_down file_snapshots repo_path repo_id
             change_callbacks is_running negb];
        repeat split; try done; eauto.
    + cbn [fst snd torn_down file_snapshots repo_path repo_id
           change_callbacks is_running negb].
      repeat split; try done.
  - cbn [fst snd]. rewrite Hrun. cbn [negb]. repeat split; try done.
Qed.

(** The sample watcher, running: where the observer stops and joins
    it is left stopped; where stopping the observer raises it is left
    as it was, running. *)
Lemma C6_stop_watching_witness :
  let stopped := stop_watching Sample.world Sample.running_watcher in
  let stuck := stop_watching Cases.stuck_world Sample.running_watcher in
  stopped.1.1 = true
  ∧ is_running stopped.1.2 = false
  ∧ stuck = (false, Sample.running_watcher, [ObserverStop "/srv/demo"])
  ∧ is_running stuck.1.2 = true.
Proof.
  assert (Hrun : is_running Sample.running_watcher = true)
    by (vm_compute; reflexivity).
  assert (Hobs : is_Some (observer Sample.running_watcher))
    by (exists Started; vm_compute; reflexivity).
  assert (Hjoins : w_stop Sample.world (repo_path Sample.running_watcher)
                   = Joins
                   ∨ w_stop Sample.world (repo_path Sample.running_watcher)
                     = JoinTimesOut) by (left; reflexivity).
  assert (Hraises : w_stop Cases.stuck_world
                      (repo_path Sample.running_watcher) = StopRaises)
    by reflexivity.
  destruct (C6_stop_watching Sample.world Sample.running_watcher)
    as (_ & Hstopped & _).
  destruct (Hstopped Hrun Hobs Hjoins) as (Hanswer & _ & Hdown & _).
  destruct (C6_stop_watching Cases.stuck_world Sample.running_watcher)
    as (_ & _ & _ & Hstuck & _).
  specialize (Hstuck Hrun Hobs Hraises).
  cbv zeta. split; [exact Hanswer|]. split; [exact Hdown|].
  split; [exact Hstuck|]. rewrite Hstuck. exact Hrun.
Defined.

(** C6 as stated fails: the sample watcher holds three snapshots when
    it runs, and still holds them after it was stopped. *)
Lemma C6_counterexample :
  let stopped := (stop_watching Sample.world Sample.running_watcher).1.2 in
  is_running Sample.running_watcher = true
  ∧ (stop_watching Sample.world Sample.running_watcher).1.1 = true
  ∧ is_running stopped = false
  ∧ size (file_snapshots stopped) = 3%nat
  ∧ file_snapshots stopped !! "app.py" = Some "print(1)".
Proof. vm_compute. repeat split; reflexivity. Qed.

(** ** The registry *)

(** C10.  When the registry already has the id, [add_repository]
    answers true and returns the manager as it was, whatever the path
    and whatever the world says about it: no watcher is built and the
    path is not looked at, so the registered watcher, with its root
    path and snapshots, stays the entry of the id. *)
Theorem C10_add_registered_id {C} world (self : WatcherManager (C := C))
    repo_id repo_path watcher :
  dict_get (watchers self) repo_id = Some watcher →
  add_repository world self repo_id repo_path = (true, self).
Proof. intros H. unfold add_repository. by rewrite H. Qed.

(** The sample manager, asked to add repo-1 again with a path that
    does not exist. *)
Lemma C10_add_registered_id_witness :
  let manager :=
    mkWatcherManager [("repo-1", Sample.running_watcher)]
                     [Server.HandleFileChange] in
  _validate_repository Sample.world "/srv/gone" = false
  ∧ add_repository Sample.world manager "repo-1" "/srv/gone"
    = (true, manager).
Proof.
  intros manager. split; [reflexivity|].
  apply (C10_add_registered_id Sample.world manager "repo-1" "/srv/gone"
           Sample.running_watcher).
  reflexivity.
Defined.

(** ** Starting every watcher *)

Section StartAll.

Context {C : Type} (world : World).

Lemma dict_get_app_r {V} (d1 d2 : list (string * V)) key :
  key ∉ map fst d1 → dict_get (d1 ++ d2) key = dict_get d2 key.
Proof.
  induction d1 as [|[k v] d1 IH]; intros Hnotin; [done|].
  cbn. apply not_elem_of_cons in Hnotin as [Hne Hnotin].
  destruct (String.eqb k key) eqn:E.
  - apply String.eqb_eq in E. cbn in Hne. congruence.
  - by apply IH.
Qed.

Lemma dict_set_app_r {V} (d1 d2 : list (string * V)) key v :
  key ∉ map fst d1 → dict_set (d1 ++ d2) key v = d1 ++ dict_set d2 key v.
Proof.
  induction d1 as [|[k v'] d1 IH]; intros Hnotin; [done|].
  cbn. apply not_elem_of_cons in Hnotin as [Hne Hnotin].
  destruct (String.eqb k key) eqn:E.
  - apply String.eqb_eq in E. cbn in Hne. congruence.
  - f_equal. by apply IH.
Qed.

Lemma dict_set_fresh {V} (d : list (string * V)) key v :
  key ∉ map fst d → dict_set d key v = d ++ [(key, v)].
Proof.
  intros Hnotin. rewrite <- (app_nil_r d) at 1.
  by rewrite dict_set_app_r.
Qed.

(** The loop of [start_all] over the entries still to start, after the
    entries [done] were started. *)
Lemma start_loop_spec (todo done : list (string * RepoWatcher C)) results
    callbacks calls :
  NoDup (map fst (done ++ todo)) →
  map fst results = map fst done →
  fold_left
    (fun acc repo_id =>
       let '(results, self, calls) := acc in
       let '(ok, self, calls') := manager_start_watching world self repo_id in
       (dict_set results repo_id ok, self, calls ++ calls'))
    (map fst todo)
    (results, mkWatcherManager (done ++ todo) callbacks, calls)
  = (results ++ map (started_ok world) todo,
     mkWatcherManager (done ++ map (started_watcher world) todo) callbacks,
     calls ++ concat (map (started_calls world) todo)).
Proof.
  revert done results calls.
  induction todo as [|[k w] todo IH]; intros done results calls Hnodup Hkeys.
  - cbn. by rewrite !app_nil_r.
  - assert (k ∉ map fst done) as Hk.
    { rewrite map_app in Hnodup. apply NoDup_app in Hnodup as (_ & Hdisj & _).
      intros Hin. apply (Hdisj k Hin). cbn. apply list_elem_of_here. }
    cbn [map fst fold_left].
    unfold manager_start_watching at 2. cbn [watchers manager_callbacks].
    rewrite dict_get_app_r by done. cbn [dict_get]. rewrite String.eqb_refl.
    destruct (start_watching world w) as [[ok w'] calls'] eqn:Hstart.
    rewrite dict_set_app_r by done. cbn [dict_set]. rewrite String.eqb_refl.
    rewrite dict_set_fresh by (by rewrite Hkeys).
    replace (done ++ (k, w') :: todo) with ((done ++ [(k, w')]) ++ todo)
      by (by rewrite <- app_assoc).
    rewrite IH.
    + unfold started_ok, started_watcher, started_calls. cbn [map concat fst snd].
      rewrite Hstart. cbn [fst snd]. by rewrite <- !app_assoc.
    + rewrite <- app_assoc. cbn.
      rewrite !map_app in *. cbn in *. done.
    + rewrite !map_app. cbn. by rewrite Hkeys.
Qed.

(** [start_all] starts every entry on its own: the answer and the new
    watcher of an entry are those of [start_watching] on that entry,
    whatever happens to the others. *)
Lemma start_all_spec (self : WatcherManager (C := C)) :
  NoDup (map fst (watchers self)) →
  start_all world self
  = (map (started_ok world) (watchers self),
     mkWatcherManager (map (started_watcher world) (watchers self))
                      (manager_callbacks self),
     concat (map (started_calls world) (watchers self))).
Proof.
  intros Hnodup. unfold start_all, for_all_repositories.
  destruct self as [ws cbs]. cbn [watchers manager_callbacks] in *.
  exact (start_loop_spec ws [] [] cbs [] Hnodup eq_refl).
Qed.

End StartAll.

(** Starting a watcher that is not running succeeds exactly when its
    observer starts, and leaves it running in that case only. *)
Lemma start_watching_stopped {C} world (self : RepoWatcher C) :
  is_running self = false →
  (start_watching world self).1.1 = w_observable world (repo_path self)
  ∧ is_running (start_watching world self).1.2
    = w_observable world (repo_path self).
Proof. intros H. unfold start_watching. by rewrite H. Qed.

(** C7 (as amended).  [start_all] answers a map over the ids of the
    registry: every registered watcher is started on its own, the
    answer for an id and the watcher left under that id are those of
    [start_watching] on that watcher alone.  For X at a valid tree
    whose observer starts and Y at a missing path: adding X answers
    true, adding Y answers false and stores no watcher, and
    [start_all] then answers the map with the single entry X: true,
    leaving X running; Y is in neither the registry nor the map. *)
Theorem C7_start_all {C} world (self : WatcherManager (C := C))
    (callbacks : list C) x y path_x path_y :
  NoDup (map fst (watchers self)) →
  x ≠ y →
  _validate_repository world (PyPath.abspath (w_cwd world) path_x) = true →
  w_observable world (PyPath.abspath (w_cwd world) path_x) = true →
  path_exists world (PyPath.abspath (w_cwd world) path_y) = false →
  (start_all world self).1.1 = map (started_ok world) (watchers self)
  ∧ watchers (start_all world self).1.2
    = map (started_watcher world) (watchers self)
  ∧ (let added_x :=
       add_repository world (mkWatcherManager [] callbacks) x path_x in
     let added_y := add_repository world added_x.2 y path_y in
     let result := start_all world added_y.2 in
     added_x.1 = true
     ∧ added_y.1 = false
     ∧ added_y.2 = added_x.2
     ∧ result.1.1 = [(x, true)]
     ∧ dict_get result.1.1 y = None
     ∧ dict_get (watchers result.1.2) y = None
     ∧ ∃ watcher,
         watchers result.1.2 = [(x, watcher)]
         ∧ is_running watcher = true).
Proof.
  intros Hnodup Hxy Hvalid Hobs Hmissing.
  rewrite start_all_spec by done. split; [done|]. split; [done|].
  cbn zeta.
  assert (add_repository world (mkWatcherManager [] callbacks) x path_x
          = (true,
             mkWatcherManager
               [(x, fold_left add_change_callback callbacks
                      (mkRepoWatcher (PyPath.abspath (w_cwd world) path_x) x
                         None None false [] ∅))]
               callbacks)) as ->.
  { unfold add_repository, RepoWatcher_init. cbn [watchers dict_get].
    by rewrite Hvalid. }
  cbn [fst snd].
  assert (∀ cbs (w : RepoWatcher C),
            repo_path (fold_left add_change_callback cbs w) = repo_path w
            ∧ is_running (fold_left add_change_callback cbs w) = is_running w)
    as Hfold.
  { induction cbs as [|cb cbs IH]; intros w; [done|]. cbn. by rewrite !(proj1 (IH _)), !(proj2 (IH _)). }
  set (wx := fold_left add_change_callback callbacks _).
  assert (add_repository world (mkWatcherManager [(x, wx)] callbacks) y path_y
          = (false, mkWatcherManager [(x, wx)] callbacks)) as ->.
  { unfold add_repository, RepoWatcher_init, _validate_repository.
    cbn [watchers dict_get].
    assert (String.eqb x y = false) as -> by (by apply String.eqb_neq).
    by rewrite Hmissing. }
  cbn [fst snd]. rewrite start_all_spec; cycle 1.
  { cbn. apply NoDup_cons. split; [apply not_elem_of_nil | apply NoDup_nil_2]. }
  cbn [watchers fst snd map].
  assert (String.eqb x y = false) as Hne by (by apply String.eqb_neq).
  assert ((start_watching world wx).1.1 = true
          ∧ is_running (start_watching world wx).1.2 = true) as [Hok Hrun].
  { assert (is_running wx = false) as Hstopped by apply Hfold.
    assert (repo_path wx = PyPath.abspath (w_cwd world) path_x) as Hpath
      by apply Hfold.
    destruct (start_watching_stopped world wx Hstopped) as [-> ->].
    by rewrite Hpath, Hobs. }
  unfold started_ok, started_watcher. cbn [fst snd dict_get].
  rewrite Hok, Hne. repeat split; try done.
  eexists. split; [reflexivity|]. exact Hrun.
Qed.

(** The scenario on the sample world: X is /srv/demo, Y is the missing
    path /srv/gone. *)
Lemma C7_start_all_witness :
  let manager :=
    mkWatcherManager [("repo-1", Sample.fresh_watcher)]
                     [Server.HandleFileChange] in
  let added_x :=
    add_repository Sample.world (mkWatcherManager [] [Server.HandleFileChange])
      "X" "/srv/demo" in
  let added_y := add_repository Sample.world added_x.2 "Y" "/srv/gone" in
  (start_all Sample.world manager).1.1
  = map (started_ok Sample.world) (watchers manager)
  ∧ added_x.1 = true
  ∧ added_y.1 = false
  ∧ (start_all Sample.world added_y.2).1.1 = [("X", true)].
Proof.
  intros manager added_x added_y.
  assert (NoDup (map fst (watchers manager))) as Hnodup.
  { apply NoDup_singleton. }
  assert ("X" ≠ "Y") as Hxy by discriminate.
  destruct (C7_start_all Sample.world manager [Server.HandleFileChange]
              "X" "Y" "/srv/demo" "/srv/gone" Hnodup Hxy
              eq_refl eq_refl eq_refl)
    as (Hall & _ & Hx & Hy & _ & Hres & _).
  repeat split; assumption.
Defined.

(** C7 as stated fails: in that scenario the map [start_all] answers
    has no entry for Y, where the claim has Y: false. *)
Lemma C7_counterexample :
  let added_x :=
    add_repository Sample.world (mkWatcherManager [] [Server.HandleFileChange])
      "X" "/srv/demo" in
  let added_y := add_repository Sample.world added_x.2 "Y" "/srv/gone" in
  let results := (start_all Sample.world added_y.2).1.1 in
  results = [("X", true)]
  ∧ dict_get results "Y" = None
  ∧ results ≠ [("X", true); ("Y", false)].
Proof. vm_compute. repeat split; congruence. Qed.


(** * Further properties *)

Import Status Startup Registry Tracking.

(** ** Validation *)

(** X1.  [process_file_change] validates the change type carried by the
    record: when it is none of "created", "modified" and "deleted",
    the call answers None and leaves the session, the committed store,
    the counters and the trace exactly as they were, whatever its own
    [change_type] argument says. *)
Theorem X1_unknown_change_type_is_dropped env self file_path change_type cd st :
  cd_change_type cd ∉ ["created"; "modified"; "deleted"] →
  process_file_change env self file_path change_type cd st = (Ret None, st).
Proof.
  intros Hkind. unfold process_file_change, try_except, _validate_change_data.
  destruct (PyStr.str_in _ _) eqn:E; [|done].
  by apply str_in_spec in E.
Qed.

(** A record with the change type "renamed" on the sample store. *)
Lemma X1_unknown_change_type_is_dropped_witness :
  process_file_change (Sample.env (Sample.always 200)) Sample.processor
    "/srv/demo/app.py" "modified" Cases.renamed Sample.state
  = (Ret None, Sample.state).
Proof.
  apply X1_unknown_change_type_is_dropped.
  unfold Cases.renamed. cbn [cd_change_type]. intros H.
  repeat (apply elem_of_cons in H as [H|H]; [discriminate H|]).
  by apply elem_of_nil in H.
Defined.

(** ** Users *)

Lemma find_app_none {A} (f : A → bool) l1 l2 :
  List.find f l1 = None → List.find f (l1 ++ l2) = List.find f l2.
Proof.
  induction l1 as [|x l1 IH]; cbn; [done|]. by destruct (f x).
Qed.

Lemma max_id_bound us u :
  u ∈ us → u_id u ≤ fold_right Z.max 0 (map u_id us).
Proof.
  induction us as [|x us IH]; [by intros ?%elem_of_nil|].
  intros [->|Hin]%elem_of_cons; cbn; [lia|]. specialize (IH Hin). lia.
Qed.

Lemma get_or_create_user_cases email name st :
  match List.find (fun u => String.eqb (u_email u) email) (users (st_db st)) with
  | Some user => _get_or_create_user email name st = (Ret (Some (u_id user)), st)
  | None =>
      _get_or_create_user email name st =
      (Ret (Some (next_user_id (st_db st))),
       mkState (mkDatabase (users (st_db st)
                            ++ [mkUser (next_user_id (st_db st)) email name])
                           (repositories (st_db st)) (file_changes (st_db st)))
               (st_committed st) (st_posts st) (st_uuids st) (st_scope st)
               (st_trace st))
  end.
Proof.
  unfold _get_or_create_user, try_except, mbind, M_bind, get_db.
  cbn -[next_user_id].
  by destruct (List.find _ _).
Qed.

(** X2.  [_get_or_create_user] always answers an id, and a row with this
    id and the e-mail is in the session afterwards.  A second call for
    the same e-mail, under whatever name, answers the same id and
    changes nothing.  When a row with the e-mail exists the first call
    changes nothing either; when none exists it appends one row, with
    the e-mail and the name, under an id greater than every id in
    use. *)
Theorem X2_get_or_create_user email name name' st :
  let first := _get_or_create_user email name st in
  let second := _get_or_create_user email name' first.2 in
  ∃ uid,
    first.1 = Ret (Some uid)
    ∧ second = (Ret (Some uid), first.2)
    ∧ (∃ u, u ∈ users (st_db first.2) ∧ u_email u = email ∧ u_id u = uid)
    ∧ ((∃ u, u ∈ users (st_db st) ∧ u_email u = email) → first.2 = st)
    ∧ ((∀ u, u ∈ users (st_db st) → u_email u ≠ email) →
       users (st_db first.2) = users (st_db st) ++ [mkUser uid email name]
       ∧ ∀ u, u ∈ users (st_db st) → u_id u < uid).
Proof.
  intros first second. subst second first.
  pose proof (get_or_create_user_cases email name st) as H1.
  destruct (List.find _ (users (st_db st))) as [user|] eqn:Hfind.
  - rewrite H1. cbn [fst snd].
    pose proof (get_or_create_user_cases email name' st) as H2.
    rewrite Hfind in H2. rewrite H2.
    apply find_some in Hfind as [Hin Heq].
    apply String.eqb_eq in Heq. apply list_elem_of_In in Hin.
    exists (u_id user). split; [done|]. split; [done|].
    split; [by exists user|]. split; [done|].
    intros Hnone. by destruct (Hnone user Hin).
  - rewrite H1. cbn [fst snd].
    set (st1 := mkState _ _ _ _ _ _).
    pose proof (get_or_create_user_cases email name' st1) as H2.
    assert (Hfind1 : List.find (fun u => String.eqb (u_email u) email)
                       (users (st_db st1))
                     = Some (mkUser (next_user_id (st_db st)) email name)).
    { unfold st1. cbn [st_db users]. rewrite find_app_none by done.
      cbn [List.find u_email]. by rewrite String.eqb_refl. }
    rewrite Hfind1 in H2. rewrite H2.
    exists (next_user_id (st_db st)). split; [done|]. split; [done|]. split.
    { exists (mkUser (next_user_id (st_db st)) email name).
      split; [|done]. unfold st1. cbn [st_db users].
      apply elem_of_app. right. apply list_elem_of_singleton. done. }
    split.
    { intros (u & Hin & Heq). apply list_elem_of_In in Hin.
      eapply find_none in Hfind; [|exact Hin]. cbn in Hfind.
      apply String.eqb_neq in Hfind. done. }
    intros _. split; [done|].
    intros u Hin. unfold next_user_id.
    pose proof (max_id_bound _ _ Hin). lia.
Qed.

(** ** Saving a change *)

Lemma bind_unfold {A B} (m : M A) (f : A → M B) st :
  (m ≫= f) st =
  match m st with
  | (Ret a, st') => f a st'
  | (Raise e, st') => (Raise e, st')
  end.
Proof. done. Qed.

Lemma get_or_create_user_frame email name st :
  ∃ uid d,
    _get_or_create_user email name st =
    (Ret (Some uid),
     mkState d (st_committed st) (st_posts st) (st_uuids st) (st_scope st)
             (st_trace st))
    ∧ repositories d = repositories (st_db st)
    ∧ file_changes d = file_changes (st_db st).
Proof.
  pose proof (get_or_create_user_cases email name st) as H.
  destruct (List.find _ _) as [user|].
  - exists (u_id user), (st_db st). rewrite H. by destruct st.
  - eexists _, _. rewrite H. done.
Qed.

Lemma save_change_cases env self cd st :
  st_committed st = st_db st →
  let run := _save_change_to_db env self cd st in
  let d := st_db st in
  let d' := st_db run.2 in
  st_committed run.2 = d'
  ∧ st_posts run.2 = st_posts st
  ∧ st_trace run.2 = st_trace st
  ∧ ((run.1 = Ret None ∧ d' = d)
     ∨ ∃ c,
         run.1 = Ret (Some (fc_id c))
         ∧ fc_id c = env_uuid4 env (st_uuids st)
         ∧ existsb (fun x => String.eqb (fc_id x) (fc_id c)) (file_changes d) = false
         ∧ is_Some (repository_of d c)
         ∧ fc_repository_id c = cd_repository_id cd
         ∧ fc_sent_to_ai c = false
         ∧ fc_is_processed c = false
         ∧ file_changes d' = file_changes d ++ [c]
         ∧ repositories d' =
           map (fun r => if String.eqb (r_id r) (cd_repository_id cd)
                         then touch_repository env r else r)
               (repositories d)).
Proof.
  intros Hclean run d d'. subst d' d.
  assert (Hrun : run = _save_change_to_db env self cd st) by done.
  clearbody run.
  unfold _save_change_to_db, try_except in Hrun.
  rewrite bind_unfold in Hrun.
  destruct (get_or_create_user_frame (cd_author_email cd) (cd_author cd) st)
    as (uid & d1 & Huser & Hrepos & Hchanges).
  rewrite Huser in Hrun.
  rewrite bind_unfold in Hrun. unfold uuid4 in Hrun.
  cbn [st_db st_committed st_posts st_uuids st_scope st_trace] in Hrun.
  rewrite bind_unfold in Hrun. unfold parse_timestamp in Hrun.
  destruct (env_fromisoformat env (cd_timestamp cd)) as [ts|]; cycle 1.
  { subst run. cbn. auto 10. }
  unfold mret at 1, M_ret at 1 in Hrun.
  rewrite bind_unfold in Hrun. unfold db_add_change in Hrun.
  rewrite bind_unfold in Hrun. unfold get_db in Hrun.
  cbn [st_db fc_id] in Hrun.
  match type of Hrun with context [if ?c then _ else _] =>
    destruct c eqn:Hrefused end.
  { subst run. cbn. auto 10. }
  apply orb_false_elim in Hrefused as [Hfresh Hrepo].
  apply negb_false_iff, bool_decide_eq_true in Hrepo.
  unfold mbind, M_bind, update_repository_stats, db_commit, put_db, get_db,
    mret, M_ret in Hrun.
  cbn [st_db st_committed st_posts st_uuids st_scope st_trace users
       repositories file_changes] in Hrun.
  subst run. cbn [fst snd st_db st_committed st_posts st_trace].
  split; [done|]. split; [done|]. split; [done|]. right.
  match type of Hrepo with is_Some (repository_of _ ?c) => exists c end.
  split; [reflexivity|].
  cbn [fc_id fc_repository_id fc_sent_to_ai fc_is_processed repositories
       file_changes].
  rewrite <- Hchanges, <- Hrepos. repeat split; try done.
  unfold repository_of in *. by rewrite <- Hrepos.
Qed.

Lemma existsb_false_forall {A} (f : A → bool) l :
  existsb f l = false → ∀ x, x ∈ l → f x = false.
Proof.
  intros H x Hin. destruct (f x) eqn:E; [|done].
  assert (existsb f l = true); [|congruence].
  apply existsb_exists. exists x. split; [by apply list_elem_of_In|done].
Qed.

Lemma query_change_fresh d d' c :
  existsb (fun x => String.eqb (fc_id x) (fc_id c)) (file_changes d) = false →
  file_changes d' = file_changes d ++ [c] →
  is_Some (repository_of d' c) →
  query_change d' (fc_id c) = Some c.
Proof.
  intros Hfresh Hrows Hrepo. unfold query_change. rewrite Hrows.
  apply (find_app_fresh _ (fun x => String.eqb (fc_id x) (fc_id c))).
  - exact Hfresh.
  - intros y Hy. by apply andb_prop in Hy as [Hy _].
  - rewrite String.eqb_refl. by apply bool_decide_eq_true.
Qed.

Lemma repository_of_touched env d d' c rid :
  repositories d' =
    map (fun r => if String.eqb (r_id r) rid then touch_repository env r else r)
        (repositories d) →
  is_Some (repository_of d c) → is_Some (repository_of d' c).
Proof.
  intros Hrepos [r Hr]. unfold repository_of in *. rewrite Hrepos.
  eexists. eapply find_map_some; [|exact Hr].
  intros y. cbn beta. by destruct (String.eqb (r_id y) rid) eqn:E.
Qed.

(** X3.  [_save_change_to_db] on a session without uncommitted changes
    is all or nothing and makes no request.  It never raises and
    leaves the session committed.  Either it answers None and the
    store is as before, a user row it had created included; or it
    answers the id of one new row, appended to the changes under an id
    that no row had, for the repository of the record, not yet sent
    and found by the query of the delivery, and the counter of that
    repository, and of no other, is one higher. *)
Theorem X3_save_is_all_or_nothing env self cd st :
  st_committed st = st_db st →
  let run := _save_change_to_db env self cd st in
  let d := st_db st in
  let d' := st_db run.2 in
  st_committed run.2 = d'
  ∧ st_posts run.2 = st_posts st
  ∧ ((run.1 = Ret None ∧ d' = d)
     ∨ ∃ c,
         run.1 = Ret (Some (fc_id c))
         ∧ (∀ x, x ∈ file_changes d → fc_id x ≠ fc_id c)
         ∧ file_changes d' = file_changes d ++ [c]
         ∧ fc_repository_id c = cd_repository_id cd
         ∧ fc_sent_to_ai c = false
         ∧ query_change d' (fc_id c) = Some c
         ∧ map r_total_changes (repositories d') =
           map (fun r => if String.eqb (r_id r) (cd_repository_id cd)
                         then r_total_changes r + 1 else r_total_changes r)
               (repositories d)).
Proof.
  intros Hclean run d d'.
  destruct (save_change_cases env self cd st Hclean)
    as (Hcommitted & Hposts & _ & [Hnone | Hsome]).
  { split; [done|]. split; [done|]. by left. }
  destruct Hsome as (c & Hret & _ & Hfresh & Hrepo & Hrid & Hsent & _
                     & Hrows & Hrepos).
  split; [done|]. split; [done|]. right. exists c.
  split; [done|]. split.
  { intros x Hx Heq.
    pose proof (existsb_false_forall _ _ Hfresh x Hx) as Hne. cbn in Hne.
    apply String.eqb_neq in Hne. done. }
  split; [done|]. split; [done|]. split; [done|]. split.
  { apply (query_change_fresh (st_db st)); [done..|].
    by eapply repository_of_touched. }
  unfold d', d, run. rewrite Hrepos, map_map. apply map_ext. intros r.
  by destruct (String.eqb (r_id r) (cd_repository_id cd)).
Qed.

(** The sample record is saved on the sample store under the id chg-2,
    and the counter of repo-1 goes from 0 to 1. *)
Lemma X3_save_is_all_or_nothing_witness :
  let run := _save_change_to_db (Sample.env (Sample.always 200))
               Sample.processor Sample.change_data Sample.state in
  run.1 = Ret (Some "chg-2")
  ∧ st_committed run.2 = st_db run.2
  ∧ map r_total_changes (repositories (st_db run.2)) = [1].
Proof.
  pose proof (X3_save_is_all_or_nothing (Sample.env (Sample.always 200))
                Sample.processor Sample.change_data Sample.state eq_refl)
    as (Hcommitted & _ & _).
  cbv zeta. split; [vm_compute; reflexivity|]. split; [exact Hcommitted|].
  vm_compute. reflexivity.
Defined.

(** ** The payload *)

Lemma or_empty_nonempty s : or_empty s ≠ "".
Proof. unfold or_empty. by destruct s. Qed.

(** X4.  Neither version in the payload of [_prepare_ai_payload] is ever
    the empty text: an empty or unavailable content is sent as
    "empty".  The previous version of a created change and the
    current version of a deleted change are always "empty", and so is
    the current version of any other change whose file no longer
    exists. *)
Theorem X4_payload_versions_never_empty env d change :
  let payload := _prepare_ai_payload env d change in
  p_previousV payload ≠ ""
  ∧ p_currentV payload ≠ ""
  ∧ (fc_change_type change = "created" → p_previousV payload = "empty")
  ∧ (fc_change_type change = "deleted" → p_currentV payload = "empty")
  ∧ (fc_change_type change ≠ "deleted" →
     w_file (env_world env) (fc_file_path change) = Missing →
     p_currentV payload = "empty").
Proof.
  unfold _prepare_ai_payload, _get_file_versions.
  destruct (String.eqb (fc_change_type change) "created") eqn:Ecreated.
  { apply String.eqb_eq in Ecreated. cbn.
    split; [done|]. split; [apply or_empty_nonempty|]. split; [done|].
    split; [congruence|].
    intros _ Hmissing. unfold _read_current_file. by rewrite Hmissing. }
  apply String.eqb_neq in Ecreated.
  destruct (String.eqb (fc_change_type change) "deleted") eqn:Edeleted.
  { apply String.eqb_eq in Edeleted. cbn.
    split; [apply or_empty_nonempty|]. split; [done|]. split; [done|].
    split; [done|]. done. }
  apply String.eqb_neq in Edeleted. cbn.
  split; [apply or_empty_nonempty|]. split; [apply or_empty_nonempty|].
  split; [done|]. split; [done|].
  intros _ Hmissing. unfold _read_current_file. by rewrite Hmissing.
Qed.

(** ** The retry loop, for any budget *)

Lemma retry_loop_bound env self payload attempts st :
  let run := retry_loop env self payload attempts st in
  st_db run.2 = st_db st
  ∧ st_committed run.2 = st_committed st
  ∧ (st_posts st ≤ st_posts run.2 ≤ st_posts st + length attempts)%nat
  ∧ (attempts ≠ [] → (st_posts st < st_posts run.2)%nat)
  ∧ (run.1 = Ret true →
     (st_posts st < st_posts run.2)%nat
     ∧ env_backend env (st_posts run.2 - 1)%nat payload = HttpStatus 200)
  ∧ (∀ k, (st_posts st ≤ k)%nat → (k + 1 < st_posts run.2)%nat →
     retryable (env_backend env k payload) = true).
Proof.
  revert st. induction attempts as [|attempt rest IH]; intros st.
  { cbn. repeat split; try done; try lia. }
  cbv zeta. rewrite retry_loop_cons. cbv zeta.
  destruct (retryable (env_backend env (st_posts st) payload)) eqn:R.
  - match goal with |- context [retry_loop _ _ _ _ ?s] =>
      specialize (IH s); set (st1 := s) in * end.
    cbv zeta in IH.
    destruct IH as (Hdb & Hco & Hposts & _ & Hok & Hretry).
    assert (st_db st1 = st_db st ∧ st_committed st1 = st_committed st
            ∧ st_posts st1 = S (st_posts st)) as (Hdb1 & Hco1 & Hposts1).
    { unfold st1. by destruct (attempt <? max_retries self)%nat. }
    rewrite Hdb1 in Hdb. rewrite Hco1 in Hco. rewrite Hposts1 in Hposts, Hok.
    split; [done|]. split; [done|]. split; [cbn [length]; lia|].
    split; [lia|]. split.
    { intros Hret. destruct (Hok Hret). split; [lia|done]. }
    intros k Hlo Hhi.
    destruct (decide (k = st_posts st)) as [->|]; [done|].
    apply Hretry; lia.
  - cbn [fst snd]. unfold count_post, emit. cbn [st_db st_committed st_posts].
    split; [done|]. split; [done|]. split; [cbn [length]; lia|].
    split; [lia|]. split.
    { intros Hret. split; [lia|].
      replace (S (st_posts st) - 1)%nat with (st_posts st) by lia.
      destruct (env_backend env (st_posts st) payload) as [code|e];
        cbn in Hret.
      - injection Hret as Hret. apply Z.eqb_eq in Hret. by subst.
      - by destruct (is_request_exception e). }
    intros k ? ?. lia.
Qed.

(** X5.  [_send_to_ai_with_retries], for any retry budget: it leaves the
    store alone and makes at most [max_retries] requests, at least one
    when the budget is not zero; with a budget of zero it answers
    False without a request.  Every request but the last met a
    retryable outcome, and the call answers True only when its last
    request was answered 200. *)
Theorem X5_retry_budget env self payload st :
  let run := _send_to_ai_with_retries env self payload st in
  let posts := (st_posts run.2 - st_posts st)%nat in
  st_db run.2 = st_db st
  ∧ st_committed run.2 = st_committed st
  ∧ (posts ≤ max_retries self)%nat
  ∧ (max_retries self ≠ 0%nat → (1 ≤ posts)%nat)
  ∧ (max_retries self = 0%nat → run = (Ret false, st))
  ∧ (∀ k, (k + 1 < posts)%nat →
     retryable (env_backend env (st_posts st + k)%nat payload) = true)
  ∧ (run.1 = Ret true →
     (1 ≤ posts)%nat
     ∧ env_backend env (st_posts st + posts - 1)%nat payload = HttpStatus 200).
Proof.
  intros run posts. subst posts run. unfold _send_to_ai_with_retries.
  pose proof (retry_loop_bound env self payload (seq 1 (max_retries self)) st)
    as H.
  cbv zeta in H. rewrite length_seq in H.
  destruct H as (Hdb & Hco & Hposts & Hsome & Hok & Hretry).
  split; [done|]. split; [done|]. split; [lia|]. split.
  { intros Hne. assert (seq 1 (max_retries self) ≠ []) as Hseq.
    { destruct (max_retries self); [done|]. done. }
    specialize (Hsome Hseq). lia. }
  split.
  { intros ->. done. }
  split.
  { intros k Hk. apply Hretry; lia. }
  intros Hret. destruct (Hok Hret) as [Hlt H200]. split; [lia|].
  rewrite <- H200. f_equal. lia.
Qed.

(** ** A change, from the callback to the backend *)

Lemma mark_sent_fresh cid l c :
  existsb (fun x => String.eqb (fc_id x) cid) l = false →
  fc_id c = cid →
  map (fun x => if String.eqb (fc_id x) cid then set_sent x else x) (l ++ [c])
  = l ++ [set_sent c].
Proof.
  intros Hfresh Hid. rewrite map_app. cbn. rewrite Hid, String.eqb_refl.
  f_equal. induction l as [|x l IH]; [done|].
  cbn in Hfresh. apply orb_false_elim in Hfresh as [Hx Hl].
  cbn. rewrite Hx. f_equal. by apply IH.
Qed.

Lemma queue_state env self cid st :
  _queue_for_ai_processing env self cid st
  = (Ret tt, (_send_change_to_ai env self cid st).2).
Proof.
  unfold _queue_for_ai_processing, try_except, mbind, M_bind.
  by destruct (_send_change_to_ai _ _ _ _) as [[b|e] st1].
Qed.

Lemma process_file_change_spec env url file_path change_type cd st :
  st_committed st = st_db st →
  env_uuid4 env (st_uuids st) ≠ "" →
  let run := process_file_change env (ChangeProcessor_init url) file_path
               change_type cd st in
  let d := st_db st in
  let d' := st_db run.2 in
  st_committed run.2 = d'
  ∧ ((run.1 = Ret None ∧ d' = d ∧ st_posts run.2 = st_posts st)
     ∨ ∃ c,
         run.1 = Ret (Some (fc_id c))
         ∧ (∀ x, x ∈ file_changes d → fc_id x ≠ fc_id c)
         ∧ fc_sent_to_ai c = false
         ∧ (file_changes d' = file_changes d ++ [c]
            ∨ file_changes d' = file_changes d ++ [set_sent c])
         ∧ (st_posts st < st_posts run.2 ≤ st_posts st + 3)%nat
         ∧ Forall (fun ev => ev.1 = fc_id c) (new_events st run.2)).
Proof.
  intros Hclean Huuid run d d'. subst d' d.
  assert (Hrun : run = process_file_change env (ChangeProcessor_init url)
                         file_path change_type cd st) by done.
  clearbody run.
  unfold process_file_change, try_except in Hrun.
  destruct (negb (_validate_change_data cd)).
  { subst run. cbn. auto. }
  rewrite bind_unfold in Hrun.
  destruct (save_change_cases env (ChangeProcessor_init url) cd st Hclean)
    as (Hcommitted & Hposts & Htrace & Hsave).
  destruct (_save_change_to_db env _ cd st) as [saved st1].
  cbn [fst snd] in *.
  destruct Hsave as [[-> Hdb] | (c & -> & Hid & Hfresh & Hrepo & _ & Hsent & _
                                 & Hrows & Hrepos)].
  { subst run. cbn. auto. }
  destruct (negb (PyStr.truthy (fc_id c))) eqn:Hempty.
  { apply negb_true_iff, truthy_false in Hempty. congruence. }
  rewrite bind_unfold, queue_state in Hrun.
  assert (Hq : query_change (st_db st1) (fc_id c) = Some c).
  { apply (query_change_fresh (st_db st)); [done..|].
    by eapply repository_of_touched. }
  pose proof (queue_delivers_before_returning env url (fc_id c) c st1 Hq Hsent)
    as Hqueue.
  cbv zeta in Hqueue. rewrite queue_state in Hqueue. cbn [snd] in Hqueue.
  destruct (send_change_cases (ChangeProcessor_init url) env (fc_id c) st1)
    as [Hsame | (c' & evs & posts & dd & _ & _ & Hdd & Hst)].
  { rewrite Hsame in Hqueue. lia. }
  rewrite Hst in Hrun, Hqueue. subst run. unfold mret, M_ret.
  cbn [fst snd st_db st_committed st_posts].
  cbn [st_posts] in Hqueue.
  split; [by destruct Hdd as [-> | ->]|]. right. exists c.
  split; [done|]. split.
  { intros x Hx Heq.
    pose proof (existsb_false_forall _ _ Hfresh x Hx) as Hne. cbn in Hne.
    apply String.eqb_neq in Hne. done. }
  split; [done|]. split.
  { destruct Hdd as [-> | ->]; cbn [fst]; [by left|right].
    cbn [mark_sent file_changes]. rewrite Hrows.
    by apply mark_sent_fresh. }
  split; [lia|].
  unfold new_events. cbn [st_trace]. rewrite <- Htrace, drop_app_length.
  apply Forall_fmap. by apply Forall_true.
Qed.

(** X6.  [process_file_change] of the service's processor, on a session
    without uncommitted changes and with a non-empty fresh id, leaves
    the session committed and does one of two things.  Either it
    answers None, with the store as before and no request made; or it
    answers the id of one new row, which no row had before: the row is
    appended to the changes, as saved or marked as sent, between one
    and three requests were made before the call returned, and every
    event it appended to the trace belongs to the delivery of that
    row. *)
Theorem X6_process_file_change env url file_path change_type cd st :
  st_committed st = st_db st →
  env_uuid4 env (st_uuids st) ≠ "" →
  let run := process_file_change env (ChangeProcessor_init url) file_path
               change_type cd st in
  let d := st_db st in
  let d' := st_db run.2 in
  st_committed run.2 = d'
  ∧ ((run.1 = Ret None ∧ d' = d ∧ st_posts run.2 = st_posts st)
     ∨ ∃ c,
         run.1 = Ret (Some (fc_id c))
         ∧ (∀ x, x ∈ file_changes d → fc_id x ≠ fc_id c)
         ∧ fc_sent_to_ai c = false
         ∧ (file_changes d' = file_changes d ++ [c]
            ∨ file_changes d' = file_changes d ++ [set_sent c])
         ∧ (st_posts st < st_posts run.2 ≤ st_posts st + 3)%nat
         ∧ Forall (fun ev => ev.1 = fc_id c) (new_events st run.2)).
Proof. exact (process_file_change_spec env url file_path change_type cd st). Qed.


(** The sample record on the sample store, with a backend that accepts
    it: one request, and the new row chg-2 is marked as sent. *)
Lemma X6_process_file_change_witness :
  let run := process_file_change (Sample.env (Sample.always 200))
               (ChangeProcessor_init "http://ai") "/srv/demo/app.py"
               "modified" Sample.change_data Sample.state in
  st_committed run.2 = st_db run.2
  ∧ run.1 = Ret (Some "chg-2")
  ∧ st_posts run.2 = 1%nat.
Proof.
  assert (Huuid : env_uuid4 (Sample.env (Sample.always 200))
                    (st_uuids Sample.state) ≠ "") by done.
  pose proof (X6_process_file_change (Sample.env (Sample.always 200))
                "http://ai" "/srv/demo/app.py" "modified" Sample.change_data
                Sample.state eq_refl Huuid) as (Hcommitted & _).
  cbv zeta. split; [exact Hcommitted|]. split; vm_compute; reflexivity.
Defined.

(** X7.  [handle_file_change], the callable the watchers call, from any
    state of the session: it returns with a session that holds
    nothing uncommitted, and the committed store is either as it was,
    with no request made, or has gained exactly one row under a fresh
    id, saved or marked as sent, for which between one and three
    requests were made before the callable returned. *)
Theorem X7_handle_file_change env url file_path change_type cd st :
  env_uuid4 env (st_uuids st) ≠ "" →
  let st' := Server.handle_file_change env (ChangeProcessor_init url)
               file_path change_type cd st in
  let d := st_committed st in
  let d' := st_committed st' in
  st_db st' = d'
  ∧ ((d' = d ∧ st_posts st' = st_posts st)
     ∨ ∃ c,
         (∀ x, x ∈ file_changes d → fc_id x ≠ fc_id c)
         ∧ fc_sent_to_ai c = false
         ∧ (file_changes d' = file_changes d ++ [c]
            ∨ file_changes d' = file_changes d ++ [set_sent c])
         ∧ (st_posts st < st_posts st' ≤ st_posts st + 3)%nat).
Proof.
  intros Huuid st' d d'. subst d' d st'. unfold Server.handle_file_change.
  destruct (process_file_change_spec env url file_path change_type cd
              (Server.fresh_session st) eq_refl Huuid)
    as (Hclean & Hcases).
  set (run := process_file_change _ _ _ _ _ _) in *.
  cbn [Server.fresh_session st_db st_committed st_posts] in *.
  split; [done|].
  destruct Hcases as [(_ & Hdb & Hposts) | (c & _ & Hfresh & Hsent & Hrows
                                            & Hposts & _)].
  - left. split; [congruence | done].
  - right. exists c. rewrite Hclean. done.
Qed.

(** The sample record through the callable of the service: one
    request, and the committed store has the new row, marked as
    sent. *)
Lemma X7_handle_file_change_witness :
  let st' := Server.handle_file_change (Sample.env (Sample.always 200))
               (ChangeProcessor_init "http://ai") "/srv/demo/app.py"
               "modified" Sample.change_data Sample.state in
  st_db st' = st_committed st'
  ∧ st_posts st' = 1%nat
  ∧ fc_sent_to_ai <$> query_change (st_committed st') "chg-2" = Some true.
Proof.
  assert (Huuid : env_uuid4 (Sample.env (Sample.always 200))
                    (st_uuids Sample.state) ≠ "") by done.
  pose proof (X7_handle_file_change (Sample.env (Sample.always 200))
                "http://ai" "/srv/demo/app.py" "modified" Sample.change_data
                Sample.state Huuid) as (Hclean & _).
  cbv zeta. split; [exact Hclean|]. split; vm_compute; reflexivity.
Defined.

(** ** Which rows a delivery pass selects *)

Section Ordering.

Context (le : FileChange → FileChange → bool).

Lemma insert_by_perm x l : insert_by le x l ≡ₚ x :: l.
Proof.
  induction l as [|y l IH]; cbn; [done|].
  destruct (le x y); [done|]. rewrite IH. apply Permutation_swap.
Qed.

Lemma sort_by_perm l : sort_by le l ≡ₚ l.
Proof.
  induction l as [|x l IH]; cbn; [done|].
  fold (sort_by le l). by rewrite insert_by_perm, IH.
Qed.

Context (Htotal : ∀ a b, le a b = false → le b a = true).
Context (Htrans : ∀ a b c, le a b = true → le b c = true → le a c = true).

Lemma insert_by_sorted x l :
  StronglySorted (fun a b => le a b = true) l →
  StronglySorted (fun a b => le a b = true) (insert_by le x l).
Proof.
  induction 1 as [|y l Hl IH Hy]; cbn.
  { repeat constructor. }
  destruct (le x y) eqn:E.
  - constructor; [by constructor|]. constructor; [done|].
    eapply Forall_impl; [exact Hy|]. intros z Hz. by eapply Htrans.
  - constructor; [done|].
    rewrite insert_by_perm. constructor; [by apply Htotal | done].
Qed.

Lemma sort_by_sorted l :
  StronglySorted (fun a b => le a b = true) (sort_by le l).
Proof.
  induction l as [|x l IH]; cbn; [constructor|].
  by apply insert_by_sorted.
Qed.

(** What [order_by(...).limit(n)] leaves out comes after all it keeps. *)
Lemma take_sorted_least n l a c :
  a ∈ take n (sort_by le l) → c ∈ l → c ∉ take n (sort_by le l) →
  le a c = true.
Proof.
  intros Ha Hc Hout.
  pose proof (sort_by_sorted l) as Hsorted.
  rewrite <- (take_drop n (sort_by le l)) in Hsorted.
  eapply (StronglySorted_app_1_elem_of _ _ _ _ _ Hsorted); [done|].
  rewrite <- sort_by_perm, <- (take_drop n (sort_by le l)) in Hc.
  apply elem_of_app in Hc as [|]; done.
Qed.

End Ordering.

Lemma StronglySorted_take {A} (R : A → A → Prop) n l :
  StronglySorted R l → StronglySorted R (take n l).
Proof.
  intros H. rewrite <- (take_drop n l) in H.
  by apply StronglySorted_app_1_l in H.
Qed.

Lemma StronglySorted_impl {A} (R R' : A → A → Prop) l :
  (∀ a b, R a b → R' a b) → StronglySorted R l → StronglySorted R' l.
Proof.
  intros HR. induction 1 as [|x l Hl IH Hx]; constructor; [done|].
  eapply Forall_impl; [exact Hx|]. intros b. apply HR.
Qed.

Lemma unsent_changes_pending d limit :
  unsent_changes d limit
  ⊆+ filter (fun c => fc_sent_to_ai c = false) (file_changes d).
Proof.
  unfold unsent_changes.
  etransitivity; [apply sublist_submseteq, sublist_take|].
  by rewrite sort_by_perm.
Qed.

Lemma failed_changes_recent env d hours_back limit :
  failed_changes env d hours_back limit
  ⊆+ filter (fun c => fc_sent_to_ai c = false
                      ∧ env_utcnow env - hours_back * 3600 ≤ fc_timestamp c)
       (file_changes d).
Proof.
  unfold failed_changes. cbv zeta.
  etransitivity; [apply sublist_submseteq, sublist_take|].
  by rewrite sort_by_perm.
Qed.

(** X8.  The rows [process_unsent_changes] selects: [limit] of the
    pending rows or all of them if they are fewer, each pending row at
    most once, in order of ascending timestamp, and no pending row
    that is left out is older than a selected one. *)
Theorem X8_unsent_selection d limit :
  let pending := filter (fun c => fc_sent_to_ai c = false) (file_changes d) in
  let sel := unsent_changes d limit in
  length sel = Nat.min limit (length pending)
  ∧ sel ⊆+ pending
  ∧ StronglySorted (fun a b => fc_timestamp a ≤ fc_timestamp b) sel
  ∧ (∀ a c, a ∈ sel → c ∈ pending → c ∉ sel →
     fc_timestamp a ≤ fc_timestamp c).
Proof.
  intros pending sel. subst sel. unfold unsent_changes. fold pending.
  set (le := fun a b => fc_timestamp a <=? fc_timestamp b).
  assert (Htotal : ∀ a b, le a b = false → le b a = true).
  { unfold le. intros a b. rewrite Z.leb_gt, Z.leb_le. lia. }
  assert (Htrans : ∀ a b c, le a b = true → le b c = true → le a c = true).
  { unfold le. intros a b c. rewrite !Z.leb_le. lia. }
  split.
  { rewrite length_take. by rewrite sort_by_perm. }
  split.
  { rewrite <- (sort_by_perm le pending) at 2. apply sublist_submseteq.
    apply sublist_take. }
  split.
  { apply StronglySorted_take.
    eapply StronglySorted_impl;
      [|apply (sort_by_sorted le Htotal Htrans pending)].
    intros a b. unfold le. by rewrite Z.leb_le. }
  intros a c Ha Hc Hout. apply Z.leb_le.
  by apply (take_sorted_least le Htotal Htrans limit pending).
Qed.

(** X9.  The rows [retry_failed_changes] selects: [limit] of the pending
    rows whose timestamp is at most [hours_back] hours old, or all of
    them if they are fewer, each at most once, in order of descending
    timestamp, and no such row that is left out is newer than a
    selected one. *)
Theorem X9_failed_selection env d hours_back limit :
  let since := env_utcnow env - hours_back * 3600 in
  let recent := filter (fun c => fc_sent_to_ai c = false
                                ∧ since ≤ fc_timestamp c) (file_changes d) in
  let sel := failed_changes env d hours_back limit in
  length sel = Nat.min limit (length recent)
  ∧ sel ⊆+ recent
  ∧ StronglySorted (fun a b => fc_timestamp b ≤ fc_timestamp a) sel
  ∧ (∀ a c, a ∈ sel → c ∈ recent → c ∉ sel →
     fc_timestamp c ≤ fc_timestamp a).
Proof.
  intros since recent sel. subst sel. unfold failed_changes. cbv zeta.
  fold since. fold recent.
  set (le := fun a b => fc_timestamp b <=? fc_timestamp a).
  assert (Htotal : ∀ a b, le a b = false → le b a = true).
  { unfold le. intros a b. rewrite Z.leb_gt, Z.leb_le. lia. }
  assert (Htrans : ∀ a b c, le a b = true → le b c = true → le a c = true).
  { unfold le. intros a b c. rewrite !Z.leb_le. lia. }
  split.
  { rewrite length_take. by rewrite sort_by_perm. }
  split.
  { rewrite <- (sort_by_perm le recent) at 2. apply sublist_submseteq.
    apply sublist_take. }
  split.
  { apply StronglySorted_take.
    eapply StronglySorted_impl;
      [|apply (sort_by_sorted le Htotal Htrans recent)].
    intros a b. unfold le. by rewrite Z.leb_le. }
  intros a c Ha Hc Hout. apply Z.leb_le.
  by apply (take_sorted_least le Htotal Htrans limit recent).
Qed.

(** ** What a delivery pass reports *)

Lemma NoDup_fmap_eq {A B} (f : A → B) l x y :
  NoDup (f <$> l) → x ∈ l → y ∈ l → f x = f y → x = y.
Proof.
  induction l as [|z l IH]; [by intros _ ?%elem_of_nil|].
  rewrite fmap_cons, NoDup_cons.
  intros [Hz Hl] [->|Hx]%elem_of_cons [->|Hy]%elem_of_cons Heq; auto.
  - destruct Hz. rewrite Heq. apply list_elem_of_fmap. by exists y.
  - destruct Hz. rewrite <- Heq. apply list_elem_of_fmap. by exists x.
Qed.

(** One delivery: it never raises; it answers [false] and leaves the
    store alone, or it answers [true] for a row that was sent already
    or that it marks. *)
Lemma send_change_result env self cid st :
  ∃ b st',
    _send_change_to_ai env self cid st = (Ret b, st')
    ∧ (st_posts st ≤ st_posts st' ≤ st_posts st + max_retries self)%nat
    ∧ ((st_db st' = st_db st ∧ st_committed st' = st_committed st
        ∧ (b = true →
           ∃ c, query_change (st_db st) cid = Some c
                ∧ fc_sent_to_ai c = true))
       ∨ (b = true
          ∧ st_db st' = mark_sent cid (st_db st)
          ∧ st_committed st' = mark_sent cid (st_db st))).
Proof.
  destruct (query_change (st_db st) cid) as [change|] eqn:Hq; cycle 1.
  { exists false, st. split.
    { unfold _send_change_to_ai, try_except, mbind, M_bind, get_db.
      cbn. by rewrite Hq. }
    split; [lia|]. left. done. }
  destruct (fc_sent_to_ai change) eqn:Hs.
  { exists true, st. split.
    { unfold _send_change_to_ai, try_except, mbind, M_bind, get_db.
      cbn. by rewrite Hq, Hs. }
    split; [lia|]. left. split; [done|]. split; [done|]. by exists change. }
  rewrite (send_change_pending env self cid change st Hq Hs). cbv zeta.
  unfold _send_to_ai_with_retries.
  pose proof (retry_loop_bound env self (_prepare_ai_payload env (st_db st) change)
                (seq 1 (max_retries self)) (set_scope cid st).2) as H.
  cbv zeta in H. rewrite length_seq in H.
  destruct H as (Hdb & Hco & Hposts & _).
  destruct (retry_loop _ _ _ _ _) as [[[]|e] st'];
    cbn [fst snd set_scope st_db st_committed st_posts] in *.
  - eexists true, _. split; [done|]. split; [done|]. right. done.
  - exists false, st'. split; [done|]. split; [done|]. left. done.
  - exists false, st'. split; [done|]. split; [done|]. left. done.
Qed.

(** The ids a pass reports as sent. *)
Lemma send_each_spec env self changes st :
  NoDup (fc_id <$> file_changes (st_db st)) →
  NoDup (fc_id <$> changes) →
  (∀ c, c ∈ changes → c ∈ file_changes (st_db st) ∧ fc_sent_to_ai c = false) →
  ∃ results st',
    send_each env self changes st = (Ret results, st')
    ∧ (fun r => (sr_change_id r, sr_user_id r, sr_relative_path r)) <$> results
      = (fun c => (fc_id c, fc_user_id c, fc_relative_path c)) <$> changes
    ∧ (let sent := sr_change_id <$> List.filter sr_sent results in
       file_changes (st_db st') =
         (fun x => if bool_decide (fc_id x ∈ sent) then set_sent x else x)
           <$> file_changes (st_db st))
    ∧ users (st_db st') = users (st_db st)
    ∧ repositories (st_db st') = repositories (st_db st)
    ∧ (st_committed st = st_db st → st_committed st' = st_db st')
    ∧ (st_posts st ≤ st_posts st'
       ≤ st_posts st + max_retries self * length changes)%nat.
Proof.
  revert st. induction changes as [|c rest IH]; intros st Hkeys Hids Hrows.
  { exists [], st. split; [done|]. split; [done|]. split.
    { cbn. rewrite <- (list_fmap_id (file_changes (st_db st))) at 1.
      apply list_fmap_ext. intros i x _. cbn. case_bool_decide; [|done].
      by apply elem_of_nil in H. }
    split; [done|]. split; [done|]. split; [done|]. lia. }
  rewrite fmap_cons, NoDup_cons in Hids. destruct Hids as [Hc Hrest].
  cbn [send_each]. rewrite bind_unfold.
  destruct (send_change_result env self (fc_id c) st)
    as (b & st1 & -> & Hposts1 & Hcase).
  destruct (Hrows c ltac:(left)) as [Hin Hunsent].
  assert (Hb : st_db st1 = (if b then mark_sent (fc_id c) (st_db st)
                            else st_db st)
               ∧ (st_committed st = st_db st → st_committed st1 = st_db st1)).
  { destruct Hcase as [(Hdb & Hco & Htrue) | (-> & Hdb & Hco)].
    - destruct b; [|split; congruence].
      destruct (Htrue eq_refl) as (c0 & Hq & Hsent).
      unfold query_change in Hq. apply find_some in Hq as [Hin0 Hid0].
      apply andb_prop in Hid0 as [Hid0 _]. apply String.eqb_eq in Hid0.
      apply list_elem_of_In in Hin0.
      assert (c0 = c) by exact (NoDup_fmap_eq fc_id _ _ _ Hkeys Hin0 Hin Hid0).
      congruence.
    - split; congruence. }
  destruct Hb as [Hdb1 Hclean1].
  assert (Hrows1 : file_changes (st_db st1) =
            (fun x => if b && String.eqb (fc_id x) (fc_id c)
                      then set_sent x else x) <$> file_changes (st_db st)).
  { rewrite Hdb1. destruct b; cbn [andb].
    - cbn [mark_sent file_changes]. done.
    - by rewrite list_fmap_id. }
  destruct (IH st1) as (results & st2 & Hrun & Htriples & Hfinal & Husers
                        & Hrepos & Hclean2 & Hposts2).
  { rewrite Hrows1, <- list_fmap_compose.
    erewrite list_fmap_ext; [exact Hkeys|]. intros i x _. cbn.
    by destruct (b && _). }
  { exact Hrest. }
  { intros c' Hc'. destruct (Hrows c' ltac:(by right)) as [Hin' Hs'].
    split; [|done]. rewrite Hrows1. apply list_elem_of_fmap. exists c'.
    split; [|done].
    assert (String.eqb (fc_id c') (fc_id c) = false) as ->; [|by rewrite andb_false_r].
    apply String.eqb_neq. intros Heq. apply Hc. rewrite <- Heq.
    apply list_elem_of_fmap. by exists c'. }
  rewrite bind_unfold, Hrun. unfold mret, M_ret.
  eexists _, st2. split; [reflexivity|].
  split; [by rewrite fmap_cons, Htriples|]. split.
  { cbv zeta in Hfinal |- *. rewrite Hfinal, Hrows1, <- list_fmap_compose.
    apply list_fmap_ext. intros i x _. cbn [compose List.filter sr_sent].
    destruct b; cbn [andb]; [|done].
    rewrite fmap_cons. cbn [sr_change_id].
    destruct (String.eqb (fc_id x) (fc_id c)) eqn:E.
    - apply String.eqb_eq in E. rewrite (bool_decide_eq_true_2 (_ ∈ _ :: _))
        by (rewrite E; left).
      by case_bool_decide.
    - apply String.eqb_neq in E.
      rewrite (bool_decide_ext (fc_id x ∈ fc_id c :: _) (fc_id x ∈ sr_change_id <$> List.filter sr_sent results)); [done|].
      rewrite elem_of_cons. split; [intros [?|?]; done | by right]. }
  split; [by rewrite Husers, Hdb1; destruct b|].
  split; [by rewrite Hrepos, Hdb1; destruct b|].
  split; [auto|].
  cbn [length]. lia.
Qed.

Lemma NoDup_of_submseteq {A} (l k : list A) : l ⊆+ k → NoDup k → NoDup l.
Proof.
  intros [k' Hk]%submseteq_Permutation. rewrite Hk.
  by intros [? _]%NoDup_app.
Qed.

Lemma selection_rows (sel rows : list FileChange) (P : FileChange → Prop)
    `{∀ c, Decision (P c)} :
  NoDup (fc_id <$> rows) →
  sel ⊆+ filter P rows →
  (∀ c, P c → fc_sent_to_ai c = false) →
  NoDup (fc_id <$> sel)
  ∧ ∀ c, c ∈ sel → c ∈ rows ∧ fc_sent_to_ai c = false.
Proof.
  intros Hkeys Hsub HP. split.
  - eapply NoDup_of_submseteq; [by apply fmap_submseteq|].
    eapply sublist_NoDup; [exact Hkeys|].
    apply fmap_sublist, sublist_filter.
  - intros c Hc. eapply elem_of_submseteq in Hc; [|exact Hsub].
    apply list_elem_of_filter in Hc as [Hc Hin]. auto.
Qed.

(** X10.  A pass of [process_unsent_changes] over a store whose change
    ids are distinct never raises and reports what it did to the
    store: its results are the selected rows, in their order, with
    their id, user and path; the rows of the store afterwards are the
    rows before, those whose id is reported as sent marked as sent
    and processed and all others untouched; users and repositories
    are untouched; a session without uncommitted changes is left so;
    and at most [max_retries] requests were made per selected row. *)
Theorem X10_unsent_pass_reports_the_store env self limit st :
  NoDup (fc_id <$> file_changes (st_db st)) →
  let run := process_unsent_changes env self limit st in
  let sel := unsent_changes (st_db st) limit in
  ∃ results,
    run.1 = Ret (report results)
    ∧ (fun r => (sr_change_id r, sr_user_id r, sr_relative_path r)) <$> results
      = (fun c => (fc_id c, fc_user_id c, fc_relative_path c)) <$> sel
    ∧ (let sent := sr_change_id <$> List.filter sr_sent results in
       file_changes (st_db run.2) =
         (fun x => if bool_decide (fc_id x ∈ sent) then set_sent x else x)
           <$> file_changes (st_db st))
    ∧ users (st_db run.2) = users (st_db st)
    ∧ repositories (st_db run.2) = repositories (st_db st)
    ∧ (st_committed st = st_db st → st_committed run.2 = st_db run.2)
    ∧ (st_posts run.2 ≤ st_posts st + max_retries self * length sel)%nat.
Proof.
  intros Hkeys run sel.
  pose proof (unsent_changes_pending (st_db st) limit) as Hsub.
  destruct (selection_rows sel (file_changes (st_db st))
              (fun c => fc_sent_to_ai c = false) Hkeys Hsub ltac:(done))
    as [Hids Hrows].
  destruct (send_each_spec env self sel st Hkeys Hids Hrows)
    as (results & st' & Hrun & Htriples & Hfinal & Husers & Hrepos & Hclean
        & Hposts).
  assert (run = (Ret (report results), st')) as ->.
  { unfold run, process_unsent_changes, try_except.
    rewrite bind_unfold. unfold get_db. rewrite bind_unfold.
    fold sel. by rewrite Hrun. }
  exists results. cbn [fst snd].
  split; [done|]. split; [done|]. split; [done|]. split; [done|].
  split; [done|]. split; [done|]. lia.
Qed.

(** The pass on the sample store, with a backend that accepts: the
    one pending row is reported as sent and is marked. *)
Lemma X10_unsent_pass_reports_the_store_witness :
  let run := process_unsent_changes (Sample.env (Sample.always 200))
               Sample.processor 10 Sample.state in
  run.1 = Ret (report [mkSendResult "chg-1" (Some 1) "app.py" true])
  ∧ users (st_db run.2) = users (st_db Sample.state)
  ∧ fc_sent_to_ai <$> file_changes (st_db run.2) = [true].
Proof.
  assert (Hkeys : NoDup (fc_id <$> file_changes (st_db Sample.state)))
    by apply NoDup_singleton.
  destruct (X10_unsent_pass_reports_the_store
              (Sample.env (Sample.always 200)) Sample.processor 10
              Sample.state Hkeys)
    as (results & _ & _ & _ & Husers & _).
  cbv zeta. split; [vm_compute; reflexivity|]. split; [exact Husers|].
  vm_compute. reflexivity.
Defined.

(** X11.  The same for a pass of [retry_failed_changes]: over a store
    whose change ids are distinct it never raises, its results are the
    selected rows in their order, the rows whose id it reports as sent
    are marked and all others untouched, users and repositories are
    untouched, a session without uncommitted changes is left so, and
    at most [max_retries] requests were made per selected row. *)
Theorem X11_retry_pass_reports_the_store env self hours_back limit st :
  NoDup (fc_id <$> file_changes (st_db st)) →
  let run := retry_failed_changes env self hours_back limit st in
  let sel := failed_changes env (st_db st) hours_back limit in
  ∃ results,
    run.1 = Ret (report results)
    ∧ (fun r => (sr_change_id r, sr_user_id r, sr_relative_path r)) <$> results
      = (fun c => (fc_id c, fc_user_id c, fc_relative_path c)) <$> sel
    ∧ (let sent := sr_change_id <$> List.filter sr_sent results in
       file_changes (st_db run.2) =
         (fun x => if bool_decide (fc_id x ∈ sent) then set_sent x else x)
           <$> file_changes (st_db st))
    ∧ users (st_db run.2) = users (st_db st)
    ∧ repositories (st_db run.2) = repositories (st_db st)
    ∧ (st_committed st = st_db st → st_committed run.2 = st_db run.2)
    ∧ (st_posts run.2 ≤ st_posts st + max_retries self * length sel)%nat.
Proof.
  intros Hkeys run sel.
  pose proof (failed_changes_recent env (st_db st) hours_back limit) as Hsub.
  destruct (selection_rows sel (file_changes (st_db st)) _ Hkeys Hsub
              ltac:(by intros c [? _]))
    as [Hids Hrows].
  destruct (send_each_spec env self sel st Hkeys Hids Hrows)
    as (results & st' & Hrun & Htriples & Hfinal & Husers & Hrepos & Hclean
        & Hposts).
  assert (run = (Ret (report results), st')) as ->.
  { unfold run, retry_failed_changes, try_except.
    rewrite bind_unfold. unfold get_db. rewrite bind_unfold.
    fold sel. by rewrite Hrun. }
  exists results. cbn [fst snd].
  split; [done|]. split; [done|]. split; [done|]. split; [done|].
  split; [done|]. split; [done|]. lia.
Qed.

(** The retry pass on the sample store, with a backend that refuses:
    the row is reported as not sent and stays as it was. *)
Lemma X11_retry_pass_reports_the_store_witness :
  let run := retry_failed_changes (Sample.env (Sample.always 400))
               Sample.processor 1 20 Sample.state in
  run.1 = Ret (report [mkSendResult "chg-1" (Some 1) "app.py" false])
  ∧ users (st_db run.2) = users (st_db Sample.state)
  ∧ fc_sent_to_ai <$> file_changes (st_db run.2) = [false].
Proof.
  assert (Hkeys : NoDup (fc_id <$> file_changes (st_db Sample.state)))
    by apply NoDup_singleton.
  destruct (X11_retry_pass_reports_the_store
              (Sample.env (Sample.always 400)) Sample.processor 1 20
              Sample.state Hkeys)
    as (results & _ & _ & _ & Husers & _).
  cbv zeta. split; [vm_compute; reflexivity|]. split; [exact Husers|].
  vm_compute. reflexivity.
Defined.

(** ** The previous version of a deleted file *)

Lemma extract_line_minus l :
  extract_line ("-" +:+ l)
  = Some (if PyStr.startswith l "--" then "-" +:+ l else l).
Proof.
  unfold extract_line, PyStr.startswith.
  change ("-" +:+ l) with (String "-"%char l).
  cbn. assert (String.prefix "" l = true) as -> by (by destruct l).
  by destruct (String.prefix "--" l).
Qed.

Lemma extract_removed_lines ls :
  omap extract_line (map (String.append "-") ls)
  = map (fun l => if PyStr.startswith l "--" then "-" +:+ l else l) ls.
Proof.
  induction ls as [|l ls IH]; [done|].
  cbn [map omap list_omap]. rewrite extract_line_minus.
  f_equal. exact IH.
Qed.

(** X12.  What [_extract_content_from_diff] recovers from the diff
    [_create_diff] writes for a deleted file, which is what the
    payload of a deleted change carries as its previous version: not
    the content alone, but the two header lines "deleted file mode
    100644" and "--- a/<path>" followed by the lines of the content,
    each line that begins with "--" with one more "-" in front. *)
Theorem X12_previous_version_of_a_deleted_file p content :
  single_line p = true →
  content ≠ "" →
  _extract_content_from_diff (_create_diff p content "")
  = PyStr.join_lines
      (["deleted file mode 100644"; "--- a/" +:+ p]
       ++ map (fun l => if PyStr.startswith l "--" then "-" +:+ l else l)
              (PyStr.split_lines content)).
Proof.
  intros Hp Hcontent. unfold _create_diff.
  assert (PyStr.truthy content = true) as ->.
  { destruct content; done. }
  cbn [PyStr.truthy negb].
  rewrite unified_diff_delete_all by apply split_lines_nonempty.
  cbn [app]. unfold _extract_content_from_diff.
  match goal with |- context [PyStr.truthy ?s] =>
    assert (PyStr.truthy s = true) as -> by done end.
  cbn [negb]. rewrite split_join_lines; [|done|].
  - cbn [omap list_omap].
    change (list_omap _ _ extract_line ?l) with (omap extract_line l).
    rewrite extract_removed_lines.
    unfold extract_line, PyStr.startswith. cbn. done.
  - repeat apply Forall_cons_2;
      rewrite ?single_line_app, ?Hp, ?format_range_single; try done.
    apply single_line_marked; [apply split_lines_single | done].
Qed.

(** util.py, deleted while its snapshot holds the line "x = 1". *)
Lemma X12_previous_version_of_a_deleted_file_witness :
  _extract_content_from_diff (_create_diff "util.py" "x = 1" "")
  = PyStr.join_lines ["deleted file mode 100644"; "--- a/util.py"; "x = 1"].
Proof.
  etransitivity;
    [apply (X12_previous_version_of_a_deleted_file "util.py" "x = 1"); done|].
  vm_compute. reflexivity.
Defined.

(** ** The rendering of a one-sided diff *)

Lemma format_added_lines ls formatted chunk :
  fold_left format_line (map (String.append "+") ls)
            (mkFormatState formatted true chunk)
  = mkFormatState formatted true
      (chunk ++ map (String.append "+")
                    (List.filter (fun l => negb (PyStr.startswith l "++")) ls)).
Proof.
  revert chunk. induction ls as [|l ls IH]; intros chunk.
  { cbn. by rewrite app_nil_r. }
  cbn [map fold_left List.filter].
  assert (format_line (mkFormatState formatted true chunk) (append "+" l)
          = if PyStr.startswith l "++"
            then mkFormatState formatted true chunk
            else mkFormatState formatted true (chunk ++ [append "+" l])) as ->.
  { unfold format_line, is_diff_header, PyStr.startswith.
    change (append "+" l) with (String "+"%char l).
    cbn. assert (String.prefix "" l = true) as -> by (by destruct l).
    by destruct (String.prefix "++" l). }
  destruct (PyStr.startswith l "++"); cbn [negb]; rewrite IH; [done|].
  cbn [map]. by rewrite <- app_assoc.
Qed.

Lemma format_removed_lines ls formatted chunk :
  fold_left format_line (map (String.append "-") ls)
            (mkFormatState formatted true chunk)
  = mkFormatState formatted true
      (chunk ++ map (String.append "-")
                    (List.filter (fun l => negb (PyStr.startswith l "--")) ls)).
Proof.
  revert chunk. induction ls as [|l ls IH]; intros chunk.
  { cbn. by rewrite app_nil_r. }
  cbn [map fold_left List.filter].
  assert (format_line (mkFormatState formatted true chunk) (append "-" l)
          = if PyStr.startswith l "--"
            then mkFormatState formatted true chunk
            else mkFormatState formatted true (chunk ++ [append "-" l])) as ->.
  { unfold format_line, is_diff_header, PyStr.startswith.
    change (append "-" l) with (String "-"%char l).
    cbn. assert (String.prefix "" l = true) as -> by (by destruct l).
    by destruct (String.prefix "--" l). }
  destruct (PyStr.startswith l "--"); cbn [negb]; rewrite IH; [done|].
  cbn [map]. by rewrite <- app_assoc.
Qed.

Lemma filter_marked_all (marker : ascii) ls :
  List.filter (fun l => PyStr.startswith l (String marker ""))
              (map (String.append (String marker "")) ls)
  = map (String.append (String marker "")) ls.
Proof.
  induction ls as [|l ls IH]; [done|].
  cbn [map List.filter]. unfold PyStr.startswith at 1.
  change (append (String marker "") l) with (String marker l).
  cbn [String.prefix]. destruct (Ascii.ascii_dec marker marker); [|done].
  assert (String.prefix "" l = true) as -> by (by destruct l).
  by rewrite IH.
Qed.

Lemma drop1_marked (marker : ascii) ls :
  map PyStr.drop1 (map (String.append (String marker "")) ls) = ls.
Proof.
  induction ls as [|l ls IH]; [done|]. cbn [map]. by rewrite IH.
Qed.

Lemma process_chunk_added ls :
  _process_chunk (map (String.append "+") ls)
  = match ls with
    | [] => []
    | _ => ["   ADDED:"] ++ map (String.append "   + ") ls ++ [""]
    end.
Proof.
  destruct ls as [|l ls]; [done|].
  unfold _process_chunk.
  set (chunk := map (String.append "+") (l :: ls)).
  assert (List.filter (fun x => PyStr.startswith x "-") chunk = []) as ->.
  { unfold chunk. generalize (l :: ls) as xs.
    induction xs as [|x xs IH]; [done|]. cbn [map List.filter]. by rewrite IH. }
  assert (List.filter (fun x => negb (PyStr.startswith x "-")
                                && PyStr.startswith x "+") chunk = chunk) as ->.
  { unfold chunk. generalize (l :: ls) as xs.
    induction xs as [|x xs IH]; [done|]. cbn [map List.filter].
    unfold PyStr.startswith at 1 2. change (append "+" x) with (String "+"%char x).
    cbn. assert (String.prefix "" x = true) as -> by (by destruct x).
    by rewrite IH. }
  unfold chunk. rewrite (drop1_marked "+"). done.
Qed.

Lemma process_chunk_removed ls :
  _process_chunk (map (String.append "-") ls)
  = match ls with
    | [] => []
    | _ => ["   DELETED:"] ++ map (String.append "   - ") ls ++ [""]
    end.
Proof.
  destruct ls as [|l ls]; [done|].
  unfold _process_chunk.
  set (chunk := map (String.append "-") (l :: ls)).
  assert (List.filter (fun x => PyStr.startswith x "-") chunk = chunk) as ->.
  { apply (filter_marked_all "-"). }
  assert (List.filter (fun x => negb (PyStr.startswith x "-")
                                && PyStr.startswith x "+") chunk = []) as ->.
  { unfold chunk. generalize (l :: ls) as xs.
    induction xs as [|x xs IH]; [done|]. cbn [map List.filter].
    unfold PyStr.startswith at 1 2. change (append "-" x) with (String "-"%char x).
    cbn. assert (String.prefix "" x = true) as -> by (by destruct x).
    by rewrite IH. }
  unfold chunk. rewrite (drop1_marked "-"). done.
Qed.

Lemma format_line_header fs line :
  is_diff_header line = true → format_line fs line = fs.
Proof. intros H. unfold format_line. by rewrite H. Qed.

Lemma format_line_hunk fs line :
  is_diff_header line = false →
  PyStr.startswith line "@@" = true →
  format_line fs line
  = mkFormatState (formatted_lines fs ++ _process_chunk (current_chunk fs)
                   ++ [String PyStr.newline "📍 " +:+ line])
                  true [].
Proof. intros H1 H2. unfold format_line. by rewrite H1, H2. Qed.

(** X13.  What [_format_diff_simple] renders for the diff of a created
    and of a deleted file with a non-empty content: the hunk header
    behind a newline and a pin, followed by "   ADDED:" (for a
    deletion "   DELETED:"), the lines of the content each behind
    "   + " (or "   - "), and an empty line.  Lines of the content
    that begin with "++" (or "--") are left out of the rendering, and
    when every line does, the hunk header is all there is. *)
Theorem X13_rendering_of_a_one_sided_diff p content :
  single_line p = true →
  content ≠ "" →
  let n := length (PyStr.split_lines content) in
  _format_diff_simple (_create_diff p "" content)
  = PyStr.join_lines
      ([String PyStr.newline "📍 "
        +:+ "@@ -" +:+ Difflib.format_range_unified 0 0
        +:+ " +" +:+ Difflib.format_range_unified 0 n +:+ " @@"]
       ++ match lines_without "++" content with
          | [] => []
          | ls => ["   ADDED:"] ++ map (String.append "   + ") ls ++ [""]
          end)
  ∧ _format_diff_simple (_create_diff p content "")
    = PyStr.join_lines
        ([String PyStr.newline "📍 "
          +:+ "@@ -" +:+ Difflib.format_range_unified 0 n
          +:+ " +" +:+ Difflib.format_range_unified 0 0 +:+ " @@"]
         ++ match lines_without "--" content with
            | [] => []
            | ls => ["   DELETED:"] ++ map (String.append "   - ") ls ++ [""]
            end).
Proof.
  intros Hp Hcontent n.
  assert (Htruthy : PyStr.truthy content = true) by (by destruct content).
  unfold lines_without, lines_of. rewrite Htruthy.
  assert (Hsingle : ∀ marker : string, single_line marker = true →
            ∀ h1 h2 h3 h4,
              single_line h1 = true → single_line h2 = true →
              single_line h3 = true → single_line h4 = true →
              ∀ r1 r2,
              Forall (fun l => single_line l = true)
                ([h1; h2; h3; h4;
                  "@@ -" +:+ Difflib.format_range_unified 0 r1
                  +:+ " +" +:+ Difflib.format_range_unified 0 r2 +:+ " @@"]
                 ++ map (String.append marker) (PyStr.split_lines content))).
  { intros marker Hm h1 h2 h3 h4 H1 H2 H3 H4 r1 r2. cbn [app].
    repeat apply Forall_cons_2;
      rewrite ?single_line_app, ?format_range_single; try done.
    apply single_line_marked; [apply split_lines_single | done]. }
  split.
  - unfold _create_diff. rewrite Htruthy. cbn [PyStr.truthy negb].
    rewrite unified_diff_insert_all by apply split_lines_nonempty.
    fold n. cbn [app]. unfold _format_diff_simple.
    match goal with |- context [PyStr.truthy ?s] =>
      assert (PyStr.truthy s = true) as -> by done end.
    match goal with |- context [PyStr.str_in ?s ?l] =>
      assert (PyStr.str_in s l = false) as -> by done end.
    match goal with |- context [PyStr.startswith ?s "File deleted"] =>
      assert (PyStr.startswith s "File deleted" = false) as -> by done end.
    cbn [negb orb].
    rewrite split_join_lines; [|done|]; cycle 1.
    { apply (Hsingle "+" eq_refl); rewrite ?single_line_app, ?Hp; done. }
    cbn [fold_left].
    rewrite (format_line_header _ ("diff --git a/" +:+ p +:+ " b/" +:+ p))
      by done.
    rewrite (format_line_header _ "new file mode 100644") by done.
    rewrite (format_line_header _ ("--- " +:+ "a/" +:+ p)) by done.
    rewrite (format_line_header _ ("+++ " +:+ "b/" +:+ p)) by done.
    rewrite format_line_hunk by done.
    rewrite format_added_lines. cbn [formatted_lines current_chunk app].
    rewrite process_chunk_added. cbn [_process_chunk app].
    by destruct (List.filter _ _).
  - unfold _create_diff. rewrite Htruthy. cbn [PyStr.truthy negb].
    rewrite unified_diff_delete_all by apply split_lines_nonempty.
    fold n. cbn [app]. unfold _format_diff_simple.
    match goal with |- context [PyStr.truthy ?s] =>
      assert (PyStr.truthy s = true) as -> by done end.
    match goal with |- context [PyStr.str_in ?s ?l] =>
      assert (PyStr.str_in s l = false) as -> by done end.
    match goal with |- context [PyStr.startswith ?s "File deleted"] =>
      assert (PyStr.startswith s "File deleted" = false) as -> by done end.
    cbn [negb orb].
    rewrite split_join_lines; [|done|]; cycle 1.
    { apply (Hsingle "-" eq_refl); rewrite ?single_line_app, ?Hp; done. }
    cbn [fold_left].
    rewrite (format_line_header _ ("diff --git a/" +:+ p +:+ " b/" +:+ p))
      by done.
    rewrite (format_line_header _ "deleted file mode 100644") by done.
    rewrite (format_line_header _ ("--- " +:+ "a/" +:+ p)) by done.
    rewrite (format_line_header _ ("+++ " +:+ "b/" +:+ p)) by done.
    rewrite format_line_hunk by done.
    rewrite format_removed_lines. cbn [formatted_lines current_chunk app].
    rewrite process_chunk_removed. cbn [_process_chunk app].
    by destruct (List.filter _ _).
Qed.

(** util.py, created with the line "x = 1". *)
Lemma X13_rendering_of_a_one_sided_diff_witness :
  _format_diff_simple (_create_diff "util.py" "" "x = 1")
  = PyStr.join_lines
      [String PyStr.newline "📍 @@ -0,0 +1 @@";
       "   ADDED:"; "   + x = 1"; ""].
Proof.
  assert (Hp : single_line "util.py" = true) by done.
  assert (Hcontent : "x = 1" ≠ "") by done.
  destruct (X13_rendering_of_a_one_sided_diff "util.py" "x = 1" Hp Hcontent)
    as [Hcreated _].
  etransitivity; [exact Hcreated|]. vm_compute. reflexivity.
Defined.

(** ** The counts of a one-sided diff *)

Lemma filter_none_marked marker ls :
  Forall (fun l => PyStr.startswith l marker = false) ls →
  List.filter (fun l => negb (PyStr.startswith l marker)) ls = ls.
Proof.
  induction 1 as [|l ls Hl Hls IH]; [done|]. cbn. by rewrite Hl, IH.
Qed.

(** X14.  The counts of [_parse_diff_stats] for the diffs [_create_diff]
    writes against an empty side.  For a created file nothing is
    counted as removed and the count of added lines is the number of
    lines of the content that do not begin with "++"; for a deleted
    file nothing is counted as added and the count of removed lines is
    the number of lines that do not begin with "--".  The counts are
    the number of lines of the content when no line begins so. *)
Theorem X14_counts_of_a_one_sided_diff p content :
  single_line p = true →
  _parse_diff_stats (_create_diff p "" content)
  = mkDiffStats (Z.of_nat (length (lines_without "++" content))) 0
  ∧ _parse_diff_stats (_create_diff p content "")
    = mkDiffStats 0 (Z.of_nat (length (lines_without "--" content)))
  ∧ (Forall (fun l => PyStr.startswith l "++" = false) (lines_of content) →
     added (_parse_diff_stats (_create_diff p "" content))
     = Z.of_nat (length (lines_of content)))
  ∧ (Forall (fun l => PyStr.startswith l "--" = false) (lines_of content) →
     removed (_parse_diff_stats (_create_diff p content ""))
     = Z.of_nat (length (lines_of content))).
Proof.
  intros Hp.
  rewrite parse_stats_of_creation, parse_stats_of_removal by done.
  cbn [added removed]. unfold lines_without.
  split; [done|]. split; [done|].
  split; intros Hall; by rewrite filter_none_marked.
Qed.

(** util.py with the two lines "x = 1" and "++y": one line counted as
    added. *)
Lemma X14_counts_of_a_one_sided_diff_witness :
  _parse_diff_stats
    (_create_diff "util.py" "" (PyStr.join_lines ["x = 1"; "++y"]))
  = mkDiffStats 1 0.
Proof.
  assert (Hp : single_line "util.py" = true) by done.
  destruct (X14_counts_of_a_one_sided_diff "util.py"
              (PyStr.join_lines ["x = 1"; "++y"]) Hp) as [Hcreated _].
  etransitivity; [exact Hcreated|]. vm_compute. reflexivity.
Defined.

(** ** What an event does to the snapshots *)

(** X15.  [_on_file_change] changes nothing of the watcher but its
    snapshots, and of the snapshots nothing but the entry of the path
    of the event, relative to the repository: every other entry is as
    before, whatever the change type and the state of the file. *)
Theorem X15_event_touches_one_entry {C S} world
    (invoke : C → string → string → ChangeData → S → S)
    (self : RepoWatcher C) file_path change_type s :
  let after := (_on_file_change world invoke self file_path change_type s).1 in
  let relative_path :=
    PyPath.relpath (w_cwd world) file_path (repo_path self) in
  after = set_snapshots self (file_snapshots after)
  ∧ ∀ q, q ≠ relative_path →
         file_snapshots after !! q = file_snapshots self !! q.
Proof.
  intros after relative_path. subst after.
  unfold _on_file_change. fold relative_path.
  unfold _extract_git_info.
  assert (∀ q, q ≠ relative_path →
            (_get_proper_diff world self relative_path change_type).2 !! q
            = file_snapshots self !! q) as Hframe.
  { intros q Hq. unfold _get_proper_diff.
    destruct (String.eqb change_type "deleted" || _).
    - destruct (file_snapshots self !! relative_path); cbn [snd]; [|done].
      by rewrite lookup_delete_ne.
    - destruct (w_file world _); cbn [snd]; try done.
      by rewrite lookup_insert_ne. }
  destruct (_get_proper_diff world self relative_path change_type)
    as [raw_diff snaps].
  destruct (_get_author_info world self relative_path) as [[name email] hash].
  cbn [fst snd set_snapshots file_snapshots] in *. split; [done|]. exact Hframe.
Qed.

(** X16.  After a Created or Modified event for a readable file, the
    snapshot entry of the path holds the content of the file, and a
    second such event, while the content is the same, reports "No
    actual changes detected" and leaves the snapshots as they are;
    provided the content is not empty or the second event is a
    Created one. *)
Theorem X16_repeated_event_reports_no_change {C} world (self : RepoWatcher C)
    p kind1 kind2 content :
  kind1 ≠ "deleted" →
  kind2 ≠ "deleted" →
  w_file world (PyPath.join (repo_path self) p) = Readable content →
  content ≠ "" ∨ kind2 = "created" →
  let first := _get_proper_diff world self p kind1 in
  first.2 !! p = Some content
  ∧ _get_proper_diff world (set_snapshots self first.2) p kind2
    = ("No actual changes detected", first.2).
Proof.
  intros Hkind1 Hkind2 Hfile Hcontent first.
  assert (Hexists : path_exists world (PyPath.join (repo_path self) p) = true).
  { unfold path_exists. rewrite Hfile. apply orb_true_r. }
  assert (first.2 = <[p := content]> (file_snapshots self)) as ->.
  { unfold first, _get_proper_diff.
    apply String.eqb_neq in Hkind1. rewrite Hkind1, Hexists, Hfile. done. }
  split; [apply lookup_insert_eq|].
  unfold _get_proper_diff. cbn [set_snapshots repo_path file_snapshots].
  apply String.eqb_neq in Hkind2. rewrite Hkind2, Hexists, Hfile.
  cbn [orb negb]. rewrite lookup_insert_eq. cbn [default]. unfold id.
  assert (negb (PyStr.truthy content) && negb (String.eqb kind2 "created")
          = false) as ->.
  { destruct Hcontent as [Hne | ->]; [|apply andb_false_r].
    destruct content; done. }
  by rewrite String.eqb_refl, insert_insert_eq.
Qed.

(** Two Modified events for /srv/demo/app.py, the file unchanged. *)
Lemma X16_repeated_event_reports_no_change_witness :
  (_get_proper_diff Sample.world
     (set_snapshots Sample.running_watcher
        (_get_proper_diff Sample.world Sample.running_watcher "app.py"
           "modified").2)
     "app.py" "modified").1
  = "No actual changes detected".
Proof.
  assert (Hkind : "modified" ≠ "deleted") by discriminate.
  assert (Hfile : w_file Sample.world
                    (PyPath.join (repo_path Sample.running_watcher) "app.py")
                  = Readable "print(1)") by (vm_compute; reflexivity).
  assert (Hcontent : "print(1)" ≠ "" ∨ "modified" = "created")
    by (left; discriminate).
  destruct (X16_repeated_event_reports_no_change Sample.world
              Sample.running_watcher "app.py" "modified" "modified"
              "print(1)" Hkind Hkind Hfile Hcontent) as [_ Hsecond].
  by rewrite Hsecond.
Defined.

(** X17.  After a Created or Modified event for a readable file with
    content [content], a Deleted event for the path reports the diff
    of [content] against nothing and leaves the snapshots of before
    the first event without the entry of the path; a further Deleted
    event reports "File deleted (no previous snapshot available)".
    An event of any type for a path that no longer exists is handled
    as a Deleted event. *)
Theorem X17_deletion_after_tracking {C} world world' (self : RepoWatcher C)
    p kind content :
  kind ≠ "deleted" →
  w_file world (PyPath.join (repo_path self) p) = Readable content →
  let tracked := set_snapshots self (_get_proper_diff world self p kind).2 in
  let gone := _get_proper_diff world' tracked p "deleted" in
  let forgotten := set_snapshots self gone.2 in
  gone = (_create_diff p content "", delete p (file_snapshots self))
  ∧ _get_proper_diff world' forgotten p "deleted"
    = ("File deleted (no previous snapshot available)", gone.2)
  ∧ (∀ kind', path_exists world' (PyPath.join (repo_path self) p) = false →
       _get_proper_diff world' tracked p kind' = gone).
Proof.
  intros Hkind Hfile tracked gone forgotten.
  assert (Hexists : path_exists world (PyPath.join (repo_path self) p) = true).
  { unfold path_exists. rewrite Hfile. apply orb_true_r. }
  assert (Htracked : file_snapshots tracked
                     = <[p := content]> (file_snapshots self)).
  { unfold tracked, _get_proper_diff.
    apply String.eqb_neq in Hkind. rewrite Hkind, Hexists, Hfile. done. }
  assert (Hgone : gone
                  = (_create_diff p content "", delete p (file_snapshots self))).
  { unfold gone, _get_proper_diff. cbn [String.eqb orb].
    rewrite Htracked, lookup_insert_eq, delete_insert_eq. done. }
  split; [exact Hgone|]. split.
  - unfold forgotten. rewrite Hgone. cbn [snd].
    apply deleted_event_without_snapshot.
    cbn [set_snapshots file_snapshots]. apply lookup_delete_eq.
  - intros kind' Hmissing. rewrite Hgone. unfold _get_proper_diff.
    change (repo_path tracked) with (repo_path self).
    rewrite Hmissing, orb_true_r, Htracked, lookup_insert_eq, delete_insert_eq.
    done.
Qed.

(** A Modified event for /srv/demo/app.py, then a Deleted one. *)
Lemma X17_deletion_after_tracking_witness :
  (_get_proper_diff Sample.world
     (set_snapshots Sample.running_watcher
        (_get_proper_diff Sample.world Sample.running_watcher "app.py"
           "modified").2)
     "app.py" "deleted").1
  = _create_diff "app.py" "print(1)" "".
Proof.
  assert (Hkind : "modified" ≠ "deleted") by discriminate.
  assert (Hfile : w_file Sample.world
                    (PyPath.join (repo_path Sample.running_watcher) "app.py")
                  = Readable "print(1)") by (vm_compute; reflexivity).
  destruct (X17_deletion_after_tracking Sample.world Sample.world
              Sample.running_watcher "app.py" "modified" "print(1)"
              Hkind Hfile) as [Hgone _].
  by rewrite Hgone.
Defined.

(** ** The snapshots taken at start *)

Section Snapshots.

Context {C : Type} (world : World) (self : RepoWatcher C).

Lemma snapshot_file_spec snaps rf key v :
  snapshot_file world self snaps rf !! key = Some v →
  snaps !! key = Some v ∨ captured world self rf key v.
Proof.
  unfold snapshot_file, captured.
  destruct (event_handler self) as [handler|] eqn:Hhandler.
  - destruct (should_ignore_file handler _) eqn:Hignore; cbn [negb]; [by left|].
    destruct (w_file world _) eqn:Hfile; try by left.
    rewrite lookup_insert_Some. intros [[<- <-] | [_ H]]; [right|by left].
    split; [done|]. split; [done|]. by intros ? [= <-].
  - destruct (w_file world _) eqn:Hfile; try by left.
    rewrite lookup_insert_Some. intros [[<- <-] | [_ H]]; [right|by left].
    done.
Qed.

Lemma snapshot_file_keeps snaps rf key :
  is_Some (snaps !! key) → is_Some (snapshot_file world self snaps rf !! key).
Proof.
  intros Hkey. unfold snapshot_file.
  destruct (match event_handler self with Some _ => _ | None => _ end);
    [|done].
  destruct (w_file world _); try done.
  rewrite lookup_insert_is_Some'. by right.
Qed.

Lemma snapshot_files_spec rfs snaps key v :
  fold_left (snapshot_file world self) rfs snaps !! key = Some v →
  snaps !! key = Some v ∨ ∃ rf, rf ∈ rfs ∧ captured world self rf key v.
Proof.
  revert snaps. induction rfs as [|rf rfs IH]; intros snaps; cbn [fold_left].
  { by left. }
  intros [H | (rf' & Hin & H)]%IH.
  - apply snapshot_file_spec in H as [H | H]; [by left|].
    right. exists rf. split; [left|done].
  - right. exists rf'. split; [by right|done].
Qed.

Lemma snapshot_files_keep rfs snaps key :
  is_Some (snaps !! key) →
  is_Some (fold_left (snapshot_file world self) rfs snaps !! key).
Proof.
  revert snaps. induction rfs as [|rf rfs IH]; intros snaps; cbn [fold_left].
  { done. }
  intros H. by apply IH, snapshot_file_keeps.
Qed.

End Snapshots.

(** X18.  [initialize_snapshots] changes nothing of the watcher but its
    snapshots; it removes no entry; and every entry it leaves was
    there before with the same content, or is the content of a
    readable file met by the walk of the repository that the handler
    of the watcher does not ignore, under the path of the file
    relative to the repository. *)
Theorem X18_initialize_snapshots {C} world (self : RepoWatcher C) :
  let after := initialize_snapshots world self in
  after = set_snapshots self (file_snapshots after)
  ∧ (∀ key, is_Some (file_snapshots self !! key) →
            is_Some (file_snapshots after !! key))
  ∧ (∀ key v, file_snapshots after !! key = Some v →
       file_snapshots self !! key = Some v
       ∨ ∃ rf, rf ∈ walk world (repo_path self)
               ∧ captured world self rf key v).
Proof.
  intros after. subst after. unfold initialize_snapshots.
  cbn [set_snapshots file_snapshots]. split; [done|]. split.
  - intros key. apply snapshot_files_keep.
  - intros key v. apply snapshot_files_spec.
Qed.

Lemma start_watching_snapshots {C} world (self : RepoWatcher C) key :
  is_Some (file_snapshots self !! key) →
  is_Some (file_snapshots (start_watching world self).1.2 !! key).
Proof.
  intros Hkey. unfold start_watching.
  destruct (is_running self); [done|].
  cbn [fst snd file_snapshots initialize_snapshots set_snapshots repo_path].
  by apply snapshot_files_keep.
Qed.

Lemma stop_watching_snapshots {C} world (self : RepoWatcher C) :
  file_snapshots (stop_watching world self).1.2 = file_snapshots self.
Proof.
  unfold stop_watching. destruct (negb (is_running self)); [done|].
  destruct (observer self); [|done].
  by destruct (w_stop world (repo_path self)).
Qed.

(** X19.  [stop_watching] never changes the snapshots and
    [start_watching] never removes an entry: a path that has a
    snapshot entry has one after the watcher was stopped and started
    again, whatever happened to the file in between and whether or not
    the stop and the start succeeded. *)
Theorem X19_snapshots_survive_a_restart {C} world world'
    (self : RepoWatcher C) :
  let stopped := (stop_watching world self).1.2 in
  let restarted := (start_watching world' stopped).1.2 in
  file_snapshots stopped = file_snapshots self
  ∧ ∀ key, is_Some (file_snapshots self !! key) →
           is_Some (file_snapshots restarted !! key).
Proof.
  intros stopped restarted. split; [apply stop_watching_snapshots|].
  intros key Hkey. apply start_watching_snapshots.
  unfold stopped. by rewrite stop_watching_snapshots.
Qed.

(** ** The registry as a dictionary *)

Lemma dict_get_None {V} (d : list (string * V)) key :
  dict_get d key = None ↔ key ∉ map fst d.
Proof.
  induction d as [|[k v] d IH]; cbn.
  { split; [intros _ ?%elem_of_nil; done | done]. }
  rewrite not_elem_of_cons, <- IH.
  destruct (String.eqb k key) eqn:E.
  - apply String.eqb_eq in E. split; [done | by intros [? _]].
  - apply String.eqb_neq in E. split; [by intros ? | by intros [_ ?]].
Qed.

Lemma dict_get_elem_of {V} (d : list (string * V)) key v :
  dict_get d key = Some v → (key, v) ∈ d.
Proof.
  induction d as [|[k v'] d IH]; cbn; [done|].
  destruct (String.eqb k key) eqn:E.
  - apply String.eqb_eq in E. intros [= ->]. subst. left.
  - intros H. right. by apply IH.
Qed.

Lemma dict_get_NoDup {V} (d : list (string * V)) key v :
  NoDup (map fst d) → (key, v) ∈ d → dict_get d key = Some v.
Proof.
  induction d as [|[k v'] d IH]; cbn; [by intros _ ?%elem_of_nil|].
  rewrite NoDup_cons. intros [Hk Hd] [[= -> ->] | Hin]%elem_of_cons.
  - by rewrite String.eqb_refl.
  - destruct (String.eqb k key) eqn:E; [|by apply IH].
    apply String.eqb_eq in E. subst. destruct Hk.
    apply list_elem_of_fmap. by exists (key, v).
Qed.

Lemma dict_set_keys {V} (d : list (string * V)) key v :
  key ∈ map fst d → map fst (dict_set d key v) = map fst d.
Proof.
  induction d as [|[k v'] d IH]; cbn; [by intros ?%elem_of_nil|].
  destruct (String.eqb k key) eqn:E; [done|].
  apply String.eqb_neq in E. intros [?|Hin]%elem_of_cons; [done|].
  cbn. f_equal. by apply IH.
Qed.

Lemma dict_set_elem_of {V} (d : list (string * V)) key v kv :
  kv ∈ dict_set d key v → kv ∈ d ∨ kv = (key, v).
Proof.
  induction d as [|[k v'] d IH]; cbn.
  { intros ->%list_elem_of_singleton. by right. }
  destruct (String.eqb k key) eqn:E.
  - apply String.eqb_eq in E. subst.
    intros [->|Hin]%elem_of_cons; [by right|]. left. by right.
  - intros [->|Hin]%elem_of_cons; [left; left|].
    destruct (IH Hin) as [?|?]; [left; by right | by right].
Qed.

Lemma dict_get_set {V} (d : list (string * V)) key v key' :
  dict_get (dict_set d key v) key'
  = if String.eqb key key' then Some v else dict_get d key'.
Proof.
  induction d as [|[k v'] d IH]; cbn.
  { by destruct (String.eqb key key'). }
  destruct (String.eqb k key) eqn:E; cbn.
  - apply String.eqb_eq in E. subst. by destruct (String.eqb key key').
  - rewrite IH. destruct (String.eqb k key') eqn:E'; [|done].
    apply String.eqb_eq in E'. apply String.eqb_neq in E.
    destruct (String.eqb key key') eqn:E2; [|done].
    apply String.eqb_eq in E2. congruence.
Qed.

Lemma dict_get_del {V} (d : list (string * V)) key key' :
  dict_get (dict_del d key) key'
  = if String.eqb key key' then None else dict_get d key'.
Proof.
  unfold dict_del. induction d as [|[k v] d IH]; cbn.
  { by destruct (String.eqb key key'). }
  destruct (String.eqb k key) eqn:E; cbn.
  - apply String.eqb_eq in E. subst. rewrite IH.
    by destruct (String.eqb key key').
  - rewrite IH. destruct (String.eqb k key') eqn:E'; [|done].
    apply String.eqb_eq in E'. apply String.eqb_neq in E.
    destruct (String.eqb key key') eqn:E2; [|done].
    apply String.eqb_eq in E2. congruence.
Qed.

Lemma dict_del_keys {V} (d : list (string * V)) key :
  map fst (dict_del d key) `sublist_of` map fst d.
Proof.
  unfold dict_del. induction d as [|[k v] d IH]; cbn; [done|].
  destruct (negb (String.eqb k key)); cbn.
  - by apply sublist_skip.
  - by apply sublist_cons.
Qed.

Lemma dict_del_elem_of {V} (d : list (string * V)) key kv :
  kv ∈ dict_del d key → kv ∈ d.
Proof.
  unfold dict_del. intros H%list_elem_of_In. apply list_elem_of_In.
  by apply filter_In in H as [? _].
Qed.

(** ** The watchers of a registry *)

Section Wired.

Context {C : Type}.

Implicit Types (self : WatcherManager (C := C)) (watcher : RepoWatcher C).

Lemma start_watching_entry world callbacks id watcher :
  entry_ok callbacks id watcher →
  entry_ok callbacks id (start_watching world watcher).1.2.
Proof.
  intros (Hid & Hcbs & Hrun). unfold start_watching.
  destruct (is_running watcher) eqn:E.
  { cbn [fst snd]. split; [done|]. split; [done|]. by rewrite E. }
  unfold entry_ok.
  cbn [fst snd initialize_snapshots set_snapshots repo_path repo_id
       change_callbacks is_running observer event_handler].
  split; [done|]. split; [done|]. by intros ->.
Qed.

Lemma stop_watching_entry world callbacks id watcher :
  entry_ok callbacks id watcher →
  entry_ok callbacks id (stop_watching world watcher).1.2.
Proof.
  intros Hself.
  assert (Htorn : entry_ok callbacks id (torn_down watcher)).
  { destruct Hself as (Hid & Hcbs & _). by repeat split. }
  unfold stop_watching.
  destruct (negb (is_running watcher)); [exact Hself|].
  destruct (observer watcher); [|exact Htorn].
  by destruct (w_stop world (repo_path watcher)).
Qed.

Lemma callbacks_added (callbacks : list C) watcher :
  change_callbacks (fold_left add_change_callback callbacks watcher)
  = change_callbacks watcher ++ callbacks
  ∧ repo_id (fold_left add_change_callback callbacks watcher) = repo_id watcher
  ∧ repo_path (fold_left add_change_callback callbacks watcher)
    = repo_path watcher
  ∧ is_running (fold_left add_change_callback callbacks watcher)
    = is_running watcher
  ∧ file_snapshots (fold_left add_change_callback callbacks watcher)
    = file_snapshots watcher.
Proof.
  revert watcher. induction callbacks as [|c cs IH]; intros watcher; cbn.
  { by rewrite app_nil_r. }
  destruct (IH (add_change_callback watcher c)) as (-> & -> & -> & -> & ->).
  cbn. by rewrite <- app_assoc.
Qed.

(** Replacing the watcher of a registered id by one that is in order
    keeps the registry in order. *)
Lemma wired_update self id watcher :
  wired self →
  is_Some (dict_get (watchers self) id) →
  entry_ok (manager_callbacks self) id watcher →
  wired (mkWatcherManager (dict_set (watchers self) id watcher)
                          (manager_callbacks self)).
Proof.
  intros [Hkeys Hall] Hreg Hok. split; cbn [watchers manager_callbacks].
  - rewrite dict_set_keys; [done|].
    destruct (decide (id ∈ map fst (watchers self))) as [|Hnot]; [done|].
    apply dict_get_None in Hnot. rewrite Hnot in Hreg. by destruct Hreg.
  - intros id' w' [Hin | [= -> ->]]%dict_set_elem_of; [by apply Hall | done].
Qed.

Lemma wired_start world self id :
  wired self → wired (manager_start_watching world self id).1.2.
Proof.
  intros Hwired. unfold manager_start_watching.
  destruct (dict_get (watchers self) id) as [w|] eqn:Hget; [|done].
  pose proof (start_watching_entry world (manager_callbacks self) id w) as Hok.
  destruct (start_watching world w) as [[ok w'] calls]. cbn [fst snd] in *.
  apply wired_update; [done | by rewrite Hget |].
  apply Hok. destruct Hwired as [_ Hall]. by apply Hall, dict_get_elem_of.
Qed.

Lemma wired_stop world self id :
  wired self → wired (manager_stop_watching world self id).1.2.
Proof.
  intros Hwired. unfold manager_stop_watching.
  destruct (dict_get (watchers self) id) as [w|] eqn:Hget; [|done].
  pose proof (stop_watching_entry world (manager_callbacks self) id w) as Hok.
  destruct (stop_watching world w) as [[ok w'] calls]. cbn [fst snd] in *.
  apply wired_update; [done | by rewrite Hget |].
  apply Hok. destruct Hwired as [_ Hall]. by apply Hall, dict_get_elem_of.
Qed.

Lemma wired_for_all action self :
  (∀ m id, wired m → wired (action m id).1.2) →
  wired self → wired (for_all_repositories action self).1.2.
Proof.
  intros Haction. unfold for_all_repositories.
  generalize (map fst (watchers self)) as ids.
  generalize (@nil (string * bool)) as results.
  generalize (@nil ObserverCall) as calls.
  intros calls results ids. revert calls results self.
  induction ids as [|id ids IH]; intros calls results self Hwired; [done|].
  cbn [fold_left].
  pose proof (Haction self id Hwired) as Hnext.
  destruct (action self id) as [[ok self'] calls']. by apply IH.
Qed.

Lemma wired_add world self id path :
  wired self → wired (add_repository world self id path).2.
Proof.
  intros Hwired. unfold add_repository.
  destruct (dict_get (watchers self) id) eqn:Hget; [done|].
  destruct (RepoWatcher_init world path id) as [w|] eqn:Hinit; [|done].
  cbn [snd]. apply dict_get_None in Hget.
  rewrite dict_set_fresh by done.
  unfold RepoWatcher_init in Hinit.
  destruct (negb (_validate_repository world _)); [done|].
  injection Hinit as <-.
  destruct Hwired as [Hkeys Hall]. split; cbn [watchers manager_callbacks].
  - rewrite map_app. cbn. apply NoDup_app. split; [done|]. split.
    + intros k Hk ->%list_elem_of_singleton. done.
    + apply NoDup_singleton.
  - intros id' w' [Hin | Hin%list_elem_of_singleton]%elem_of_app.
    { by apply Hall. }
    injection Hin as -> ->.
    match goal with |- context [fold_left _ _ ?w0] =>
      destruct (callbacks_added (manager_callbacks self) w0)
        as (Hcbs & Hid & _ & Hrun & _) end.
    split; [by rewrite Hid|]. split; [by rewrite Hcbs|].
    rewrite Hrun. done.
Qed.

Lemma wired_remove world self id :
  wired self → wired (remove_repository world self id).1.2.
Proof.
  intros Hwired. unfold remove_repository.
  destruct (dict_get (watchers self) id); [|done].
  destruct (stop_watching world _) as [[ok w'] calls]. cbn [fst snd].
  destruct Hwired as [Hkeys Hall]. split; cbn [watchers manager_callbacks].
  - eapply sublist_NoDup; [exact Hkeys | apply dict_del_keys].
  - intros id' w1 Hin%dict_del_elem_of. by apply Hall.
Qed.

Lemma wired_add_callback self callback :
  wired self → wired (manager_add_change_callback self callback).
Proof.
  intros [Hkeys Hall]. split; cbn [manager_add_change_callback watchers
                                   manager_callbacks].
  - rewrite map_map. cbn. done.
  - intros id w (kv & [= -> ->] & Hin)%list_elem_of_fmap.
    destruct kv as [k w0]. destruct (Hall k w0 Hin) as (Hid & Hcbs & Hrun).
    unfold entry_ok. cbn. split; [done|]. split; [by rewrite Hcbs|]. done.
Qed.

Lemma wired_op world op self : wired self → wired (run_manager_op world op self).
Proof.
  intros Hwired. destruct op; cbn [run_manager_op].
  - by apply wired_add_callback.
  - by apply wired_add.
  - by apply wired_remove.
  - by apply wired_start.
  - by apply wired_stop.
  - apply wired_for_all; [|done]. intros. by apply wired_start.
  - apply wired_for_all; [|done]. intros. by apply wired_stop.
Qed.

End Wired.

(** X20.  After any sequence of calls of [add_change_callback],
    [add_repository], [remove_repository], [start_watching],
    [stop_watching], [start_all] and [stop_all] on a new
    [WatcherManager], each in the world of its time: every id is
    registered at most once; the watcher registered under an id
    carries that id and exactly the callables of the manager, in the
    order they were added, however the additions and the registrations
    were interleaved; and a watcher that is running has a started
    observer and the handler of its path. *)
Theorem X20_registry_stays_wired {C} (ops : list (World * ManagerOp C)) :
  wired (run_manager_ops ops WatcherManager_init).
Proof.
  unfold run_manager_ops.
  assert (Hinit : wired (WatcherManager_init (C := C))).
  { split; cbn; [constructor | by intros ? ? ?%elem_of_nil]. }
  revert Hinit. generalize (WatcherManager_init (C := C)) as self.
  induction ops as [|[world op] ops IH]; intros self Hwired; [done|].
  cbn [fold_left]. by apply IH, wired_op.
Qed.

(** ** Adding and removing a repository *)

Lemma add_repository_new {C} world (self : WatcherManager (C := C)) id path :
  dict_get (watchers self) id = None →
  let result := add_repository world self id path in
  let root := PyPath.abspath (w_cwd world) path in
  result.1 = _validate_repository world root
  ∧ (result.1 = false → result.2 = self)
  ∧ (result.1 = true →
     ∃ watcher,
       watchers result.2 = watchers self ++ [(id, watcher)]
       ∧ dict_get (watchers result.2) id = Some watcher
       ∧ (∀ id', id' ≠ id →
            dict_get (watchers result.2) id' = dict_get (watchers self) id')
       ∧ manager_callbacks result.2 = manager_callbacks self
       ∧ repo_id watcher = id
       ∧ repo_path watcher = root
       ∧ change_callbacks watcher = manager_callbacks self
       ∧ is_running watcher = false
       ∧ file_snapshots watcher = ∅).
Proof.
  intros Hnew result root. subst result. unfold add_repository.
  rewrite Hnew. unfold RepoWatcher_init. fold root.
  destruct (_validate_repository world root); cbn [negb fst snd]; [|done].
  split; [done|]. split; [done|]. intros _.
  match goal with |- context [fold_left _ _ ?w0] =>
    destruct (callbacks_added (manager_callbacks self) w0)
      as (Hcbs & Hid & Hpath & Hrun & Hsnaps);
    exists (fold_left add_change_callback (manager_callbacks self) w0) end.
  cbn [watchers manager_callbacks].
  split; [by apply dict_set_fresh, dict_get_None|].
  split; [by rewrite dict_get_set, String.eqb_refl|]. split.
  { intros id' Hne. rewrite dict_get_set.
    destruct (String.eqb id id') eqn:E; [|done].
    apply String.eqb_eq in E. congruence. }
  split; [done|]. split; [by rewrite Hid|]. split; [by rewrite Hpath|].
  split; [by rewrite Hcbs|]. split; [by rewrite Hrun|]. by rewrite Hsnaps.
Qed.

(** X21.  [add_repository] for an id that is not registered answers
    whether the path, made absolute, exists and holds a git
    repository.  If not, the registry is unchanged.  If so, the id is
    registered last, the other ids keep their watchers, and the new
    watcher has the id, the absolute path and the callables of the
    manager, is not running and has no snapshots. *)
Theorem X21_add_new_repository {C} world (self : WatcherManager (C := C))
    id path :
  dict_get (watchers self) id = None →
  let result := add_repository world self id path in
  let root := PyPath.abspath (w_cwd world) path in
  result.1 = _validate_repository world root
  ∧ (result.1 = false → result.2 = self)
  ∧ (result.1 = true →
     ∃ watcher,
       watchers result.2 = watchers self ++ [(id, watcher)]
       ∧ dict_get (watchers result.2) id = Some watcher
       ∧ (∀ id', id' ≠ id →
            dict_get (watchers result.2) id' = dict_get (watchers self) id')
       ∧ manager_callbacks result.2 = manager_callbacks self
       ∧ repo_id watcher = id
       ∧ repo_path watcher = root
       ∧ change_callbacks watcher = manager_callbacks self
       ∧ is_running watcher = false
       ∧ file_snapshots watcher = ∅).
Proof. exact (add_repository_new world self id path). Qed.

(** The path "demo", relative to /srv, added to an empty registry. *)
Lemma X21_add_new_repository_witness :
  (add_repository Sample.world Cases.empty_manager "repo-1" "demo").1 = true.
Proof.
  assert (Hnew : dict_get (watchers Cases.empty_manager) "repo-1" = None)
    by done.
  destruct (X21_add_new_repository Sample.world Cases.empty_manager
              "repo-1" "demo" Hnew) as [Hanswer _].
  etransitivity; [exact Hanswer|]. vm_compute. reflexivity.
Defined.

(** X22.  [remove_repository] always answers True.  Afterwards the id is
    not registered and every other id has the watcher it had; the
    calls made to the observer are those of stopping the watcher of
    the id, if it was registered.  The id is dropped also when that
    stop failed. *)
Theorem X22_remove_repository {C} world (self : WatcherManager (C := C)) id :
  let result := remove_repository world self id in
  result.1.1 = true
  ∧ dict_get (watchers result.1.2) id = None
  ∧ (∀ id', id' ≠ id →
       dict_get (watchers result.1.2) id' = dict_get (watchers self) id')
  ∧ manager_callbacks result.1.2 = manager_callbacks self
  ∧ result.2 = match dict_get (watchers self) id with
               | Some watcher => (stop_watching world watcher).2
               | None => []
               end.
Proof.
  intros result. subst result. unfold remove_repository.
  destruct (dict_get (watchers self) id) as [watcher|] eqn:Hget.
  - destruct (stop_watching world watcher) as [[ok w'] calls].
    cbn [fst snd watchers manager_callbacks].
    split; [done|]. split; [by rewrite dict_get_del, String.eqb_refl|].
    split; [|done].
    intros id' Hne. rewrite dict_get_del.
    destruct (String.eqb id id') eqn:E; [|done].
    apply String.eqb_eq in E. congruence.
  - cbn [fst snd]. done.
Qed.

(** ** Stopping every watcher *)

Section Loop.

Context {C : Type}.
Context (f : RepoWatcher C → bool * RepoWatcher C * list ObserverCall).
Context (action : WatcherManager (C := C) → string
                  → bool * WatcherManager (C := C) * list ObserverCall).
Context (Haction : ∀ self repo_id,
  action self repo_id =
  match dict_get (watchers self) repo_id with
  | None => (false, self, [])
  | Some watcher =>
      let '(ok, watcher, calls) := f watcher in
      (ok,
       mkWatcherManager (dict_set (watchers self) repo_id watcher)
                        (manager_callbacks self),
       calls)
  end).

(** The loop of [for_all_repositories] over the entries still to
    visit, after the entries [done] were visited. *)
Lemma for_all_loop_spec (todo done : list (string * RepoWatcher C)) results
    callbacks calls :
  NoDup (map fst (done ++ todo)) →
  map fst results = map fst done →
  fold_left
    (fun acc repo_id =>
       let '(results, self, calls) := acc in
       let '(ok, self, calls') := action self repo_id in
       (dict_set results repo_id ok, self, calls ++ calls'))
    (map fst todo)
    (results, mkWatcherManager (done ++ todo) callbacks, calls)
  = (results ++ map (fun kv => (kv.1, (f kv.2).1.1)) todo,
     mkWatcherManager (done ++ map (fun kv => (kv.1, (f kv.2).1.2)) todo)
                      callbacks,
     calls ++ concat (map (fun kv => (f kv.2).2) todo)).
Proof.
  revert done results calls.
  induction todo as [|[k w] todo IH]; intros done results calls Hnodup Hkeys.
  - cbn. by rewrite !app_nil_r.
  - assert (k ∉ map fst done) as Hk.
    { rewrite map_app in Hnodup. apply NoDup_app in Hnodup as (_ & Hdisj & _).
      intros Hin. apply (Hdisj k Hin). cbn. apply list_elem_of_here. }
    cbn [map fst fold_left].
    rewrite Haction. cbn [watchers manager_callbacks].
    rewrite dict_get_app_r by done. cbn [dict_get]. rewrite String.eqb_refl.
    destruct (f w) as [[ok w'] calls'] eqn:Hf.
    rewrite dict_set_app_r by done. cbn [dict_set]. rewrite String.eqb_refl.
    rewrite dict_set_fresh by (by rewrite Hkeys).
    replace (done ++ (k, w') :: todo) with ((done ++ [(k, w')]) ++ todo)
      by (by rewrite <- app_assoc).
    rewrite IH.
    + cbn [map concat fst snd].
      rewrite Hf. cbn [fst snd]. by rewrite <- !app_assoc.
    + rewrite <- app_assoc. cbn.
      rewrite !map_app in *. cbn in *. done.
    + rewrite !map_app. cbn. by rewrite Hkeys.
Qed.

End Loop.

(** [stop_all] stops every entry on its own. *)
Lemma stop_all_spec {C} world (self : WatcherManager (C := C)) :
  NoDup (map fst (watchers self)) →
  stop_all world self
  = (map (stopped_ok world) (watchers self),
     mkWatcherManager (map (stopped_watcher world) (watchers self))
                      (manager_callbacks self),
     concat (map (stopped_calls world) (watchers self))).
Proof.
  intros Hnodup. unfold stop_all, for_all_repositories.
  destruct self as [ws cbs]. cbn [watchers manager_callbacks] in *.
  exact (for_all_loop_spec (stop_watching world)
           (manager_stop_watching world) (fun _ _ => eq_refl)
           ws [] [] cbs [] Hnodup eq_refl).
Qed.

(** X23.  [stop_all] on a registry with distinct ids answers for every
    registered id, in order of registration, what [stop_watching]
    answers for its watcher, and leaves under each id the watcher
    [stop_watching] leaves, whatever happens to the others.  If the
    observer of every running watcher stops, the join timing out
    included, every answer is True and no watcher is running
    afterwards. *)
Theorem X23_stop_all {C} world (self : WatcherManager (C := C)) :
  NoDup (map fst (watchers self)) →
  let result := stop_all world self in
  map fst result.1.1 = map fst (watchers self)
  ∧ map fst (watchers result.1.2) = map fst (watchers self)
  ∧ (∀ id watcher, (id, watcher) ∈ watchers self →
       dict_get result.1.1 id = Some (stop_watching world watcher).1.1
       ∧ dict_get (watchers result.1.2) id
         = Some (stop_watching world watcher).1.2)
  ∧ ((∀ id watcher, (id, watcher) ∈ watchers self →
        is_running watcher = true →
        w_stop world (repo_path watcher) = Joins
        ∨ w_stop world (repo_path watcher) = JoinTimesOut) →
     (∀ id ok, (id, ok) ∈ result.1.1 → ok = true)
     ∧ ∀ id watcher, (id, watcher) ∈ watchers result.1.2 →
         is_running watcher = false).
Proof.
  intros Hnodup result. subst result. rewrite stop_all_spec by done.
  cbn [fst snd watchers].
  assert (Hkeys1 : map fst (map (stopped_ok world) (watchers self))
                   = map fst (watchers self)).
  { rewrite map_map. by apply map_ext. }
  assert (Hkeys2 : map fst (map (stopped_watcher world) (watchers self))
                   = map fst (watchers self)).
  { rewrite map_map. by apply map_ext. }
  split; [done|]. split; [done|]. split.
  { intros id watcher Hin. split.
    - apply dict_get_NoDup; [by rewrite Hkeys1|].
      apply list_elem_of_fmap. by exists (id, watcher).
    - apply dict_get_NoDup; [by rewrite Hkeys2|].
      apply list_elem_of_fmap. by exists (id, watcher). }
  intros Hstops.
  assert (Hone : ∀ id watcher, (id, watcher) ∈ watchers self →
            (stop_watching world watcher).1.1 = true
            ∧ is_running (stop_watching world watcher).1.2 = false).
  { intros id watcher Hin. specialize (Hstops id watcher Hin).
    unfold stop_watching. destruct (is_running watcher) eqn:Hrun; cbn [negb].
    - destruct (observer watcher); [|done].
      by destruct (Hstops eq_refl) as [-> | ->].
    - done. }
  split.
  - intros id ok ([k w] & [= -> ->] & Hin)%list_elem_of_fmap.
    by apply (Hone k w).
  - intros id w' ([k w] & [= -> ->] & Hin)%list_elem_of_fmap.
    by apply (Hone k w).
Qed.

(** The registry of the service while /srv/demo is watched. *)
Lemma X23_stop_all_witness :
  let result := stop_all Sample.world Cases.manager in
  map fst result.1.1 = ["repo-1"]
  ∧ is_running <$> dict_get (watchers result.1.2) "repo-1" = Some false.
Proof.
  assert (Hkeys : NoDup (map fst (watchers Cases.manager)))
    by apply NoDup_singleton.
  destruct (X23_stop_all Sample.world Cases.manager Hkeys) as [Hids _].
  cbv zeta. split; [exact Hids|]. vm_compute. reflexivity.
Defined.

(** ** Counting the watchers *)

Lemma count_running_started {C} world (ws : list (string * RepoWatcher C)) :
  length (List.filter (fun kv => is_running kv.2)
            (map (started_watcher world) ws))
  = length (List.filter (fun kv : string * bool => kv.2)
              (map (started_ok world) ws)).
Proof.
  induction ws as [|[k w] ws IH]; [done|].
  cbn [map List.filter]. unfold started_watcher at 1, started_ok at 1.
  cbn [fst snd].
  assert (is_running (start_watching world w).1.2
          = (start_watching world w).1.1) as ->.
  { unfold start_watching. by destruct (is_running w) eqn:E. }
  destruct ((start_watching world w).1.1); cbn [length]; by rewrite IH.
Qed.

(** X24.  The counts of [get_watching_count]: the number of watching
    repositories lies between zero and the total, and together with
    the number of those not watching it makes the total.  After
    [start_all] on a registry with distinct ids the total is
    unchanged, the number of watching repositories is the number of
    ids [start_all] answered True for, and it is not smaller than
    before. *)
Theorem X24_watching_count {C} world (self : WatcherManager (C := C)) :
  let count := get_watching_count self in
  0 ≤ currently_watching count ≤ total_repositories count
  ∧ currently_watching count + not_watching count = total_repositories count
  ∧ (NoDup (map fst (watchers self)) →
     let result := start_all world self in
     let after := get_watching_count result.1.2 in
     total_repositories after = total_repositories count
     ∧ currently_watching after
       = Z.of_nat (length (List.filter (fun kv : string * bool => kv.2)
                             result.1.1))
     ∧ currently_watching count ≤ currently_watching after).
Proof.
  intros count. subst count. unfold get_watching_count.
  cbn [total_repositories currently_watching not_watching].
  split.
  { pose proof (filter_length_le (fun kv : string * RepoWatcher C =>
                                    is_running kv.2) (watchers self)). lia. }
  split; [lia|].
  intros Hnodup.
  rewrite start_all_spec by done.
  cbn [fst snd watchers total_repositories currently_watching].
  rewrite !length_map. split; [done|]. split.
  { by rewrite count_running_started. }
  apply inj_le. rewrite count_running_started.
  induction (watchers self) as [|[k w] ws IH]; [done|].
  cbn [map List.filter]. unfold started_ok at 1. cbn [fst snd].
  apply NoDup_cons in Hnodup as [_ Hnodup]. specialize (IH Hnodup).
  unfold start_watching at 1.
  destruct (is_running w); cbn [fst snd length]; [lia|].
  destruct (w_observable world _); cbn [length]; lia.
Qed.

(** ** Loading the repositories at startup *)

Section Load.

Context {C : Type} (world : World).

Implicit Types (self : WatcherManager (C := C)).

(** One row: its id gets the watcher of the row if the path is a
    repository and no entry otherwise; the other ids keep theirs. *)
Lemma load_repository_spec self calls repo :
  dict_get (watchers self) (r_id repo) = None →
  let after := (load_repository world (self, calls) repo).1 in
  manager_callbacks after = manager_callbacks self
  ∧ (∀ id, id ≠ r_id repo →
       dict_get (watchers after) id = dict_get (watchers self) id)
  ∧ (if _validate_repository world (PyPath.abspath (w_cwd world) (r_path repo))
     then ∃ watcher, dict_get (watchers after) (r_id repo) = Some watcher
                     ∧ loaded world (manager_callbacks self) repo watcher
     else dict_get (watchers after) (r_id repo) = None).
Proof.
  intros Hnew after. subst after. unfold load_repository.
  destruct (add_repository_new world self (r_id repo) (r_path repo) Hnew)
    as (Hanswer & Hfalse & Htrue).
  destruct (add_repository world self (r_id repo) (r_path repo))
    as [ok m1]. cbn [fst snd] in *. subst ok.
  destruct (_validate_repository world _) eqn:Hvalid.
  - destruct (Htrue eq_refl)
      as (w & _ & Hget & Hothers & Hcbs & Hid & Hpath & Hwcbs & Hrun & _).
    destruct (r_is_watching repo) eqn:Hflag; cbn [fst].
    + unfold manager_start_watching. rewrite Hget.
      destruct (start_watching world w) as [[ok w'] calls'] eqn:Hstart.
      cbn [fst watchers manager_callbacks].
      split; [done|]. split.
      { intros id Hne. rewrite dict_get_set.
        destruct (String.eqb (r_id repo) id) eqn:E; [|by apply Hothers].
        apply String.eqb_eq in E. congruence. }
      exists w'. split; [by rewrite dict_get_set, String.eqb_refl|].
      assert (w' = (start_watching world w).1.2) as -> by (by rewrite Hstart).
      unfold start_watching. rewrite Hrun.
      unfold loaded.
      cbn [fst snd initialize_snapshots set_snapshots repo_path repo_id
           change_callbacks is_running].
      by rewrite Hflag.
    + split; [done|]. split; [done|].
      exists w. split; [done|]. unfold loaded. by rewrite Hflag.
  - rewrite (Hfalse eq_refl).
    destruct (r_is_watching repo); cbn [fst].
    + unfold manager_start_watching. rewrite Hnew. done.
    + done.
Qed.

Lemma load_repositories_spec repos self calls :
  NoDup (r_id <$> repos) →
  (∀ repo, repo ∈ repos → dict_get (watchers self) (r_id repo) = None) →
  let after := (fold_left (load_repository world) repos (self, calls)).1 in
  manager_callbacks after = manager_callbacks self
  ∧ (∀ id, id ∉ r_id <$> repos →
       dict_get (watchers after) id = dict_get (watchers self) id)
  ∧ (∀ repo, repo ∈ repos →
       if _validate_repository world
            (PyPath.abspath (w_cwd world) (r_path repo))
       then ∃ watcher, dict_get (watchers after) (r_id repo) = Some watcher
                       ∧ loaded world (manager_callbacks self) repo watcher
       else dict_get (watchers after) (r_id repo) = None).
Proof.
  revert self calls. induction repos as [|repo repos IH];
    intros self calls Hids Hnew.
  { cbn. split; [done|]. split; [done|]. by intros ? ?%elem_of_nil. }
  rewrite fmap_cons, NoDup_cons in Hids. destruct Hids as [Hrepo Hids].
  cbn [fold_left].
  destruct (load_repository_spec self calls repo (Hnew repo ltac:(left)))
    as (Hcbs1 & Hothers1 & Hrow1).
  destruct (load_repository world (self, calls) repo) as [m1 calls1].
  cbn [fst] in *.
  destruct (IH m1 calls1 Hids) as (Hcbs & Hothers & Hrows).
  { intros repo' Hin. rewrite Hothers1; [by apply Hnew; right|].
    intros Heq. apply Hrepo. rewrite <- Heq.
    apply list_elem_of_fmap. by exists repo'. }
  split; [congruence|]. split.
  { intros id Hid. rewrite fmap_cons, not_elem_of_cons in Hid.
    destruct Hid as [Hne Hid]. rewrite Hothers by done. by apply Hothers1. }
  intros repo' [-> | Hin]%elem_of_cons.
  - rewrite Hothers by done. exact Hrow1.
  - specialize (Hrows repo' Hin). by rewrite Hcbs1 in Hrows.
Qed.

End Load.

(** X25.  [load_existing_repositories], for a store with distinct
    repository ids none of which is registered yet: the callables of
    the manager and the watchers of all other ids are unchanged; a row
    whose path, made absolute, does not hold a git repository gets no
    watcher; every other row gets a watcher under its id and absolute
    path, with the callables of the manager, which is running exactly
    when the row is flagged as watched and the observer of the path
    starts. *)
Theorem X25_load_existing_repositories {C} world
    (self : WatcherManager (C := C)) d :
  NoDup (r_id <$> repositories d) →
  (∀ repo, repo ∈ repositories d →
           dict_get (watchers self) (r_id repo) = None) →
  let after := (load_existing_repositories world self d).1 in
  manager_callbacks after = manager_callbacks self
  ∧ (∀ id, id ∉ r_id <$> repositories d →
       dict_get (watchers after) id = dict_get (watchers self) id)
  ∧ (∀ repo, repo ∈ repositories d →
       if _validate_repository world
            (PyPath.abspath (w_cwd world) (r_path repo))
       then ∃ watcher, dict_get (watchers after) (r_id repo) = Some watcher
                       ∧ loaded world (manager_callbacks self) repo watcher
       else dict_get (watchers after) (r_id repo) = None).
Proof.
  intros Hids Hnew. unfold load_existing_repositories.
  by apply load_repositories_spec.
Qed.

(** The sample store, whose one row is flagged as watched, loaded at
    startup. *)
Lemma X25_load_existing_repositories_witness :
  let after := (load_existing_repositories Sample.world Cases.empty_manager
                  Sample.db).1 in
  manager_callbacks after = manager_callbacks Cases.empty_manager
  ∧ is_running <$> dict_get (watchers after) "repo-1" = Some true.
Proof.
  assert (Hids : NoDup (r_id <$> repositories Sample.db))
    by apply NoDup_singleton.
  assert (Hnew : ∀ repo, repo ∈ repositories Sample.db →
            dict_get (watchers Cases.empty_manager) (r_id repo) = None)
    by done.
  destruct (X25_load_existing_repositories Sample.world Cases.empty_manager
              Sample.db Hids Hnew) as [Hcallbacks _].
  cbv zeta. split; [exact Hcallbacks|]. vm_compute. reflexivity.
Defined.
